(** * The dependency-tracking core of MobX: derivations and reactions

    A shallow embedding of [core/derivation.ts] and [core/reaction.ts]:
    the tracking run ([trackDerivedFunction], [bindDependencies],
    [clearObserving]), the stale/ready notifications
    ([notifyDependencyStale], [notifyDependencyReady]), [untracked], and
    the reaction scheduler ([Reaction.schedule], [Reaction.runReaction],
    [Reaction.track], [Reaction.dispose], [runReactions]); and of the
    helpers [getNextId], [invariant], [deprecated], [once], [unique] and
    [objectAssign] of [utils/utils.ts].

    JavaScript objects live in a store indexed by identity (a natural
    number); a function that mutates objects and may throw becomes a
    state transformer returning a completion (normal return or throw),
    the state surviving a throw exactly as in JavaScript.

    Arrays are values.  This is sound for the code at hand as long as an
    observing array is referenced by the field of its derivation and by
    the locals of the running function only, and
    [globalState.pendingReactions] is not replaced while [runReactions]
    drains it: what the source does, [resetGlobalState] on the way out
    of a failed tracking run apart. *)

From Stdlib Require Import ZArith Lia.
From stdpp Require Import base gmap sets list strings.

Local Open Scope Z_scope.

(** ** JavaScript values used by the embedded code *)

(** What the embedded code throws: [new Error(message)], the
    [TypeError] of a property access on [undefined] (a hole of an
    array), or the [RangeError] of a negative array length.
    [OutOfFuel] is no JavaScript value: it ends a loop of the
    embedding whose bound is exhausted, which [runReactions] never
    does (lemma [runReactions_while_fuel]). *)
Inductive JsError :=
  | Error (message : string)
  | TypeError
  | RangeError
  | OutOfFuel.

(** A JavaScript array of object references: [None] is a hole
    ([undefined]), as left by [new Array(n)]. *)
Definition JsArray := list (option nat).

(** [new Array(n)]: [n] holes. *)
Definition new_Array (n : nat) : JsArray := replicate n None.

(** [a.length = n]: truncates, or pads with holes. *)
Definition set_length (n : nat) (a : JsArray) : JsArray :=
  take n a ++ replicate (n - length a)%nat None.

(** [a[i] = x]: JavaScript extends the array when [i] is out of range. *)
Definition array_set (i : nat) (x : nat) (a : JsArray) : JsArray :=
  if (i <? length a)%nat then <[i := Some x]> a
  else a ++ replicate (i - length a)%nat None ++ [Some x].

(** ** Objects *)

(** One record for every node of the dependency graph: [IDerivation]
    extends [IObservable], and a [Reaction] has all the fields below.
    [observers] is the [SimpleSet<IDerivation>] of the source (a set, by
    the comment in [bindDependencies]: "addObserve is backed by a set").
    The fields [staleObservers] and [__mapid], which none of the embedded
    functions reads or writes, are left out. *)
Record Node := mkNode {
  name : string;
  observing : JsArray;
  observers : gset nat;
  diffValue : Z;
  runId : nat;
  lastAccessedBy : nat;
  unboundDepsCount : nat;
  dependencyChangeCount : Z;
  dependencyStaleCount : Z;
  isDisposed : bool;
  _isScheduled : bool;
  _isTrackPending : bool;
  _isRunning : bool
}.

(** The field initialisers of [class Reaction].  In the source all
    reactions share one empty observer set, which is never written: a
    reaction is not observable. *)
Definition new_Reaction (name : string) : Node :=
  {| name := name; observing := []; observers := ∅; diffValue := 0;
     runId := 0; lastAccessedBy := 0; unboundDepsCount := 0;
     dependencyChangeCount := 0; dependencyStaleCount := 0;
     isDisposed := false; _isScheduled := false;
     _isTrackPending := false; _isRunning := false |}.

Definition set_observing (v : JsArray) (n : Node) : Node :=
  mkNode (name n) v (observers n) (diffValue n) (runId n) (lastAccessedBy n)
    (unboundDepsCount n) (dependencyChangeCount n) (dependencyStaleCount n)
    (isDisposed n) (_isScheduled n) (_isTrackPending n) (_isRunning n).
Definition set_observers (v : gset nat) (n : Node) : Node :=
  mkNode (name n) (observing n) v (diffValue n) (runId n) (lastAccessedBy n)
    (unboundDepsCount n) (dependencyChangeCount n) (dependencyStaleCount n)
    (isDisposed n) (_isScheduled n) (_isTrackPending n) (_isRunning n).
Definition set_diffValue (v : Z) (n : Node) : Node :=
  mkNode (name n) (observing n) (observers n) v (runId n) (lastAccessedBy n)
    (unboundDepsCount n) (dependencyChangeCount n) (dependencyStaleCount n)
    (isDisposed n) (_isScheduled n) (_isTrackPending n) (_isRunning n).
Definition set_runId (v : nat) (n : Node) : Node :=
  mkNode (name n) (observing n) (observers n) (diffValue n) v (lastAccessedBy n)
    (unboundDepsCount n) (dependencyChangeCount n) (dependencyStaleCount n)
    (isDisposed n) (_isScheduled n) (_isTrackPending n) (_isRunning n).
Definition set_lastAccessedBy (v : nat) (n : Node) : Node :=
  mkNode (name n) (observing n) (observers n) (diffValue n) (runId n) v
    (unboundDepsCount n) (dependencyChangeCount n) (dependencyStaleCount n)
    (isDisposed n) (_isScheduled n) (_isTrackPending n) (_isRunning n).
Definition set_unboundDepsCount (v : nat) (n : Node) : Node :=
  mkNode (name n) (observing n) (observers n) (diffValue n) (runId n) (lastAccessedBy n)
    v (dependencyChangeCount n) (dependencyStaleCount n)
    (isDisposed n) (_isScheduled n) (_isTrackPending n) (_isRunning n).
Definition set_dependencyChangeCount (v : Z) (n : Node) : Node :=
  mkNode (name n) (observing n) (observers n) (diffValue n) (runId n) (lastAccessedBy n)
    (unboundDepsCount n) v (dependencyStaleCount n)
    (isDisposed n) (_isScheduled n) (_isTrackPending n) (_isRunning n).
Definition set_dependencyStaleCount (v : Z) (n : Node) : Node :=
  mkNode (name n) (observing n) (observers n) (diffValue n) (runId n) (lastAccessedBy n)
    (unboundDepsCount n) (dependencyChangeCount n) v
    (isDisposed n) (_isScheduled n) (_isTrackPending n) (_isRunning n).
Definition set_isDisposed (v : bool) (n : Node) : Node :=
  mkNode (name n) (observing n) (observers n) (diffValue n) (runId n) (lastAccessedBy n)
    (unboundDepsCount n) (dependencyChangeCount n) (dependencyStaleCount n)
    v (_isScheduled n) (_isTrackPending n) (_isRunning n).
Definition set__isScheduled (v : bool) (n : Node) : Node :=
  mkNode (name n) (observing n) (observers n) (diffValue n) (runId n) (lastAccessedBy n)
    (unboundDepsCount n) (dependencyChangeCount n) (dependencyStaleCount n)
    (isDisposed n) v (_isTrackPending n) (_isRunning n).
Definition set__isTrackPending (v : bool) (n : Node) : Node :=
  mkNode (name n) (observing n) (observers n) (diffValue n) (runId n) (lastAccessedBy n)
    (unboundDepsCount n) (dependencyChangeCount n) (dependencyStaleCount n)
    (isDisposed n) (_isScheduled n) v (_isRunning n).
Definition set__isRunning (v : bool) (n : Node) : Node :=
  mkNode (name n) (observing n) (observers n) (diffValue n) (runId n) (lastAccessedBy n)
    (unboundDepsCount n) (dependencyChangeCount n) (dependencyStaleCount n)
    (isDisposed n) (_isScheduled n) (_isTrackPending n) v.

(** ** The global state *)

(** The fields of [globalState] that the embedded functions use.  The
    declaration ([core/globalstate.ts]) is not part of the sources at
    hand; the fields are those the code reads and writes. *)
Module globalState.
Record t := mk {
  derivationStack : list nat;
  isTracking : bool;
  runId : nat;
  inTransaction : Z;
  pendingReactions : list nat;
  isRunningReactions : bool;
  currentReaction : option nat;
  allowStateChanges : bool;
  strictMode : bool;
  mobxGuid : nat
}.

Definition set_derivationStack (v : list nat) (g : t) : t :=
    mk v (isTracking g) (runId g) (inTransaction g) (pendingReactions g)
      (isRunningReactions g) (currentReaction g) (allowStateChanges g)
      (strictMode g) (mobxGuid g).
Definition set_isTracking (v : bool) (g : t) : t :=
    mk (derivationStack g) v (runId g) (inTransaction g) (pendingReactions g)
      (isRunningReactions g) (currentReaction g) (allowStateChanges g)
      (strictMode g) (mobxGuid g).
Definition set_runId (v : nat) (g : t) : t :=
    mk (derivationStack g) (isTracking g) v (inTransaction g) (pendingReactions g)
      (isRunningReactions g) (currentReaction g) (allowStateChanges g)
      (strictMode g) (mobxGuid g).
Definition set_pendingReactions (v : list nat) (g : t) : t :=
    mk (derivationStack g) (isTracking g) (runId g) (inTransaction g) v
      (isRunningReactions g) (currentReaction g) (allowStateChanges g)
      (strictMode g) (mobxGuid g).
Definition set_isRunningReactions (v : bool) (g : t) : t :=
    mk (derivationStack g) (isTracking g) (runId g) (inTransaction g)
      (pendingReactions g) v (currentReaction g) (allowStateChanges g)
      (strictMode g) (mobxGuid g).
Definition set_currentReaction (v : option nat) (g : t) : t :=
    mk (derivationStack g) (isTracking g) (runId g) (inTransaction g)
      (pendingReactions g) (isRunningReactions g) v (allowStateChanges g)
      (strictMode g) (mobxGuid g).
Definition set_inTransaction (v : Z) (g : t) : t :=
    mk (derivationStack g) (isTracking g) (runId g) v
      (pendingReactions g) (isRunningReactions g) (currentReaction g)
      (allowStateChanges g) (strictMode g) (mobxGuid g).
End globalState.

(** Modelled from the spec: the factory defaults of the global state,
    which [resetGlobalState] ([core/globalstate.ts], not part of the
    sources at hand) restores: "reset-global-state restores factory
    defaults (used by tests and by error recovery)".  An empty derivation
    stack and pending queue, counters at zero, flags off, state changes
    allowed. *)
Definition defaultGlobals : globalState.t :=
  globalState.mk [] false 0 0 [] false None true false 0.

(** An event reported to the spy channel ([core/spy.ts], not part of the
    sources at hand): the [type] of the reports the embedded code
    makes, with the object they are about. *)
Inductive SpyEvent :=
  | spy_error (message : string)
  | spy_scheduled_reaction (object : nat)
  | spy_reaction_start (object : nat)
  | spy_report_end.

(** The whole program state.  [nodes] is the object store; [console] is
    what [console.warn] has printed; [spyEnabled] and [spyEvents] stand
    for the spy listeners; [values] is the rest of the heap, the values
    user code keeps in its observables, which no embedded function
    touches. *)
Record State := mkState {
  nodes : nat -> Node;
  globals : globalState.t;
  console : list string;
  spyEnabled : bool;
  spyEvents : list SpyEvent;
  values : nat -> Z
}.

Definition upd_node (i : nat) (f : Node -> Node) (s : State) : State :=
  mkState (fun j => if (j =? i)%nat then f (nodes s j) else nodes s j)
    (globals s) (console s) (spyEnabled s) (spyEvents s) (values s).
Definition upd_globals (f : globalState.t -> globalState.t) (s : State) : State :=
  mkState (nodes s) (f (globals s)) (console s) (spyEnabled s) (spyEvents s) (values s).
Definition upd_console (f : list string -> list string) (s : State) : State :=
  mkState (nodes s) (globals s) (f (console s)) (spyEnabled s) (spyEvents s) (values s).
Definition upd_spyEvents (f : list SpyEvent -> list SpyEvent) (s : State) : State :=
  mkState (nodes s) (globals s) (console s) (spyEnabled s) (f (spyEvents s)) (values s).
Definition upd_values (f : (nat -> Z) -> nat -> Z) (s : State) : State :=
  mkState (nodes s) (globals s) (console s) (spyEnabled s) (spyEvents s) (f (values s)).

(** ** Computations: state and exceptions *)

(** How a call ends: it returns a value or throws, in a final state. *)
Inductive Completion (A : Type) :=
  | Return (a : A) (s : State)
  | Throw (e : JsError) (s : State).
Arguments Return {A} a s.
Arguments Throw {A} e s.

Definition M (A : Type) : Type := State -> Completion A.

Definition ret {A} (a : A) : M A := fun s => Return a s.
Definition bind {A B} (m : M A) (k : A -> M B) : M B :=
  fun s => match m s with
           | Return a s' => k a s'
           | Throw e s' => Throw e s'
           end.
Definition throw {A} (e : JsError) : M A := fun s => Throw e s.
Definition get_state : M State := fun s => Return s s.
Definition modify (f : State -> State) : M unit := fun s => Return tt (f s).

(** [try { body } catch (error) { handler error }] *)
Definition try_catch {A} (body : M A) (handler : JsError -> M A) : M A :=
  fun s => match body s with
           | Return a s' => Return a s'
           | Throw e s' => handler e s'
           end.

Declare Scope js_scope.
Delimit Scope js_scope with js.
Notation "x <- c1 ;; c2" := (bind c1 (fun x => c2))
  (at level 100, c1 at next level, right associativity) : js_scope.
Notation "c1 ;; c2" := (bind c1 (fun _ => c2))
  (at level 100, right associativity) : js_scope.
Local Open Scope js_scope.

(** The final state of a completion, however the call ended. *)
Definition final {A} (c : Completion A) : State :=
  match c with Return _ s => s | Throw _ s => s end.

Definition is_return {A} (c : Completion A) : bool :=
  match c with Return _ _ => true | Throw _ _ => false end.

(** [for (let i = 0; i < l; i++) body(a[i])] over a local array whose
    length was read before the loop. *)
Fixpoint for_each {A} (body : A -> M unit) (a : list A) : M unit :=
  match a with
  | [] => ret tt
  | x :: a' => body x ;; for_each body a'
  end.

(** Dereferencing an array element: a hole is [undefined], and a
    property access on it throws. *)
Definition deref (x : option nat) : M nat :=
  match x with
  | Some o => ret o
  | None => throw TypeError
  end.

(** The line feed of a JavaScript string. *)
Definition newline : string := String (Ascii.ascii_of_nat 10) EmptyString.

(** ** [utils/utils.ts] *)

(** [invariant(check, message)], with no [thing] argument. *)
Definition invariant (check : bool) (message : string) : M unit :=
  if check then ret tt
  else throw (Error ("[mobx] Invariant failed: " +:+ message)).


(** ** Collaborators outside the sources at hand *)

(** Modelled from the spec: [resetGlobalState] of [core/globalstate.ts],
    "reset-global-state restores factory defaults". *)
Definition resetGlobalState : M unit :=
  modify (upd_globals (fun _ => defaultGlobals)).

(** Modelled from the spec: [isSpyEnabled] and [spyReport] of
    [core/spy.ts]; the listeners of "a spy(listener) that receives
    structured events" are the log [spyEvents]. *)
Definition isSpyEnabled : M bool :=
  s <- get_state;; ret (spyEnabled s).
Definition spyReport (event : SpyEvent) : M unit :=
  modify (upd_spyEvents (fun l => l ++ [event])).

(** Modelled from the spec: [reportObserved] of [core/observable.ts],
    "if a tracking derivation is active, append this atom into that
    derivation's observing[unbound-deps-count++]".  The active derivation
    is the top of the derivation stack. *)
Definition reportObserved (observable : nat) : M unit :=
  s <- get_state;;
  if globalState.isTracking (globals s) then
    match last (globalState.derivationStack (globals s)) with
    | Some derivation =>
        let n := unboundDepsCount (nodes s derivation) in
        modify (upd_node derivation
                  (set_observing (array_set n observable (observing (nodes s derivation)))));;
        modify (upd_node derivation (set_unboundDepsCount (S n)))
    | None => ret tt
    end
  else ret tt.

Section Derivation.

(** The hooks [onBecomeObserved] and [onBecomeUnobserved] of the
    observable with a given identity ([IObservable]); user code, and
    for a [Reaction] the no-op. *)
Variable onBecomeObserved : nat -> M unit.
Variable onBecomeUnobserved : nat -> M unit.

(** [propagateStaleness] and [propagateReadiness] of
    [core/observable.ts], not part of the sources at hand, and the
    method [onDependenciesReady] of the derivation with a given
    identity. *)
Variable propagateStaleness : nat -> M unit.
Variable propagateReadiness : nat -> bool -> M unit.
Variable onDependenciesReady : nat -> M bool.

(** Modelled from the spec: [addObserver] and [removeObserver] of
    [core/observable.ts], "maintain the observer set; fire
    become-observed/unobserved hooks on edge transitions", the edge
    being the observer set going from empty to non-empty, or back. *)
Definition addObserver (observable node : nat) : M unit :=
  s <- get_state;;
  let obs := observers (nodes s observable) in
  modify (upd_node observable (set_observers ({[node]} ∪ obs)));;
  if bool_decide (obs = ∅) then onBecomeObserved observable else ret tt.

Definition removeObserver (observable node : nat) : M unit :=
  s <- get_state;;
  let obs := observers (nodes s observable) in
  modify (upd_node observable (set_observers (obs ∖ {[node]})));;
  if bool_decide (obs ≠ ∅ ∧ obs ∖ {[node]} = ∅)
  then onBecomeUnobserved observable else ret tt.

(** ** [core/derivation.ts] *)

Definition isComputingDerivation : M bool :=
  s <- get_state;;
  ret ((0 <? length (globalState.derivationStack (globals s)))%nat
     && globalState.isTracking (globals s)).

Definition notifyDependencyStale (derivation : nat) : M unit :=
  s <- get_state;;
  let c := dependencyStaleCount (nodes s derivation) + 1 in
  modify (upd_node derivation (set_dependencyStaleCount c));;
  if c =? 1 then propagateStaleness derivation else ret tt.

Definition notifyDependencyReady (derivation : nat) (dependencyDidChange : bool)
  : M unit :=
  s <- get_state;;
  invariant (0 <? dependencyStaleCount (nodes s derivation))
    "unexpected ready notification";;
  (if dependencyDidChange then
     modify (upd_node derivation
             (set_dependencyChangeCount
                (dependencyChangeCount (nodes s derivation) + 1)))
   else ret tt);;
  s <- get_state;;
  let c := dependencyStaleCount (nodes s derivation) - 1 in
  modify (upd_node derivation (set_dependencyStaleCount c));;
  if c =? 0 then
    s <- get_state;;
    if 0 <? dependencyChangeCount (nodes s derivation) then
      modify (upd_node derivation (set_dependencyChangeCount 0));;
      changed <- onDependenciesReady derivation;;
      propagateReadiness derivation changed
    else
      propagateReadiness derivation false
  else ret tt.

(** The bodies of the three loops of [bindDependencies], applied to
    the array element [x] of the turn. *)
Definition bindDependencies_mark (x : option nat) : M unit :=
  dep <- deref x;;
  modify (upd_node dep (set_diffValue (-1))).

Definition bindDependencies_add (derivation : nat) (x : option nat) : M unit :=
  dep <- deref x;;
  s <- get_state;;
  let v := diffValue (nodes s dep) + 1 in
  modify (upd_node dep (set_diffValue v));;
  if 0 <? v then
    modify (upd_node dep (set_diffValue 0));;
    addObserver dep derivation
  else ret tt.

Definition bindDependencies_remove (derivation : nat) (x : option nat) : M unit :=
  dep <- deref x;;
  s <- get_state;;
  if diffValue (nodes s dep) <? 0 then
    modify (upd_node dep (set_diffValue 0));;
    removeObserver dep derivation
  else ret tt.

(** The three loops run over the local arrays [prevObserving] and
    [observing], whose lengths are read before the loops;
    [observing.length = ...] resizes the array of the derivation in
    place. *)
Definition bindDependencies (derivation : nat) (prevObserving : JsArray) : M unit :=
  s <- get_state;;
  let newLength := unboundDepsCount (nodes s derivation) in
  let observing := set_length newLength (observing (nodes s derivation)) in
  modify (upd_node derivation (set_observing observing));;
  for_each bindDependencies_mark prevObserving;;
  for_each (bindDependencies_add derivation) observing;;
  for_each (bindDependencies_remove derivation) prevObserving.

(** The message of the [catch] block of [trackDerivedFunction];
    [console.warn] prints it, followed by "Original error:" on a new
    line and by the error itself, which the console of the embedding
    does not record. *)
Definition uncaught_message (derivation_name : string) : string :=
  "[mobx] An uncaught exception in '" +:+ derivation_name +:+
  "' occurred while calculating your computed value, autorun or transformer. Or inside the render() method of an observer based React component. " +:+
  "These functions should never throw exceptions as MobX will not always be able to recover from them. " +:+
  "Please fix the error reported after this message or enable 'Pause on (caught) exceptions' in your debugger to find the root cause.".

(** [globalState.derivationStack.length -= 1]; a negative length is a
    [RangeError]. *)
Definition pop_derivationStack : M unit :=
  s <- get_state;;
  match globalState.derivationStack (globals s) with
  | [] => throw RangeError
  | stack =>
      modify (upd_globals (globalState.set_derivationStack
                           (take (length stack - 1)%nat stack)))
  end.

Definition trackDerivedFunction {T} (derivation : nat) (f : M T) : M T :=
  s <- get_state;;
  let prevObserving := observing (nodes s derivation) in
  modify (upd_node derivation
            (set_observing (new_Array (length prevObserving + 100)%nat)));;
  modify (upd_node derivation (set_unboundDepsCount 0));;
  modify (upd_globals (fun g =>
            globalState.set_runId (S (globalState.runId g)) g));;
  s <- get_state;;
  modify (upd_node derivation (set_runId (globalState.runId (globals s))));;
  modify (upd_globals (fun g =>
          globalState.set_derivationStack
              (globalState.derivationStack g ++ [derivation]) g));;
  s <- get_state;;
  let prevTracking := globalState.isTracking (globals s) in
  modify (upd_globals (globalState.set_isTracking true));;
  try_catch
    (result <- f;;
     modify (upd_globals (globalState.set_isTracking prevTracking));;
     pop_derivationStack;;
     bindDependencies derivation prevObserving;;
     ret result)
  (fun error =>
       s <- get_state;;
       let message := uncaught_message (name (nodes s derivation)) in
       spy <- isSpyEnabled;;
       (if spy then spyReport (spy_error message) else ret tt);;
       modify (upd_console (fun l => l ++ [message +:+ newline +:+ "Original error:"]));;
       modify (upd_node derivation (set_unboundDepsCount 0));;
       modify (upd_node derivation (set_observing prevObserving));;
       resetGlobalState;;
       throw error).

Definition clearObserving (derivation : nat) : M unit :=
  s <- get_state;;
  let obs := observing (nodes s derivation) in
  for_each (fun x => o <- deref x;; removeObserver o derivation) obs;;
  modify (upd_node derivation (set_observing (set_length 0 obs))).

Definition untrackedStart : M bool :=
  s <- get_state;;
  let prev := globalState.isTracking (globals s) in
  modify (upd_globals (globalState.set_isTracking false));;
  ret prev.

Definition untrackedEnd (prev : bool) : M unit :=
  modify (upd_globals (globalState.set_isTracking prev)).

Definition untracked {T} (action : M T) : M T :=
  prev <- untrackedStart;;
  res <- action;;
  untrackedEnd prev;;
  ret res.

End Derivation.

(** ** [core/reaction.ts] *)

Definition MAX_REACTION_ITERATIONS : nat := 100.

Section Reaction.

(** The hooks of the observables, and the [onInvalidate] callback each
    reaction was constructed with. *)
Variable onBecomeObserved : nat -> M unit.
Variable onBecomeUnobserved : nat -> M unit.
Variable onInvalidate : nat -> M unit.

Definition Reaction_toString (this : nat) : M string :=
  s <- get_state;;
  ret ("Reaction[" +:+ name (nodes s this) +:+ "]").

Definition Reaction_isScheduled (this : nat) : M bool :=
  s <- get_state;;
  ret ((0 <? dependencyStaleCount (nodes s this)) || _isScheduled (nodes s this)).

Definition Reaction_runReaction (this : nat) : M unit :=
  s <- get_state;;
  if negb (isDisposed (nodes s this)) then
    modify (upd_node this (set__isScheduled false));;
    modify (upd_node this (set__isTrackPending true));;
    onInvalidate this;;
    s <- get_state;;
    spy <- (if _isTrackPending (nodes s this) then isSpyEnabled else ret false);;
    if spy then spyReport (spy_scheduled_reaction this) else ret tt
  else ret tt.

(** The body of the [while] loop of [runReactions]:
    [allReactions.splice(0)] empties the queue, then every reaction
    taken off it is run. *)
Definition runReactions_batch : M unit :=
  s <- get_state;;
  let remainingReactions := globalState.pendingReactions (globals s) in
  modify (upd_globals (globalState.set_pendingReactions []));;
  for_each (fun r =>
    modify (upd_globals (globalState.set_currentReaction (Some r)));;
    Reaction_runReaction r) remainingReactions.

(** The [while] loop of [runReactions], entered with the current value
    of [iterations].  [fuel] bounds the number of turns of the
    embedding. *)
Fixpoint runReactions_while (fuel iterations : nat) : M unit :=
  s <- get_state;;
  match globalState.pendingReactions (globals s) with
  | [] => ret tt
  | first :: _ =>
      let iterations := S iterations in
      if (iterations =? MAX_REACTION_ITERATIONS)%nat then
        str <- Reaction_toString first;;
        throw (Error ("Reaction doesn't converge to a stable state. Probably there is a cycle in the reactive function: " +:+ str))
      else
        match fuel with
        | O => throw OutOfFuel
        | S fuel' =>
            runReactions_batch;;
            runReactions_while fuel' iterations
        end
  end.

Definition runReactions : M unit :=
  s <- get_state;;
  if globalState.isRunningReactions (globals s)
     || (0 <? globalState.inTransaction (globals s))
  then ret tt
  else
    modify (upd_globals (globalState.set_isRunningReactions true));;
    runReactions_while MAX_REACTION_ITERATIONS 0;;
    modify (upd_globals (globalState.set_currentReaction None));;
    modify (upd_globals (globalState.set_isRunningReactions false)).

Definition Reaction_schedule (this : nat) : M unit :=
  s <- get_state;;
  if negb (_isScheduled (nodes s this)) then
    modify (upd_node this (set__isScheduled true));;
    modify (upd_globals (fun g =>
              globalState.set_pendingReactions
                (globalState.pendingReactions g ++ [this]) g));;
    runReactions
  else ret tt.

Definition Reaction_onDependenciesReady (this : nat) : M bool :=
  Reaction_schedule this;;
  ret false.

(** [Date.now()] and the [time] of the end report are left out: the spy
    events carry no time. *)
Definition Reaction_track (this : nat) (fn : M unit) : M unit :=
  notify <- isSpyEnabled;;
  (if notify then spyReport (spy_reaction_start this) else ret tt);;
  modify (upd_node this (set__isRunning true));;
  trackDerivedFunction onBecomeObserved onBecomeUnobserved this fn;;
  modify (upd_node this (set__isRunning false));;
  modify (upd_node this (set__isTrackPending false));;
  s <- get_state;;
  (if isDisposed (nodes s this) then
     clearObserving onBecomeUnobserved this
   else ret tt);;
  if notify then spyReport spy_report_end else ret tt.

Definition Reaction_dispose (this : nat) : M unit :=
  s <- get_state;;
  if negb (isDisposed (nodes s this)) then
    modify (upd_node this (set_isDisposed true));;
    s <- get_state;;
    if negb (_isRunning (nodes s this)) then
      clearObserving onBecomeUnobserved this
    else ret tt
  else ret tt.

End Reaction.

(** ** States and programs of the examples *)

(** The state in which [trackDerivedFunction] calls [f]: lines 287 to
    295 of the function, before the [try]. *)
Definition tracking_state (derivation : nat) (s : State) : State :=
  let s1 := upd_node derivation
              (set_observing (new_Array (length (observing (nodes s derivation)) + 100)%nat)) s in
  let s2 := upd_node derivation (set_unboundDepsCount 0) s1 in
  let s3 := upd_globals (fun g => globalState.set_runId (S (globalState.runId g)) g) s2 in
  let s4 := upd_node derivation (set_runId (globalState.runId (globals s3))) s3 in
  let s5 := upd_globals (fun g => globalState.set_derivationStack
                                    (globalState.derivationStack g ++ [derivation]) g) s4 in
  upd_globals (globalState.set_isTracking true) s5.

(** The hooks of a [Reaction]: "noop, reaction is always unobserved". *)
Definition Reaction_onBecomeObserved (this : nat) : M unit := ret tt.
Definition Reaction_onBecomeUnobserved (this : nat) : M unit := ret tt.

(** A store of fresh reactions under the factory defaults of the global
    state. *)
Definition initial_state : State :=
  mkState (fun _ => new_Reaction "Reaction") defaultGlobals [] false [] (fun _ => 0).

(** User code that throws. *)
Definition throwing_action : M unit := throw (Error "boom").

(** ** Notifications received by one derivation *)

(** A notification a derivation receives from one of its dependencies:
    a call of [notifyDependencyStale] or of [notifyDependencyReady]. *)
Inductive Notification :=
  | Stale
  | Ready (dependencyDidChange : bool).

Definition notify (propagateStaleness : nat -> M unit)
    (propagateReadiness : nat -> bool -> M unit)
    (onDependenciesReady : nat -> M bool)
    (derivation : nat) (n : Notification) : M unit :=
  match n with
  | Stale => notifyDependencyStale propagateStaleness derivation
  | Ready b => notifyDependencyReady propagateReadiness onDependenciesReady derivation b
  end.

(** The number of stale notifications of a sequence that no ready
    notification has answered yet: the propagation window of the
    derivation is open while it is positive. *)
Fixpoint open_stale (l : list Notification) : Z :=
  match l with
  | [] => 0
  | Stale :: l' => open_stale l' + 1
  | Ready _ :: l' => open_stale l' - 1
  end.

(** No derivation has a negative stale count. *)
Definition stale_counts_nonnegative (s : State) : Prop :=
  forall x, 0 <= dependencyStaleCount (nodes s x).

(** [propagateReadiness] and [propagateStaleness] of a node without
    observers, such as a reaction, whose observer set is permanently
    empty: there is nobody to notify. *)
Definition unobserved_propagateStaleness (observable : nat) : M unit := ret tt.
Definition unobserved_propagateReadiness (observable : nat) (changed : bool) : M unit :=
  ret tt.

(** Reactions whose [onInvalidate] does nothing. *)
Definition idle_onInvalidate (this : nat) : M unit := ret tt.

(** ** The pending queue *)

(** The queue holds no reaction twice, and every reaction it holds has
    its [_isScheduled] flag set. *)
Definition queue_ok (s : State) : Prop :=
  NoDup (globalState.pendingReactions (globals s))
  ∧ forall r, r ∈ globalState.pendingReactions (globals s) ->
              _isScheduled (nodes s r) = true.

(** The reactions of [X] are flagged as scheduled and are not in the
    queue: they were taken off it and have not run yet. *)
Definition scheduled_outside (X : nat -> Prop) (s : State) : Prop :=
  forall x, X x -> _isScheduled (nodes s x) = true
                   ∧ x ∉ globalState.pendingReactions (globals s).

(** A computation that respects the queue: it keeps [queue_ok], and it
    neither clears the flag of a reaction that was taken off the queue
    nor puts such a reaction back. *)
Definition queue_discipline {A} (m : M A) : Prop :=
  forall X s, queue_ok s -> scheduled_outside X s ->
              queue_ok (final (m s)) ∧ scheduled_outside X (final (m s)).

(** [n] turns of the loop of [runReactions], without the iteration
    guard. *)
Fixpoint drain_rounds (onInvalidate : nat -> M unit) (n : nat) : M unit :=
  match n with
  | O => ret tt
  | S n' => runReactions_batch onInvalidate;; drain_rounds onInvalidate n'
  end.

(** A reaction that triggers itself again as long as the value it keeps
    is positive, decrementing the value on each run.  It runs inside
    [runReactions], where the [runReactions] that [schedule] calls
    returns at once, whatever the callbacks are (lemma
    [schedule_while_running]). *)
Definition countdown_onInvalidate (this : nat) : M unit :=
  s <- get_state;;
  if 0 <? values s this then
    modify (upd_values (fun v x => if (x =? this)%nat then v x - 1 else v x));;
    Reaction_schedule idle_onInvalidate this
  else ret tt.

(** Reaction [0] is scheduled, and will trigger itself [n] more
    times. *)
Definition countdown_state (n : Z) : State :=
  upd_values (fun v x => if (x =? 0)%nat then n else v x)
    (upd_globals (globalState.set_pendingReactions [0%nat])
       (upd_node 0%nat (set__isScheduled true) initial_state)).

(** ** The dependency graph *)

(** Derivation [D] and the observables agree on what [D] observes: an
    observable is in [D.observing] exactly when [D] is in its observer
    set. *)
Definition linked (D : nat) (s : State) : Prop :=
  forall A, Some A ∈ observing (nodes s D) <-> D ∈ observers (nodes s A).

(** Every [diffValue] is zero. *)
Definition clean (s : State) : Prop :=
  forall x, diffValue (nodes s x) = 0.

(** A hook that writes no [diffValue]. *)
Definition hook_keeps_diffValue (h : nat -> M unit) : Prop :=
  forall o s x, diffValue (nodes (final (h o s)) x) = diffValue (nodes s x).

(** A hook that stays out of the binding of derivation [d]: it writes no
    [diffValue], neither adds [d] to an observer set nor removes it,
    leaves [d.observing] alone, and keeps the other derivations
    linked. *)
Definition hook_frame (d : nat) (h : nat -> M unit) : Prop :=
  forall o s,
    (forall x, diffValue (nodes (final (h o s)) x) = diffValue (nodes s x))
    ∧ (forall x, d ∈ observers (nodes (final (h o s)) x) <-> d ∈ observers (nodes s x))
    ∧ observing (nodes (final (h o s)) d) = observing (nodes s d)
    ∧ (forall D, D <> d -> linked D s -> linked D (final (h o s))).

(** Derivation [0] observed [1] and [2] in its previous run, and has
    read [2], [3] and [3] again in the run that just ended. *)
Definition previous_observing : JsArray := [Some 1%nat; Some 2%nat].

Definition rebinding_state : State :=
  upd_node 0%nat (set_unboundDepsCount 3)
    (upd_node 0%nat (set_observing ([Some 2%nat; Some 3%nat; Some 3%nat] ++ new_Array 99))
       (upd_node 1%nat (set_observers {[0%nat]})
          (upd_node 2%nat (set_observers {[0%nat]}) initial_state))).

(** What a tracked function may do while derivation [d] is being
    tracked from state [s], besides reading observables (which fills
    [d.observing]): it writes no [diffValue], neither adds [d] to an
    observer set nor removes it, and keeps the other derivations
    linked. *)
Definition tracked_function_frame {T} (d : nat) (f : M T) (s : State) : Prop :=
  forall v s1, f (tracking_state d s) = Return v s1 ->
    (forall y, diffValue (nodes s1 y) = diffValue (nodes s y))
    ∧ (forall y, d ∈ observers (nodes s1 y) <-> d ∈ observers (nodes s y))
    ∧ (forall D, D <> d -> linked D s -> linked D s1).

(** Derivation [0] observes [1] and [2], which have it as their
    observer. *)
Definition bound_state : State :=
  upd_node 0%nat (set_observing previous_observing)
    (upd_node 1%nat (set_observers {[0%nat]})
       (upd_node 2%nat (set_observers {[0%nat]}) initial_state)).

(** A tracked function that reads the observables of a list, in
    order. *)
Definition reads (l : list nat) : M unit := for_each reportObserved l.

(** The state in which [Reaction.track] calls [trackDerivedFunction]:
    the start of the run was reported to the spy, when enabled, and
    [_isRunning] is set. *)
Definition track_entry (this : nat) (s : State) : State :=
  upd_node this (set__isRunning true)
    (if spyEnabled s
     then upd_spyEvents (fun l => l ++ [spy_reaction_start this]) s
     else s).


(** ** More of [utils/utils.ts] *)

(** [list.indexOf(item)], by strict equality: the index of the first
    occurrence, or -1.  The elements are references or strings, on which
    strict equality is equality (it is not on [NaN]). *)
Fixpoint indexOf {T} `{EqDecision T} (array : list T) (item : T) : Z :=
  match array with
  | [] => -1
  | x :: array' =>
      if decide (x = item) then 0
      else let i := indexOf array' item in
           if i =? -1 then -1 else i + 1
  end.

(** [unique]: [forEach] pushes an item on [res] when
    [res.indexOf(item) === -1]. *)
Definition unique {T} `{EqDecision T} (items : list T) : list T :=
  foldl (fun res item => if indexOf res item =? -1 then res ++ [item] else res)
    [] items.

(** How a call of a function over a state of type [W] ends. *)
Inductive Outcome (W R : Type) :=
  | Returns (r : R) (w : W)
  | Throws (e : JsError) (w : W).
Arguments Returns {W R} r w.
Arguments Throws {W R} e w.

(** [once(func)]: the function it returns, applied to the state made of
    its closure variable [invoked] and of the rest of the heap; [None]
    is [undefined].  [func] has no access to [invoked]. *)
Definition once {W R} (func : W -> Outcome W R) (st : bool * W)
  : Outcome (bool * W) (option R) :=
  let invoked := fst st in
  if invoked then Returns None st
  else
    match func (snd st) with
    | Returns r w => Returns (Some r) (true, w)
    | Throws e w => Throws e (true, w)
    end.

(** The state an outcome leaves. *)
Definition outcome_state {W R} (o : Outcome W R) : W :=
  match o with Returns _ w => w | Throws _ w => w end.

(** The module variable [deprecatedMessages] and what [console.error]
    has printed. *)
Record Deprecations := mkDeprecations {
  deprecatedMessages : list string;
  console_error : list string
}.

Definition deprecated (msg : string) (st : Deprecations) : bool * Deprecations :=
  if negb (indexOf (deprecatedMessages st) msg =? -1) then (false, st)
  else
    (true,
     mkDeprecations (deprecatedMessages st ++ [msg])
       (console_error st ++ ["[mobx] Deprecated: " +:+ msg])).

(** A sequence of calls of [deprecated], the results dropped. *)
Definition deprecated_calls (msgs : list string) (st : Deprecations) : Deprecations :=
  foldl (fun st msg => snd (deprecated msg st)) st msgs.


(** ** Callbacks and states of further examples *)

(** An [onInvalidate] callback that only changes values user code
    keeps: reaction [r] applies [g r] to them. *)
Definition heap_callback (g : nat -> (nat -> Z) -> nat -> Z) (r : nat) : M unit :=
  modify (upd_values (g r)).

(** The [onInvalidate] callback of an autorun, "the onInvalidate handler
    should somehow result in a call to this.track(someFunction)": the
    reaction tracks its function at once. *)
Definition autorun_onInvalidate (onBecomeObserved onBecomeUnobserved : nat -> M unit)
    (view : nat -> M unit) (this : nat) : M unit :=
  Reaction_track onBecomeObserved onBecomeUnobserved this (view this).

(** Derivation [d] differs between [s] and [s'] in its two dependency
    counters at most, and nothing else differs. *)
Definition counters_only (d : nat) (s s' : State) : Prop :=
  (forall x, x <> d -> nodes s' x = nodes s x)
  ∧ nodes s' d
    = set_dependencyStaleCount (dependencyStaleCount (nodes s' d))
        (set_dependencyChangeCount (dependencyChangeCount (nodes s' d)) (nodes s d))
  ∧ globals s' = globals s
  ∧ console s' = console s
  ∧ spyEnabled s' = spyEnabled s
  ∧ spyEvents s' = spyEvents s
  ∧ values s' = values s.

(** A callback under which the reactions log their runs: reaction [r]
    appends the digit [r] to the number kept at [0]. *)
Definition logging_callback : nat -> (nat -> Z) -> nat -> Z :=
  fun r v x => if (x =? 0)%nat then 10 * v 0%nat + Z.of_nat r else v x.

(** Reactions [1], [2] and [3] are scheduled, in this order, and
    reaction [2] has been disposed of since. *)
Definition queued_state : State :=
  upd_node 2%nat (set_isDisposed true)
    (upd_globals (globalState.set_pendingReactions [1%nat; 2%nat; 3%nat])
       (upd_node 1%nat (set__isScheduled true)
          (upd_node 2%nat (set__isScheduled true)
             (upd_node 3%nat (set__isScheduled true) initial_state)))).

(** The flags [_isScheduled] and the queue agree: the flagged reactions
    are those of the queue.  This holds outside of [runReactions]. *)
Definition queue_flags (s : State) : Prop :=
  forall r, _isScheduled (nodes s r) = true
            <-> r ∈ globalState.pendingReactions (globals s).

(** A wave of notifications, as one derivation receives it while a
    change is propagated: started at [c] unanswered stale notifications,
    the number of those stays positive until the last notification, and
    is zero after it. *)
Fixpoint wave_from (c : Z) (l : list Notification) : bool :=
  match l with
  | [] => false
  | n :: l' =>
      let c' := c + (match n with Stale => 1 | Ready _ => -1 end) in
      match l' with
      | [] => c' =? 0
      | _ :: _ => (0 <? c') && wave_from c' l'
      end
  end.

(** Some ready notification of the list reports a change. *)
Definition dependency_changed (l : list Notification) : bool :=
  existsb (fun n => match n with Ready true => true | _ => false end) l.

(** A reaction function that reads the observables of a list and then
    throws. *)
Definition reads_then_throws (l : list nat) : M unit :=
  reads l;;
  throwing_action.

(** What the scheduler reads is the same in [s'] as in [s]: the name
    and the flags of every reaction, the queue, the runner flag, the
    current reaction and the transaction depth; and so are the console,
    the spy log and the values of user code. *)
Definition scheduling_frame (s s' : State) : Prop :=
  (forall x, name (nodes s' x) = name (nodes s x)
             ∧ isDisposed (nodes s' x) = isDisposed (nodes s x)
             ∧ _isScheduled (nodes s' x) = _isScheduled (nodes s x)
             ∧ _isTrackPending (nodes s' x) = _isTrackPending (nodes s x)
             ∧ _isRunning (nodes s' x) = _isRunning (nodes s x))
  ∧ globalState.pendingReactions (globals s')
    = globalState.pendingReactions (globals s)
  ∧ globalState.isRunningReactions (globals s')
    = globalState.isRunningReactions (globals s)
  ∧ globalState.inTransaction (globals s') = globalState.inTransaction (globals s)
  ∧ globalState.currentReaction (globals s') = globalState.currentReaction (globals s)
  ∧ console s' = console s
  ∧ spyEnabled s' = spyEnabled s
  ∧ spyEvents s' = spyEvents s
  ∧ values s' = values s.

(** Reactions whose [onInvalidate] throws. *)
Definition throwing_onInvalidate (this : nat) : M unit := throwing_action.

(** * Verification *)

Ltac unfold_monad :=
  unfold bind, ret, modify, get_state, throw, try_catch in *.

Lemma upd_node_same i f s : nodes (upd_node i f s) i = f (nodes s i).
Proof. cbn. by rewrite Nat.eqb_refl. Qed.

Lemma upd_node_other i j f s : j <> i -> nodes (upd_node i f s) j = nodes s j.
Proof. intros H. cbn. apply Nat.eqb_neq in H. by rewrite H. Qed.

Ltac proj_simpl :=
  cbn [name observing observers diffValue runId lastAccessedBy unboundDepsCount
       dependencyChangeCount dependencyStaleCount isDisposed _isScheduled
       _isTrackPending _isRunning
       set_observing set_observers set_diffValue set_runId set_lastAccessedBy
       set_unboundDepsCount set_dependencyChangeCount set_dependencyStaleCount
       set_isDisposed set__isScheduled set__isTrackPending set__isRunning
       globals console spyEnabled spyEvents values upd_globals upd_console
       upd_spyEvents upd_values] in *.

Ltac node_simpl :=
  repeat (rewrite upd_node_same in * ); proj_simpl.

(** ** The guard of [runReactions] *)

Lemma runReactions_guard oi s :
  globalState.isRunningReactions (globals s) = true
  ∨ 0 < globalState.inTransaction (globals s) →
  runReactions oi s = Return tt s.
Proof.
  intros H. unfold runReactions. unfold_monad.
  destruct H as [-> | H]; [reflexivity|].
  apply Z.ltb_lt in H. rewrite H, orb_true_r. reflexivity.
Qed.

(** C5: while the runner is active or a transaction is open,
    [runReactions] returns at once in the state it was called in,
    whatever the [onInvalidate] callbacks are, so no pending reaction is
    run and the queue is left as it was; [schedule] then only flags the
    reaction and appends it to the queue. *)
Theorem C5_runReactions_noop_in_transaction :
  forall (onInvalidate : nat -> M unit) (s : State),
    globalState.isRunningReactions (globals s) = true
    ∨ 0 < globalState.inTransaction (globals s) ->
    runReactions onInvalidate s = Return tt s
    ∧ forall this, _isScheduled (nodes s this) = false ->
        Reaction_schedule onInvalidate this s
        = Return tt
            (upd_globals (fun g => globalState.set_pendingReactions
                                     (globalState.pendingReactions g ++ [this]) g)
               (upd_node this (set__isScheduled true) s)).
Proof.
  intros oi s H. split.
  - by apply runReactions_guard.
  - intros this Hs. unfold Reaction_schedule. unfold_monad.
    rewrite Hs. cbn [negb]. cbv beta. rewrite runReactions_guard; [reflexivity|].
    exact H.
Qed.

(** Inside a transaction, a pending reaction is not run. *)
Lemma C5_runReactions_noop_in_transaction_witness :
  runReactions countdown_onInvalidate
    (upd_globals (globalState.set_inTransaction 1) (countdown_state 3))
  = Return tt (upd_globals (globalState.set_inTransaction 1) (countdown_state 3)).
Proof.
  apply (C5_runReactions_noop_in_transaction countdown_onInvalidate
           (upd_globals (globalState.set_inTransaction 1) (countdown_state 3))).
  right. cbn. lia.
Defined.

(** ** [untracked] *)

(** C6, as stated, fails: an action that throws inside [untracked],
    entered while tracking, leaves [isTracking] cleared. *)
Lemma C6_untracked_throw_not_restored :
  globalState.isTracking
    (globals (final (untracked throwing_action
                       (upd_globals (globalState.set_isTracking true) initial_state))))
  <> globalState.isTracking
       (globals (upd_globals (globalState.set_isTracking true) initial_state)).
Proof. cbn. discriminate. Qed.

(** C6, amended: [untracked] calls the action with [isTracking]
    cleared; when the action returns, [isTracking] is set back to the
    value it had before the call, whatever the action did to it, and the
    result of the action is returned; when the action throws, the
    exception propagates in the state the action left, [isTracking] not
    restored. *)
Theorem C6_untracked_restores_on_return :
  forall (T : Type) (action : M T) (s : State),
    let prev := globalState.isTracking (globals s) in
    let s0 := upd_globals (globalState.set_isTracking false) s in
    globalState.isTracking (globals s0) = false
    ∧ match action s0 with
      | Return res s1 =>
          untracked action s
          = Return res (upd_globals (globalState.set_isTracking prev) s1)
          ∧ globalState.isTracking (globals (final (untracked action s))) = prev
      | Throw e s1 => untracked action s = Throw e s1
      end.
Proof.
  intros T action s prev s0. split; [reflexivity|].
  unfold untracked, untrackedStart, untrackedEnd. unfold_monad.
  fold s0. destruct (action s0) as [res s1|e s1]; [|reflexivity].
  split; reflexivity.
Qed.

(** ** The exception path of [trackDerivedFunction] *)

Lemma trackDerivedFunction_unfold {T} obO obU d (f : M T) s :
  trackDerivedFunction obO obU d f s =
  try_catch
    (result <- f;;
     modify (upd_globals (globalState.set_isTracking (globalState.isTracking (globals s))));;
     pop_derivationStack;;
     bindDependencies obO obU d (observing (nodes s d));;
     ret result)
    (fun error =>
       s' <- get_state;;
       let message := uncaught_message (name (nodes s' d)) in
       spy <- isSpyEnabled;;
       (if spy then spyReport (spy_error message) else ret tt);;
       modify (upd_console (fun l => l ++ [message +:+ newline +:+ "Original error:"]));;
       modify (upd_node d (set_unboundDepsCount 0));;
       modify (upd_node d (set_observing (observing (nodes s d))));;
       resetGlobalState;;
       throw error)
    (tracking_state d s).
Proof. reflexivity. Qed.

(** C4: when [f] throws inside [trackDerivedFunction], the same
    exception is rethrown, after the message was printed on the console;
    in the final state [unboundDepsCount] of the derivation is zero, its
    [observing] is the array it had before the call, the global state is
    the factory default, and every observer set is as [f] left it: the
    dependencies recorded by the partial run are not bound. *)
Theorem C4_trackDerivedFunction_exception :
  forall (T : Type) (onBecomeObserved onBecomeUnobserved : nat -> M unit)
         (derivation : nat) (f : M T) (s s1 : State) (error : JsError),
    f (tracking_state derivation s) = Throw error s1 ->
    exists s',
      trackDerivedFunction onBecomeObserved onBecomeUnobserved derivation f s
      = Throw error s'
      ∧ unboundDepsCount (nodes s' derivation) = 0%nat
      ∧ observing (nodes s' derivation) = observing (nodes s derivation)
      ∧ globals s' = defaultGlobals
      ∧ console s'
        = console s1 ++ [uncaught_message (name (nodes s1 derivation))
                         +:+ newline +:+ "Original error:"]
      ∧ (forall o, observers (nodes s' o) = observers (nodes s1 o)).
Proof.
  intros T obO obU d f s s1 e Hf.
  rewrite trackDerivedFunction_unfold.
  unfold try_catch at 1. unfold bind at 1. rewrite Hf.
  unfold isSpyEnabled, spyReport, resetGlobalState. unfold_monad.
  destruct (spyEnabled s1); eexists; (split; [reflexivity|]);
    rewrite ?upd_node_same; cbn; rewrite ?Nat.eqb_refl; cbn;
    (repeat split; try reflexivity);
    intros o; destruct (o =? d)%nat; reflexivity.
Qed.

(** The exception path is taken: a run whose function throws. *)
Lemma C4_trackDerivedFunction_exception_witness :
  exists s',
    trackDerivedFunction Reaction_onBecomeObserved Reaction_onBecomeUnobserved
      0%nat throwing_action initial_state
    = Throw (Error "boom") s'
    ∧ unboundDepsCount (nodes s' 0%nat) = 0%nat
    ∧ observing (nodes s' 0%nat) = observing (nodes initial_state 0%nat)
    ∧ globals s' = defaultGlobals
    ∧ console s'
      = console (tracking_state 0%nat initial_state)
        ++ [uncaught_message (name (nodes (tracking_state 0%nat initial_state) 0%nat))
            +:+ newline +:+ "Original error:"]
    ∧ (forall o, observers (nodes s' o)
                 = observers (nodes (tracking_state 0%nat initial_state) o)).
Proof.
  apply (C4_trackDerivedFunction_exception unit Reaction_onBecomeObserved
           Reaction_onBecomeUnobserved 0%nat throwing_action initial_state
           (tracking_state 0%nat initial_state) (Error "boom")).
  reflexivity.
Defined.

(** ** The ready notification *)

Lemma notifyDependencyReady_run pr d (changed : bool) s :
  0 < dependencyStaleCount (nodes s d) ->
  exists s1,
    dependencyStaleCount (nodes s1 d) = dependencyStaleCount (nodes s d) - 1
    ∧ dependencyChangeCount (nodes s1 d)
      = dependencyChangeCount (nodes s d) + (if changed then 1 else 0)
    ∧ (forall x, x <> d -> nodes s1 x = nodes s x)
    ∧ globals s1 = globals s
    ∧ forall odr,
        notifyDependencyReady pr odr d changed s =
        (if dependencyStaleCount (nodes s1 d) =? 0
         then if 0 <? dependencyChangeCount (nodes s1 d)
              then (c <- odr d;; pr d c) (upd_node d (set_dependencyChangeCount 0) s1)
              else pr d false s1
         else Return tt s1).
Proof.
  intros Hpos.
  set (sa := if changed
             then upd_node d (set_dependencyChangeCount
                                (dependencyChangeCount (nodes s d) + 1)) s
             else s).
  set (s1 := upd_node d (set_dependencyStaleCount
                           (dependencyStaleCount (nodes sa d) - 1)) sa).
  assert (Hsa : dependencyStaleCount (nodes sa d) = dependencyStaleCount (nodes s d)).
  { subst sa. destruct changed; [rewrite upd_node_same|]; reflexivity. }
  assert (Hs1 : dependencyStaleCount (nodes s1 d) = dependencyStaleCount (nodes s d) - 1).
  { subst s1. rewrite upd_node_same. cbn. by rewrite Hsa. }
  exists s1. split; [exact Hs1|]. split.
  { subst s1. rewrite upd_node_same. cbn. subst sa.
    destruct changed; [rewrite upd_node_same; cbn; lia | lia]. }
  split.
  { intros x Hx. subst s1 sa. rewrite upd_node_other by done.
    destruct changed; [by rewrite upd_node_other|done]. }
  split.
  { subst s1 sa. by destruct changed. }
  intros odr'. rewrite Hs1. clear Hs1 Hsa.
  unfold notifyDependencyReady, invariant. unfold_monad.
  apply Z.ltb_lt in Hpos. rewrite Hpos. subst s1 sa.
  destruct changed; node_simpl;
    (destruct (dependencyStaleCount (nodes s d) - 1 =? 0);
     cbv beta; node_simpl; [|reflexivity]);
    match goal with |- context [0 <? ?x] => destruct (0 <? x) end;
    reflexivity.
Qed.

(** C2: on a derivation with a positive stale count,
    [notifyDependencyReady] decrements the stale count and, when
    [dependencyDidChange], increments the change count (state [s1],
    which differs from [s] in these two fields only).  When the stale
    count has not reached zero this is all it does.  When it has reached
    zero and the change count is positive, the change count is reset to
    zero, [onDependenciesReady] is invoked and [propagateReadiness] is
    called with the flag it returned; when the change count is not
    positive, [propagateReadiness] is called with [false], whatever
    [onDependenciesReady] is. *)
Theorem C2_notifyDependencyReady :
  forall (propagateReadiness : nat -> bool -> M unit)
         (onDependenciesReady : nat -> M bool)
         (derivation : nat) (dependencyDidChange : bool) (s : State),
    0 < dependencyStaleCount (nodes s derivation) ->
    exists s1,
      dependencyStaleCount (nodes s1 derivation)
      = dependencyStaleCount (nodes s derivation) - 1
      ∧ dependencyChangeCount (nodes s1 derivation)
        = dependencyChangeCount (nodes s derivation)
          + (if dependencyDidChange then 1 else 0)
      ∧ (forall x, x <> derivation -> nodes s1 x = nodes s x)
      ∧ globals s1 = globals s
      ∧ (dependencyStaleCount (nodes s1 derivation) <> 0 ->
         notifyDependencyReady propagateReadiness onDependenciesReady
           derivation dependencyDidChange s = Return tt s1)
      ∧ (dependencyStaleCount (nodes s1 derivation) = 0 ->
         0 < dependencyChangeCount (nodes s1 derivation) ->
         notifyDependencyReady propagateReadiness onDependenciesReady
           derivation dependencyDidChange s
         = (changed <- onDependenciesReady derivation;;
            propagateReadiness derivation changed)
             (upd_node derivation (set_dependencyChangeCount 0) s1))
      ∧ (dependencyStaleCount (nodes s1 derivation) = 0 ->
         dependencyChangeCount (nodes s1 derivation) <= 0 ->
         forall onDependenciesReady' : nat -> M bool,
           notifyDependencyReady propagateReadiness onDependenciesReady'
             derivation dependencyDidChange s
           = propagateReadiness derivation false s1).
Proof.
  intros pr odr d changed s Hpos.
  destruct (notifyDependencyReady_run pr d changed s Hpos)
    as (s1 & Hs1 & Hc1 & Hx & Hg & Hrun).
  exists s1. repeat (split; [assumption|]).
  split; [|split].
  - intros Hne. rewrite Hrun. apply Z.eqb_neq in Hne. by rewrite Hne.
  - intros Hz Hc. rewrite Hrun. apply Z.eqb_eq in Hz. apply Z.ltb_lt in Hc.
    by rewrite Hz, Hc.
  - intros Hz Hc odr'. rewrite Hrun. apply Z.eqb_eq in Hz.
    apply Z.ltb_ge in Hc. by rewrite Hz, Hc.
Qed.

(** A reaction with one stale dependency that changed is scheduled when
    the dependency becomes ready. *)
Lemma C2_notifyDependencyReady_witness :
  exists s1,
    dependencyStaleCount (nodes s1 0%nat) = 0
    ∧ dependencyChangeCount (nodes s1 0%nat) = 1
    ∧ notifyDependencyReady unobserved_propagateReadiness
        (Reaction_onDependenciesReady idle_onInvalidate) 0%nat true
        (upd_node 0%nat (set_dependencyStaleCount 1) initial_state)
      = (changed <- Reaction_onDependenciesReady idle_onInvalidate 0%nat;;
         unobserved_propagateReadiness 0%nat changed)
          (upd_node 0%nat (set_dependencyChangeCount 0) s1).
Proof.
  destruct (C2_notifyDependencyReady unobserved_propagateReadiness
              (Reaction_onDependenciesReady idle_onInvalidate) 0%nat true
              (upd_node 0%nat (set_dependencyStaleCount 1) initial_state))
    as (s1 & H1 & H2 & _ & _ & _ & H3 & _).
  - cbn. lia.
  - exists s1. split; [exact H1|]. split; [exact H2|].
    apply H3; [exact H1 | rewrite H2; cbn; lia].
Defined.

(** ** The stale count *)

Lemma notifyDependencyStale_unfold ps d s :
  notifyDependencyStale ps d s
  = (if dependencyStaleCount (nodes s d) + 1 =? 1 then ps d else ret tt)
      (upd_node d (set_dependencyStaleCount (dependencyStaleCount (nodes s d) + 1)) s).
Proof. reflexivity. Qed.

Lemma notifyDependencyReady_unexpected pr odr d b s :
  dependencyStaleCount (nodes s d) <= 0 ->
  notifyDependencyReady pr odr d b s
  = Throw (Error "[mobx] Invariant failed: unexpected ready notification") s.
Proof.
  intros H. unfold notifyDependencyReady, invariant. unfold_monad.
  apply Z.ltb_ge in H. by rewrite H.
Qed.

Lemma nonnegative_upd d f s :
  stale_counts_nonnegative s ->
  0 <= dependencyStaleCount (f (nodes s d)) ->
  stale_counts_nonnegative (upd_node d f s).
Proof.
  intros Hs Hf x. destruct (decide (x = d)) as [->|Hx].
  - by rewrite upd_node_same.
  - by rewrite upd_node_other.
Qed.

Section StaleCount.

Variable propagateStaleness : nat -> M unit.
Variable propagateReadiness : nat -> bool -> M unit.
Variable onDependenciesReady : nat -> M bool.

Section Nonnegative.

Hypothesis propagateStaleness_nonneg : forall x s,
  stale_counts_nonnegative s -> stale_counts_nonnegative (final (propagateStaleness x s)).
Hypothesis propagateReadiness_nonneg : forall x b s,
  stale_counts_nonnegative s -> stale_counts_nonnegative (final (propagateReadiness x b s)).
Hypothesis onDependenciesReady_nonneg : forall x s,
  stale_counts_nonnegative s -> stale_counts_nonnegative (final (onDependenciesReady x s)).

Lemma notifyDependencyStale_nonneg d s :
  stale_counts_nonnegative s ->
  stale_counts_nonnegative (final (notifyDependencyStale propagateStaleness d s)).
Proof.
  intros Hs. rewrite notifyDependencyStale_unfold.
  assert (H1 : stale_counts_nonnegative
            (upd_node d (set_dependencyStaleCount
                           (dependencyStaleCount (nodes s d) + 1)) s)).
  { apply nonnegative_upd; [done|]. proj_simpl. specialize (Hs d). lia. }
  destruct (_ =? 1); [by apply propagateStaleness_nonneg | exact H1].
Qed.

Lemma notifyDependencyReady_nonneg d b s :
  stale_counts_nonnegative s ->
  stale_counts_nonnegative
    (final (notifyDependencyReady propagateReadiness onDependenciesReady d b s)).
Proof.
  intros Hs.
  destruct (Z_lt_le_dec 0 (dependencyStaleCount (nodes s d))) as [Hpos|Hle].
  - destruct (notifyDependencyReady_run propagateReadiness d b s Hpos)
      as (s1 & H1 & _ & Hx & _ & Hrun).
    assert (Hs1 : stale_counts_nonnegative s1).
    { intros x. destruct (decide (x = d)) as [->|Hne].
      - rewrite H1. lia.
      - rewrite Hx by done. apply Hs. }
    rewrite Hrun.
    destruct (_ =? 0); [|exact Hs1].
    destruct (0 <? _); [|by apply propagateReadiness_nonneg].
    assert (Hs2 : stale_counts_nonnegative
                    (upd_node d (set_dependencyChangeCount 0) s1)).
    { apply nonnegative_upd; [done|]. proj_simpl. apply Hs1. }
    unfold bind.
    pose proof (onDependenciesReady_nonneg d _ Hs2) as Hodr.
    destruct (onDependenciesReady d _) as [c s2|e s2]; cbn in Hodr.
    + by apply propagateReadiness_nonneg.
    + exact Hodr.
  - by rewrite notifyDependencyReady_unexpected.
Qed.

End Nonnegative.

Section Window.

Variable d : nat.
Hypothesis propagateStaleness_frame : forall s,
  dependencyStaleCount (nodes (final (propagateStaleness d s)) d)
  = dependencyStaleCount (nodes s d).
Hypothesis propagateReadiness_frame : forall b s,
  dependencyStaleCount (nodes (final (propagateReadiness d b s)) d)
  = dependencyStaleCount (nodes s d).
Hypothesis onDependenciesReady_frame : forall s,
  dependencyStaleCount (nodes (final (onDependenciesReady d s)) d)
  = dependencyStaleCount (nodes s d).

Lemma notifyDependencyStale_count s :
  dependencyStaleCount (nodes (final (notifyDependencyStale propagateStaleness d s)) d)
  = dependencyStaleCount (nodes s d) + 1.
Proof.
  rewrite notifyDependencyStale_unfold.
  destruct (_ =? 1); [rewrite propagateStaleness_frame|cbn [ret final]];
    by rewrite upd_node_same.
Qed.

Lemma notifyDependencyReady_count b s s' :
  notifyDependencyReady propagateReadiness onDependenciesReady d b s = Return tt s' ->
  0 < dependencyStaleCount (nodes s d)
  ∧ dependencyStaleCount (nodes s' d) = dependencyStaleCount (nodes s d) - 1.
Proof.
  intros Hrun.
  destruct (Z_lt_le_dec 0 (dependencyStaleCount (nodes s d))) as [Hpos|Hle];
    [|by rewrite notifyDependencyReady_unexpected in Hrun].
  split; [exact Hpos|].
  destruct (notifyDependencyReady_run propagateReadiness d b s Hpos)
    as (s1 & H1 & _ & _ & _ & Heq).
  rewrite Heq in Hrun. rewrite <- H1. clear Heq.
  destruct (_ =? 0); [|by inversion Hrun].
  destruct (0 <? _).
  - unfold bind in Hrun.
    pose proof (onDependenciesReady_frame (upd_node d (set_dependencyChangeCount 0) s1)) as Ho.
    destruct (onDependenciesReady d _) as [c s2|e s2]; [|discriminate].
    cbn [final] in Ho. rewrite upd_node_same in Ho. proj_simpl. rewrite <- Ho.
    pose proof (propagateReadiness_frame c s2) as Hp.
    rewrite Hrun in Hp. exact Hp.
  - pose proof (propagateReadiness_frame false s1) as Hp.
    rewrite Hrun in Hp. exact Hp.
Qed.

Lemma notifications_count l : forall s s',
  for_each (notify propagateStaleness propagateReadiness onDependenciesReady d) l s
  = Return tt s' ->
  dependencyStaleCount (nodes s' d) = dependencyStaleCount (nodes s d) + open_stale l
  ∧ (0 <= dependencyStaleCount (nodes s d) -> 0 <= dependencyStaleCount (nodes s' d)).
Proof.
  induction l as [|n l IH]; intros s s' Hrun.
  - inversion Hrun; subst. cbn. split; [lia|done].
  - cbn [for_each] in Hrun. unfold bind in Hrun.
    destruct (notify _ _ _ d n s) as [[] s1|e s1] eqn:Hn; [|discriminate].
    destruct (IH _ _ Hrun) as [IH1 IH2].
    destruct n as [|b]; cbn [notify open_stale] in *.
    + pose proof (notifyDependencyStale_count s) as Hc.
      rewrite Hn in Hc. cbn [final] in Hc. split; [lia|].
      intros. apply IH2. lia.
    + apply notifyDependencyReady_count in Hn as [Hpos Hc]. split; [lia|].
      intros. apply IH2. lia.
Qed.

End Window.
End StaleCount.

(** C9: [notifyDependencyStale] adds one to the stale count of the
    derivation and does nothing else to it; [notifyDependencyReady], on a
    stale count that is not strictly positive, throws the invariant
    failure in the state it was called in, before decrementing.  Hence,
    when what the two functions call (the propagation to the observers,
    [onDependenciesReady]) keeps all stale counts non-negative, so do
    they; and for a derivation whose own stale count these calls leave
    alone, a sequence of notifications that all return, started at count
    zero, ends with the number of stale notifications not yet answered
    by a ready one, which is never negative, and is zero once each stale
    notification has been answered: outside the propagation window. *)
Theorem C9_dependencyStaleCount_nonnegative :
  forall (propagateStaleness : nat -> M unit)
         (propagateReadiness : nat -> bool -> M unit)
         (onDependenciesReady : nat -> M bool),
    (forall x s, stale_counts_nonnegative s ->
                 stale_counts_nonnegative (final (propagateStaleness x s))) ->
    (forall x b s, stale_counts_nonnegative s ->
                   stale_counts_nonnegative (final (propagateReadiness x b s))) ->
    (forall x s, stale_counts_nonnegative s ->
                 stale_counts_nonnegative (final (onDependenciesReady x s))) ->
    (forall d s,
        notifyDependencyStale propagateStaleness d s
        = (if dependencyStaleCount (nodes s d) + 1 =? 1
           then propagateStaleness d else ret tt)
            (upd_node d (set_dependencyStaleCount
                           (dependencyStaleCount (nodes s d) + 1)) s))
    ∧ (forall d b s,
          dependencyStaleCount (nodes s d) <= 0 ->
          notifyDependencyReady propagateReadiness onDependenciesReady d b s
          = Throw (Error "[mobx] Invariant failed: unexpected ready notification") s)
    ∧ (forall d s,
          stale_counts_nonnegative s ->
          stale_counts_nonnegative
            (final (notifyDependencyStale propagateStaleness d s))
          ∧ forall b,
              stale_counts_nonnegative
                (final (notifyDependencyReady propagateReadiness
                          onDependenciesReady d b s)))
    ∧ (forall d,
          (forall s, dependencyStaleCount (nodes (final (propagateStaleness d s)) d)
                     = dependencyStaleCount (nodes s d)) ->
          (forall b s, dependencyStaleCount (nodes (final (propagateReadiness d b s)) d)
                       = dependencyStaleCount (nodes s d)) ->
          (forall s, dependencyStaleCount (nodes (final (onDependenciesReady d s)) d)
                     = dependencyStaleCount (nodes s d)) ->
          forall l s s',
            dependencyStaleCount (nodes s d) = 0 ->
            for_each (notify propagateStaleness propagateReadiness
                        onDependenciesReady d) l s = Return tt s' ->
            dependencyStaleCount (nodes s' d) = open_stale l
            ∧ 0 <= open_stale l
            ∧ (open_stale l = 0 -> dependencyStaleCount (nodes s' d) = 0)).
Proof.
  intros ps pr odr Hps Hpr Hodr. split; [|split; [|split]].
  - intros d s. apply notifyDependencyStale_unfold.
  - intros d b s. apply notifyDependencyReady_unexpected.
  - intros d s Hs. split.
    + by apply notifyDependencyStale_nonneg.
    + intros b. by apply notifyDependencyReady_nonneg.
  - intros d Fps Fpr Fodr l s s' H0 Hrun.
    destruct (notifications_count ps pr odr d Fps Fpr Fodr l s s' Hrun) as [Hc Hn].
    rewrite H0 in Hc, Hn. split; [lia|]. split; [|lia].
    assert (0 <= dependencyStaleCount (nodes s' d)) by (apply Hn; lia). lia.
Qed.

(** ** Loops *)

Lemma for_each_inv {A} (body : A -> M unit)
    (I : list A -> State -> Prop) (Q : State -> Prop) (E : JsError -> State -> Prop) :
  (forall s, I [] s -> Q s) ->
  (forall x rest s, I (x :: rest) s ->
     match body x s with Return _ s' => I rest s' | Throw e s' => E e s' end) ->
  forall l s, I l s ->
    match for_each body l s with Return _ s' => Q s' | Throw e s' => E e s' end.
Proof.
  intros HQ Hstep l. induction l as [|x l IH]; intros s HI.
  - cbn. by apply HQ.
  - cbn [for_each]. unfold bind. specialize (Hstep x l s HI).
    destruct (body x s) as [[] s1|e s1]; [by apply IH|exact Hstep].
Qed.

Lemma for_each_final {A} (body : A -> M unit)
    (I : list A -> State -> Prop) (Q : State -> Prop) :
  (forall s, I [] s -> Q s) ->
  (forall x rest s, I (x :: rest) s ->
     match body x s with Return _ s' => I rest s' | Throw e s' => Q s' end) ->
  forall l s, I l s -> Q (final (for_each body l s)).
Proof.
  intros HQ Hstep l s HI.
  pose proof (for_each_inv body I Q (fun _ => Q) HQ Hstep l s HI) as H.
  by destruct (for_each body l s).
Qed.

(** ** The pending queue holds no reaction twice *)

Lemma queue_ext X s s' :
  globalState.pendingReactions (globals s') = globalState.pendingReactions (globals s) ->
  (forall x, _isScheduled (nodes s' x) = _isScheduled (nodes s x)) ->
  queue_ok s ∧ scheduled_outside X s -> queue_ok s' ∧ scheduled_outside X s'.
Proof.
  intros Hq Hf [[Hnd Hfl] Hout]. unfold queue_ok, scheduled_outside.
  rewrite Hq. split; [split; [done|]|].
  - intros r Hr. rewrite Hf. by apply Hfl.
  - intros x Hx. rewrite Hf. by apply Hout.
Qed.

Section Queue.

Variable onInvalidate : nat -> M unit.
Hypothesis onInvalidate_discipline : forall r, queue_discipline (onInvalidate r).

Lemma runReaction_queue X r s :
  ~ X r -> r ∉ globalState.pendingReactions (globals s) ->
  queue_ok s ∧ scheduled_outside X s ->
  queue_ok (final (Reaction_runReaction onInvalidate r s))
  ∧ scheduled_outside X (final (Reaction_runReaction onInvalidate r s)).
Proof.
  intros HX Hr HP. unfold Reaction_runReaction. unfold_monad.
  destruct (isDisposed (nodes s r)); cbn [negb]; [exact HP|].
  cbv beta.
  set (s2 := upd_node r (set__isTrackPending true)
               (upd_node r (set__isScheduled false) s)).
  assert (HP2 : queue_ok s2 ∧ scheduled_outside X s2).
  { destruct HP as [[Hnd Hfl] Hout]. split; [split; [exact Hnd|]|].
    - intros q Hq. subst s2. rewrite !upd_node_other; [by apply Hfl| |];
        intros ->; by apply Hr.
    - intros x Hx. subst s2. rewrite !upd_node_other; [by apply Hout| |];
        intros ->; by apply HX. }
  destruct HP2 as [Hq2 Ho2].
  pose proof (onInvalidate_discipline r X s2 Hq2 Ho2) as HP3.
  destruct (onInvalidate r s2) as [[] s3|e s3]; cbn [final] in *; [|exact HP3].
  unfold isSpyEnabled, spyReport. unfold_monad.
  destruct (_isTrackPending (nodes s3 r)); [destruct (spyEnabled s3)|]; cbn [final];
    exact HP3.
Qed.

Lemma runReactions_batch_queue X s :
  queue_ok s ∧ scheduled_outside X s ->
  queue_ok (final (runReactions_batch onInvalidate s))
  ∧ scheduled_outside X (final (runReactions_batch onInvalidate s)).
Proof.
  intros [[Hnd Hfl] Hout]. unfold runReactions_batch. unfold_monad.
  set (s0 := upd_globals (globalState.set_pendingReactions []) s).
  apply (for_each_final _
    (fun rest s' => NoDup rest ∧ (forall x, X x -> x ∉ rest)
                    ∧ queue_ok s'
                    ∧ scheduled_outside (fun x => X x ∨ x ∈ rest) s')
    (fun s' => queue_ok s' ∧ scheduled_outside X s')).
  - intros s' (_ & _ & Hq & Ho). split; [exact Hq|].
    intros x Hx. apply Ho. by left.
  - intros r rest s' (Hnd' & HX & Hq & Ho).
    apply NoDup_cons in Hnd' as [Hr Hnd'].
    set (s1 := upd_globals (globalState.set_currentReaction (Some r)) s').
    assert (HP1 : queue_ok s1 ∧ scheduled_outside (fun x => X x ∨ x ∈ rest) s1).
    { apply (queue_ext _ s'); [done|done|]. split; [exact Hq|].
      intros x Hx. apply Ho. destruct Hx; [by left|right; by apply elem_of_cons; right]. }
    assert (Hrq : r ∉ globalState.pendingReactions (globals s1)).
    { apply (Ho r). right. by apply elem_of_cons; left. }
    assert (HXr : ~ (X r ∨ r ∈ rest)).
    { intros [Hx|Hx]; [|done]. apply (HX r Hx). by apply elem_of_cons; left. }
    pose proof (runReaction_queue _ r s1 HXr Hrq HP1) as [Hq' Ho'].
    fold s1. destruct (Reaction_runReaction onInvalidate r s1) as [[] s2|e s2];
      cbn [final] in *.
    + split; [exact Hnd'|]. split; [|by split].
      intros x Hx Hin. apply (HX x Hx). by apply elem_of_cons; right.
    + split; [exact Hq'|]. intros x Hx. apply Ho'. by left.
  - split; [exact Hnd|]. split.
    { intros x Hx. apply (Hout x Hx). }
    split.
    { split; [cbn; apply NoDup_nil_2|]. cbn. intros r Hr. by apply elem_of_nil in Hr. }
    intros x [Hx|Hx]; cbn; (split; [|apply not_elem_of_nil]).
    + by apply Hout.
    + by apply Hfl.
Qed.

Lemma runReactions_while_queue X fuel : forall iterations s,
  queue_ok s ∧ scheduled_outside X s ->
  queue_ok (final (runReactions_while onInvalidate fuel iterations s))
  ∧ scheduled_outside X (final (runReactions_while onInvalidate fuel iterations s)).
Proof.
  induction fuel as [|fuel IH]; intros it s HP; cbn [runReactions_while];
    unfold Reaction_toString; unfold_monad;
    destruct (globalState.pendingReactions (globals s)) as [|first rest] eqn:Hq;
    try exact HP;
    destruct (S it =? MAX_REACTION_ITERATIONS)%nat; try exact HP.
  pose proof (runReactions_batch_queue X s HP) as HP1.
  destruct (runReactions_batch onInvalidate s) as [[] s1|e s1]; cbn [final] in HP1.
  - by apply IH.
  - exact HP1.
Qed.

Lemma runReactions_queue : queue_discipline (runReactions onInvalidate).
Proof.
  intros X s Hq Ho. unfold runReactions. unfold_monad.
  destruct (_ || _); [by split|]. cbv beta.
  set (s0 := upd_globals (globalState.set_isRunningReactions true) s).
  assert (HP0 : queue_ok s0 ∧ scheduled_outside X s0).
  { by apply (queue_ext _ s). }
  pose proof (runReactions_while_queue X MAX_REACTION_ITERATIONS 0%nat s0 HP0) as HP1.
  destruct (runReactions_while _ _ _ s0) as [[] s1|e s1]; cbn [final] in *;
    [|exact HP1].
  revert HP1. by apply queue_ext.
Qed.

Lemma schedule_queue this : queue_discipline (Reaction_schedule onInvalidate this).
Proof.
  intros X s Hq Ho. unfold Reaction_schedule. unfold_monad.
  destruct (_isScheduled (nodes s this)) eqn:Hf; cbn [negb]; [by split|].
  cbv beta. apply runReactions_queue.
  - destruct Hq as [Hnd Hfl]. split; cbn.
    + apply NoDup_app. split; [exact Hnd|]. split; [|apply NoDup_singleton].
      intros x Hx ->%list_elem_of_singleton. apply Hfl in Hx. congruence.
    + intros r [Hr| ->%list_elem_of_singleton]%elem_of_app.
      * destruct (r =? this)%nat; [done|by apply Hfl].
      * by rewrite Nat.eqb_refl.
  - intros x Hx. destruct (Ho x Hx) as [Hfx Hqx]. cbn.
    assert (x <> this) by congruence.
    split.
    + destruct (x =? this)%nat; [done|exact Hfx].
    + intros [?| ->%list_elem_of_singleton]%elem_of_app; done.
Qed.

End Queue.

(** C10: when the [onInvalidate] callbacks respect the queue (they
    change it through [schedule] only), [schedule] and [runReactions]
    keep the queue free of duplicates, with every queued reaction
    flagged, starting from the empty queue.  [schedule] on a flagged
    reaction does nothing; on an unflagged one it sets the flag and
    appends the reaction before calling [runReactions]; and
    [runReaction], which clears the flag, keeps the invariant when the
    reaction is no longer in the queue, which is how [runReactions]
    calls it. *)
Theorem C10_pendingReactions_no_duplicates :
  forall onInvalidate : nat -> M unit,
    (forall r, queue_discipline (onInvalidate r)) ->
    (forall s, globalState.pendingReactions (globals s) = [] -> queue_ok s)
    ∧ (forall this s, queue_ok s ->
         queue_ok (final (Reaction_schedule onInvalidate this s))
         ∧ NoDup (globalState.pendingReactions
                    (globals (final (Reaction_schedule onInvalidate this s)))))
    ∧ (forall s, queue_ok s ->
         queue_ok (final (runReactions onInvalidate s))
         ∧ NoDup (globalState.pendingReactions
                    (globals (final (runReactions onInvalidate s)))))
    ∧ (forall this, queue_discipline (Reaction_schedule onInvalidate this))
    ∧ queue_discipline (runReactions onInvalidate)
    ∧ (forall this s, _isScheduled (nodes s this) = true ->
         Reaction_schedule onInvalidate this s = Return tt s)
    ∧ (forall this s, _isScheduled (nodes s this) = false ->
         Reaction_schedule onInvalidate this s
         = runReactions onInvalidate
             (upd_globals (fun g => globalState.set_pendingReactions
                                      (globalState.pendingReactions g ++ [this]) g)
                (upd_node this (set__isScheduled true) s)))
    ∧ (forall this s, queue_ok s ->
         this ∉ globalState.pendingReactions (globals s) ->
         queue_ok (final (Reaction_runReaction onInvalidate this s))).
Proof.
  intros oi Hoi.
  assert (Hout : forall s, scheduled_outside (fun _ => False) s) by (intros s x []).
  split; [|split; [|split; [|split; [|split; [|split; [|split]]]]]].
  - intros s Hs. unfold queue_ok. rewrite Hs. split; [apply NoDup_nil_2|].
    intros r Hr. by apply elem_of_nil in Hr.
  - intros this s Hq.
    destruct (schedule_queue oi Hoi this _ s Hq (Hout s)) as [H _].
    split; [exact H|apply H].
  - intros s Hq.
    destruct (runReactions_queue oi Hoi _ s Hq (Hout s)) as [H _].
    split; [exact H|apply H].
  - intros this. by apply schedule_queue.
  - by apply runReactions_queue.
  - intros this s Hf. unfold Reaction_schedule. unfold_monad. by rewrite Hf.
  - intros this s Hf. unfold Reaction_schedule. unfold_monad. by rewrite Hf.
  - intros this s Hq Hr.
    by destruct (runReaction_queue oi Hoi (fun _ => False) this s (fun H => H) Hr
                   (conj Hq (Hout s))).
Qed.

Lemma idle_onInvalidate_discipline r : queue_discipline (idle_onInvalidate r).
Proof. intros X s Hq Ho. by split. Qed.

Lemma countdown_onInvalidate_discipline r :
  queue_discipline (countdown_onInvalidate r).
Proof.
  intros X s Hq Ho. unfold countdown_onInvalidate. unfold_monad.
  destruct (0 <? values s r); [|by split]. cbv beta.
  by apply (schedule_queue idle_onInvalidate idle_onInvalidate_discipline).
Qed.

(** A reaction that triggers itself three more times is never queued
    twice. *)
Lemma C10_pendingReactions_no_duplicates_witness :
  NoDup (globalState.pendingReactions
           (globals (final (runReactions countdown_onInvalidate (countdown_state 3))))).
Proof.
  destruct (C10_pendingReactions_no_duplicates countdown_onInvalidate
              countdown_onInvalidate_discipline) as (_ & _ & H & _).
  apply H. split.
  - cbn. apply NoDup_singleton.
  - cbn. intros r ->%list_elem_of_singleton. reflexivity.
Defined.

(** Inside the runner, [schedule] does not depend on the callbacks. *)
Lemma schedule_while_running oi oi' this s :
  globalState.isRunningReactions (globals s) = true ->
  Reaction_schedule oi this s = Reaction_schedule oi' this s.
Proof.
  intros H. unfold Reaction_schedule. unfold_monad.
  destruct (_isScheduled (nodes s this)); cbn [negb]; [reflexivity|].
  cbv beta. rewrite !runReactions_guard; [reflexivity| |]; by left.
Qed.

(** ** The iteration guard of [runReactions] *)

Lemma upd_pending_nil s :
  globalState.pendingReactions (globals s) = [] ->
  upd_globals (globalState.set_pendingReactions []) s = s.
Proof.
  destruct s as [n g c se sv v]. destruct g. cbn. by intros ->.
Qed.

Lemma runReactions_batch_empty oi s :
  globalState.pendingReactions (globals s) = [] ->
  runReactions_batch oi s = Return tt s.
Proof.
  intros H. unfold runReactions_batch. unfold_monad.
  rewrite H. cbn. by rewrite upd_pending_nil.
Qed.

Lemma drain_rounds_empty oi k s :
  globalState.pendingReactions (globals s) = [] ->
  drain_rounds oi k s = Return tt s.
Proof.
  intros H. induction k as [|k IH]; [reflexivity|].
  cbn [drain_rounds]. unfold bind. by rewrite runReactions_batch_empty.
Qed.

Lemma runReactions_while_converges oi k : forall iterations fuel s s',
  (iterations + k < MAX_REACTION_ITERATIONS)%nat -> (k <= fuel)%nat ->
  drain_rounds oi k s = Return tt s' ->
  globalState.pendingReactions (globals s') = [] ->
  runReactions_while oi fuel iterations s = Return tt s'.
Proof.
  induction k as [|k IH]; intros it fuel s s' Hit Hfuel Hrounds Hq.
  - inversion Hrounds; subst. destruct fuel; cbn; unfold_monad; by rewrite Hq.
  - destruct (globalState.pendingReactions (globals s)) as [|first rest] eqn:Hs.
    + rewrite drain_rounds_empty in Hrounds by done. inversion Hrounds; subst.
      destruct fuel; cbn; unfold_monad; by rewrite Hs.
    + destruct fuel as [|fuel]; [lia|].
      cbn [runReactions_while]. unfold_monad. rewrite Hs.
      destruct (S it =? MAX_REACTION_ITERATIONS)%nat eqn:Hmax;
        [apply Nat.eqb_eq in Hmax; lia|].
      cbn [drain_rounds] in Hrounds. unfold bind in Hrounds.
      destruct (runReactions_batch oi s) as [[] s1|e s1]; [|discriminate].
      apply (IH (S it) fuel s1 s'); [lia|lia|done|done].
Qed.

Lemma runReactions_while_diverges oi k : forall iterations fuel s s' first rest,
  (iterations + k + 1 = MAX_REACTION_ITERATIONS)%nat -> (k <= fuel)%nat ->
  drain_rounds oi k s = Return tt s' ->
  globalState.pendingReactions (globals s') = first :: rest ->
  runReactions_while oi fuel iterations s
  = Throw (Error ("Reaction doesn't converge to a stable state. Probably there is a cycle in the reactive function: "
                  +:+ ("Reaction[" +:+ name (nodes s' first) +:+ "]"))) s'.
Proof.
  induction k as [|k IH]; intros it fuel s s' first rest Hit Hfuel Hrounds Hq.
  - inversion Hrounds; subst.
    assert (Hmax : (S it =? MAX_REACTION_ITERATIONS)%nat = true)
      by (apply Nat.eqb_eq; lia).
    destruct fuel; cbn [runReactions_while]; unfold Reaction_toString;
      unfold_monad; by rewrite Hq, Hmax.
  - destruct (globalState.pendingReactions (globals s)) as [|first0 rest0] eqn:Hs.
    + rewrite drain_rounds_empty in Hrounds by done. inversion Hrounds; subst.
      congruence.
    + destruct fuel as [|fuel]; [lia|].
      cbn [runReactions_while]. unfold_monad. rewrite Hs.
      destruct (S it =? MAX_REACTION_ITERATIONS)%nat eqn:Hmax;
        [apply Nat.eqb_eq in Hmax; lia|].
      cbn [drain_rounds] in Hrounds. unfold bind in Hrounds.
      destruct (runReactions_batch oi s) as [[] s1|e s1]; [|discriminate].
      apply (IH (S it) fuel s1 s' first rest); [lia|lia|done|done].
Qed.

(** The bound of the embedding's loop is never exhausted: from
    [MAX_REACTION_ITERATIONS] on, more fuel changes nothing. *)
Lemma runReactions_while_fuel oi fuel : forall iterations extra s,
  (iterations < MAX_REACTION_ITERATIONS)%nat ->
  (MAX_REACTION_ITERATIONS <= iterations + fuel + 1)%nat ->
  runReactions_while oi (fuel + extra) iterations s
  = runReactions_while oi fuel iterations s.
Proof.
  induction fuel as [|fuel IH]; intros it extra s Hlt Hit.
  - destruct extra; [reflexivity|]. cbn [Nat.add runReactions_while].
    unfold_monad. destruct (globalState.pendingReactions (globals s)); [done|].
    destruct (S it =? MAX_REACTION_ITERATIONS)%nat eqn:Hmax; [done|].
    apply Nat.eqb_neq in Hmax. lia.
  - cbn [Nat.add runReactions_while]. unfold_monad.
    destruct (globalState.pendingReactions (globals s)); [done|].
    destruct (S it =? MAX_REACTION_ITERATIONS)%nat eqn:Hmax; [done|].
    apply Nat.eqb_neq in Hmax.
    destruct (runReactions_batch oi s) as [[] s1|e s1]; [|done].
    apply IH; lia.
Qed.

(** C3, as stated, fails: the reaction below triggers itself 99 more
    times, so the queue is empty after 100 turns of the drain loop, and
    [runReactions] throws the divergence error all the same. *)
Lemma C3_converges_in_100_but_throws :
  match drain_rounds countdown_onInvalidate 100
          (upd_globals (globalState.set_isRunningReactions true) (countdown_state 99)) with
  | Return _ s' => globalState.pendingReactions (globals s') = []
  | Throw _ _ => False
  end
  ∧ match runReactions countdown_onInvalidate (countdown_state 99) with
    | Throw (Error message) _ =>
        message = "Reaction doesn't converge to a stable state. Probably there is a cycle in the reactive function: Reaction[Reaction]"
    | _ => False
    end.
Proof. split; vm_compute; reflexivity. Qed.

(** C3, amended: called with the runner idle and no transaction open,
    [runReactions] completes without error when the queue is empty after
    at most 99 turns of the drain loop that all return (it then leaves
    the state of the last turn, with [currentReaction] and
    [isRunningReactions] reset); and when the queue is still not empty
    after 99 turns, it throws the divergence error, naming the first
    reaction then in the queue, on entering the 100th. *)
Theorem C3_runReactions_iteration_guard :
  forall (onInvalidate : nat -> M unit) (s : State),
    globalState.isRunningReactions (globals s) = false ->
    globalState.inTransaction (globals s) <= 0 ->
    let s0 := upd_globals (globalState.set_isRunningReactions true) s in
    (forall k s',
        (k < MAX_REACTION_ITERATIONS)%nat ->
        drain_rounds onInvalidate k s0 = Return tt s' ->
        globalState.pendingReactions (globals s') = [] ->
        runReactions onInvalidate s
        = Return tt
            (upd_globals (globalState.set_isRunningReactions false)
               (upd_globals (globalState.set_currentReaction None) s')))
    ∧ (forall s' first rest,
          drain_rounds onInvalidate (MAX_REACTION_ITERATIONS - 1) s0 = Return tt s' ->
          globalState.pendingReactions (globals s') = first :: rest ->
          runReactions onInvalidate s
          = Throw (Error ("Reaction doesn't converge to a stable state. Probably there is a cycle in the reactive function: "
                          +:+ ("Reaction[" +:+ name (nodes s' first) +:+ "]"))) s').
Proof.
  intros oi s Hrun Htx s0.
  assert (Hguard : globalState.isRunningReactions (globals s)
                   || (0 <? globalState.inTransaction (globals s)) = false).
  { rewrite Hrun. cbn. by apply Z.ltb_ge. }
  split.
  - intros k s' Hk Hrounds Hq. unfold runReactions. unfold_monad.
    rewrite Hguard. cbv beta. fold s0.
    by rewrite (runReactions_while_converges oi k 0 _ s0 s') by (done || lia).
  - intros s' first rest Hrounds Hq. unfold runReactions. unfold_monad.
    rewrite Hguard. cbv beta. fold s0.
    by rewrite (runReactions_while_diverges oi (MAX_REACTION_ITERATIONS - 1) 0
                  MAX_REACTION_ITERATIONS s0 s' first rest)
      by (done || (unfold MAX_REACTION_ITERATIONS; lia)).
Qed.

Lemma return_final (c : Completion unit) :
  is_return c = true -> c = Return tt (final c).
Proof. by destruct c as [[] s|e s]. Qed.

(** A reaction that triggers itself three more times: four turns, no
    error. *)
Lemma C3_runReactions_iteration_guard_witness :
  runReactions countdown_onInvalidate (countdown_state 3)
  = Return tt
      (upd_globals (globalState.set_isRunningReactions false)
         (upd_globals (globalState.set_currentReaction None)
            (final (drain_rounds countdown_onInvalidate 4
                      (upd_globals (globalState.set_isRunningReactions true)
                         (countdown_state 3)))))).
Proof.
  destruct (C3_runReactions_iteration_guard countdown_onInvalidate (countdown_state 3))
    as [Hconv _]; [reflexivity | vm_compute; discriminate |].
  apply (Hconv 4%nat).
  - unfold MAX_REACTION_ITERATIONS. lia.
  - apply return_final. vm_compute. reflexivity.
  - vm_compute. reflexivity.
Defined.

(** ** What the scheduler leaves alone *)

(** A property of the state that the scheduler's own writes (the flags
    [_isScheduled] and [_isTrackPending], the global state, the spy
    events) and the callbacks keep, is kept by the scheduler. *)
Section SchedulerFrame.

Variable Φ : State -> Prop.
Variable onInvalidate : nat -> M unit.
Hypothesis Φ_isScheduled : forall r b s, Φ s -> Φ (upd_node r (set__isScheduled b) s).
Hypothesis Φ_isTrackPending : forall r b s, Φ s -> Φ (upd_node r (set__isTrackPending b) s).
Hypothesis Φ_globals : forall f s, Φ s -> Φ (upd_globals f s).
Hypothesis Φ_spyEvents : forall f s, Φ s -> Φ (upd_spyEvents f s).
Hypothesis Φ_onInvalidate : forall r s, Φ s -> Φ (final (onInvalidate r s)).

Lemma runReaction_frame r s : Φ s -> Φ (final (Reaction_runReaction onInvalidate r s)).
Proof.
  intros H. unfold Reaction_runReaction, isSpyEnabled, spyReport. unfold_monad.
  destruct (isDisposed (nodes s r)); cbn [negb]; [exact H|]. cbv beta.
  set (s2 := upd_node r (set__isTrackPending true)
               (upd_node r (set__isScheduled false) s)).
  assert (H2 : Φ s2) by (by apply Φ_isTrackPending, Φ_isScheduled).
  apply Φ_onInvalidate with (r := r) in H2.
  destruct (onInvalidate r s2) as [[] s3|e s3]; cbn [final] in *; [|exact H2].
  destruct (_isTrackPending (nodes s3 r)); [destruct (spyEnabled s3)|]; cbn [final];
    try exact H2.
  by apply Φ_spyEvents.
Qed.

Lemma runReactions_batch_frame s : Φ s -> Φ (final (runReactions_batch onInvalidate s)).
Proof.
  intros H. unfold runReactions_batch. unfold_monad.
  apply (for_each_final _ (fun _ => Φ) Φ); [done| |by apply Φ_globals].
  intros r rest s' H'.
  pose proof (runReaction_frame r _ (Φ_globals (globalState.set_currentReaction (Some r)) s' H')) as Hr.
  by destruct (Reaction_runReaction onInvalidate r _).
Qed.

Lemma runReactions_while_frame fuel : forall iterations s,
  Φ s -> Φ (final (runReactions_while onInvalidate fuel iterations s)).
Proof.
  induction fuel as [|fuel IH]; intros it s H; cbn [runReactions_while];
    unfold Reaction_toString; unfold_monad;
    destruct (globalState.pendingReactions (globals s)); try exact H;
    destruct (S it =? MAX_REACTION_ITERATIONS)%nat; try exact H.
  pose proof (runReactions_batch_frame s H) as H1.
  destruct (runReactions_batch onInvalidate s) as [[] s1|e s1]; cbn [final] in H1;
    [by apply IH|exact H1].
Qed.

Lemma runReactions_frame s : Φ s -> Φ (final (runReactions onInvalidate s)).
Proof.
  intros H. unfold runReactions. unfold_monad.
  destruct (_ || _); [exact H|]. cbv beta.
  pose proof (runReactions_while_frame MAX_REACTION_ITERATIONS 0%nat _
                (Φ_globals (globalState.set_isRunningReactions true) s H)) as H1.
  destruct (runReactions_while _ _ _ _) as [[] s1|e s1]; cbn [final] in *;
    [|exact H1].
  by apply Φ_globals, Φ_globals.
Qed.

Lemma schedule_frame r s : Φ s -> Φ (final (Reaction_schedule onInvalidate r s)).
Proof.
  intros H. unfold Reaction_schedule. unfold_monad.
  destruct (_isScheduled (nodes s r)); cbn [negb]; [exact H|]. cbv beta.
  by apply runReactions_frame, Φ_globals, Φ_isScheduled.
Qed.

Lemma onDependenciesReady_frame r s :
  Φ s -> Φ (final (Reaction_onDependenciesReady onInvalidate r s)).
Proof.
  intros H. unfold Reaction_onDependenciesReady. unfold_monad.
  pose proof (schedule_frame r s H) as H1.
  by destruct (Reaction_schedule onInvalidate r s).
Qed.

End SchedulerFrame.

(** Reactions with idle callbacks, which nobody observes: three stale
    notifications answered by three ready ones leave the stale count of
    reaction [0] at zero. *)
Lemma C9_dependencyStaleCount_nonnegative_witness :
  dependencyStaleCount
    (nodes (final (for_each
                     (notify unobserved_propagateStaleness unobserved_propagateReadiness
                        (Reaction_onDependenciesReady idle_onInvalidate) 0%nat)
                     [Stale; Stale; Ready true; Stale; Ready false; Ready false]
                     initial_state)) 0%nat) = 0.
Proof.
  assert (Hodr : forall (Φ : State -> Prop),
    (forall r f s, (forall n, dependencyStaleCount (f n) = dependencyStaleCount n) ->
                   Φ s -> Φ (upd_node r f s)) ->
    (forall f s, Φ s -> Φ (upd_globals f s)) ->
    (forall f s, Φ s -> Φ (upd_spyEvents f s)) ->
    forall x s, Φ s -> Φ (final (Reaction_onDependenciesReady idle_onInvalidate x s))).
  { intros Φ H1 H2 H3 x s. apply onDependenciesReady_frame; try done.
    - intros r b s0. by apply H1.
    - intros r b s0. by apply H1. }
  assert (Hnn : forall r f s,
    (forall n, dependencyStaleCount (f n) = dependencyStaleCount n) ->
    stale_counts_nonnegative s -> stale_counts_nonnegative (upd_node r f s)).
  { intros r f s Hf Hs. apply nonnegative_upd; [done|]. rewrite Hf. apply Hs. }
  destruct (C9_dependencyStaleCount_nonnegative
              unobserved_propagateStaleness unobserved_propagateReadiness
              (Reaction_onDependenciesReady idle_onInvalidate))
    as (_ & _ & _ & Hwin).
  - by intros x s Hs.
  - by intros x b s Hs.
  - intros x s. by apply Hodr.
  - destruct (Hwin 0%nat) with (l := [Stale; Stale; Ready true; Stale; Ready false; Ready false])
                               (s := initial_state)
                               (s' := final (for_each
                     (notify unobserved_propagateStaleness unobserved_propagateReadiness
                        (Reaction_onDependenciesReady idle_onInvalidate) 0%nat)
                     [Stale; Stale; Ready true; Stale; Ready false; Ready false]
                     initial_state)) as (_ & _ & H0).
    + intros s. reflexivity.
    + intros b s. reflexivity.
    + intros s. apply (Hodr (fun s0 => dependencyStaleCount (nodes s0 0%nat)
                                       = dependencyStaleCount (nodes s 0%nat)));
        [|intros f s0 Hs0; exact Hs0|intros f s0 Hs0; exact Hs0|reflexivity].
      intros r f s0 Hf Hs0. destruct (decide (0%nat = r)) as [<-|Hr].
      * by rewrite upd_node_same, Hf.
      * by rewrite upd_node_other.
    + reflexivity.
    + apply return_final. vm_compute. reflexivity.
    + apply H0. reflexivity.
Defined.

(** ** Binding and unbinding dependencies *)

Lemma for_each_prefix {A} (body : A -> M unit) (Inv : list A -> State -> Prop) l :
  (forall p x s s', (exists rest, l = p ++ x :: rest) ->
     Inv p s -> body x s = Return tt s' -> Inv (p ++ [x]) s') ->
  forall s s', Inv [] s -> for_each body l s = Return tt s' -> Inv l s'.
Proof.
  intros Hstep.
  assert (H : forall rest p s s', l = p ++ rest -> Inv p s ->
                for_each body rest s = Return tt s' -> Inv l s').
  { induction rest as [|x rest IH]; intros p s s' Hl Hp Hrun.
    - inversion Hrun; subst. by rewrite app_nil_r.
    - cbn [for_each] in Hrun. unfold bind in Hrun.
      destruct (body x s) as [[] s1|e s1] eqn:Hx; [|discriminate].
      apply (IH (p ++ [x]) s1 s'); [by rewrite <- app_assoc| |done].
      apply (Hstep p x s s1); [by exists rest|done|done]. }
  intros s s' H0 Hrun. by apply (H l [] s s').
Qed.

Lemma deref_Return x s o s' : deref x s = Return o s' -> x = Some o ∧ s' = s.
Proof. destruct x; cbn; intros H; inversion H; by subst. Qed.

Lemma linked_ext D s s' :
  observing (nodes s' D) = observing (nodes s D) ->
  (forall A, D ∈ observers (nodes s' A) <-> D ∈ observers (nodes s A)) ->
  linked D s -> linked D s'.
Proof. intros Ho Hobs Hl A. rewrite Ho, Hobs. apply Hl. Qed.

Lemma diffValue_upd dep v s x :
  diffValue (nodes (upd_node dep (set_diffValue v) s) x)
  = if decide (x = dep) then v else diffValue (nodes s x).
Proof.
  destruct (decide (x = dep)) as [->|Hx];
    [by rewrite upd_node_same|by rewrite upd_node_other].
Qed.

Lemma observers_upd_diffValue dep v s x :
  observers (nodes (upd_node dep (set_diffValue v) s) x) = observers (nodes s x).
Proof.
  destruct (decide (x = dep)) as [->|Hx];
    [by rewrite upd_node_same|by rewrite upd_node_other].
Qed.

Lemma observing_upd_diffValue dep v s x :
  observing (nodes (upd_node dep (set_diffValue v) s) x) = observing (nodes s x).
Proof.
  destruct (decide (x = dep)) as [->|Hx];
    [by rewrite upd_node_same|by rewrite upd_node_other].
Qed.

Lemma diffValue_upd_observers o v s x :
  diffValue (nodes (upd_node o (set_observers v) s) x) = diffValue (nodes s x).
Proof.
  destruct (decide (x = o)) as [->|Hx];
    [by rewrite upd_node_same|by rewrite upd_node_other].
Qed.

Lemma observing_upd_observers o v s x :
  observing (nodes (upd_node o (set_observers v) s) x) = observing (nodes s x).
Proof.
  destruct (decide (x = o)) as [->|Hx];
    [by rewrite upd_node_same|by rewrite upd_node_other].
Qed.

Lemma observers_upd_observers o v s x :
  observers (nodes (upd_node o (set_observers v) s) x)
  = if decide (x = o) then v else observers (nodes s x).
Proof.
  destruct (decide (x = o)) as [->|Hx];
    [by rewrite upd_node_same|by rewrite upd_node_other].
Qed.

Lemma hook_frame_keeps_diffValue d h : hook_frame d h -> hook_keeps_diffValue h.
Proof. intros H o s x. by destruct (H o s) as [Hd _]. Qed.

(** What [addObserver] and [removeObserver] do to the [diffValue]s:
    nothing. *)
Lemma addObserver_diffValue obO o d s x :
  hook_keeps_diffValue obO ->
  diffValue (nodes (final (addObserver obO o d s)) x) = diffValue (nodes s x).
Proof.
  intros Hh. unfold addObserver. unfold_monad.
  destruct (bool_decide _); cbn [final]; rewrite ?Hh; apply diffValue_upd_observers.
Qed.

Lemma removeObserver_diffValue obU o d s x :
  hook_keeps_diffValue obU ->
  diffValue (nodes (final (removeObserver obU o d s)) x) = diffValue (nodes s x).
Proof.
  intros Hh. unfold removeObserver. unfold_monad.
  destruct (bool_decide _); cbn [final]; rewrite ?Hh; apply diffValue_upd_observers.
Qed.

(** What they do to the observer sets, as far as derivation [d] is
    concerned. *)
Lemma addObserver_effect obO o d s :
  hook_frame d obO ->
  (forall x, d ∈ observers (nodes (final (addObserver obO o d s)) x)
             <-> x = o ∨ d ∈ observers (nodes s x))
  ∧ observing (nodes (final (addObserver obO o d s)) d) = observing (nodes s d)
  ∧ (forall D, D <> d -> linked D s -> linked D (final (addObserver obO o d s))).
Proof.
  intros Hh. unfold addObserver. unfold_monad.
  set (s1 := upd_node o (set_observers ({[d]} ∪ observers (nodes s o))) s).
  assert (H1 : forall x, d ∈ observers (nodes s1 x) <-> x = o ∨ d ∈ observers (nodes s x)).
  { intros x. subst s1. rewrite observers_upd_observers.
    destruct (decide (x = o)) as [->|Hx].
    - rewrite elem_of_union, elem_of_singleton. tauto.
    - tauto. }
  assert (H2 : observing (nodes s1 d) = observing (nodes s d))
    by apply observing_upd_observers.
  assert (H3 : forall D, D <> d -> linked D s -> linked D s1).
  { intros D HD. apply linked_ext; [apply observing_upd_observers|].
    intros A. subst s1. rewrite observers_upd_observers.
    destruct (decide (A = o)) as [->|HA]; [|done].
    rewrite elem_of_union, elem_of_singleton. tauto. }
  destruct (bool_decide _); cbn [final]; [|done].
  destruct (Hh o s1) as (_ & Hobs & Hing & Hl).
  split; [|split].
  - intros x. by rewrite Hobs.
  - by rewrite Hing.
  - intros D HD HlD. by apply Hl, H3.
Qed.

Lemma removeObserver_effect obU o d s :
  hook_frame d obU ->
  (forall x, d ∈ observers (nodes (final (removeObserver obU o d s)) x)
             <-> x <> o ∧ d ∈ observers (nodes s x))
  ∧ observing (nodes (final (removeObserver obU o d s)) d) = observing (nodes s d)
  ∧ (forall D, D <> d -> linked D s -> linked D (final (removeObserver obU o d s))).
Proof.
  intros Hh. unfold removeObserver. unfold_monad.
  set (s1 := upd_node o (set_observers (observers (nodes s o) ∖ {[d]})) s).
  assert (H1 : forall x, d ∈ observers (nodes s1 x) <-> x <> o ∧ d ∈ observers (nodes s x)).
  { intros x. subst s1. rewrite observers_upd_observers.
    destruct (decide (x = o)) as [->|Hx].
    - rewrite elem_of_difference, elem_of_singleton. tauto.
    - tauto. }
  assert (H2 : observing (nodes s1 d) = observing (nodes s d))
    by apply observing_upd_observers.
  assert (H3 : forall D, D <> d -> linked D s -> linked D s1).
  { intros D HD. apply linked_ext; [apply observing_upd_observers|].
    intros A. subst s1. rewrite observers_upd_observers.
    destruct (decide (A = o)) as [->|HA]; [|done].
    rewrite elem_of_difference, elem_of_singleton. tauto. }
  destruct (bool_decide _); cbn [final]; [|done].
  destruct (Hh o s1) as (_ & Hobs & Hing & Hl).
  split; [|split].
  - intros x. by rewrite Hobs.
  - by rewrite Hing.
  - intros D HD HlD. by apply Hl, H3.
Qed.

Lemma mark_Return x s s' :
  bindDependencies_mark x s = Return tt s' ->
  exists dep, x = Some dep ∧ s' = upd_node dep (set_diffValue (-1)) s.
Proof.
  unfold bindDependencies_mark. unfold_monad.
  destruct (deref x s) as [dep s1|e s1] eqn:Hx; [|discriminate].
  apply deref_Return in Hx as [-> ->]. intros H. inversion H. by exists dep.
Qed.

Lemma mark_loop prev s s' :
  for_each bindDependencies_mark prev s = Return tt s' ->
  (forall y, diffValue (nodes s' y)
             = if decide (Some y ∈ prev) then -1 else diffValue (nodes s y))
  ∧ (forall y, observers (nodes s' y) = observers (nodes s y))
  ∧ (forall y, observing (nodes s' y) = observing (nodes s y)).
Proof.
  intros Hrun.
  refine (for_each_prefix bindDependencies_mark
    (fun p s' =>
       (forall y, diffValue (nodes s' y)
                  = if decide (Some y ∈ p) then -1 else diffValue (nodes s y))
       ∧ (forall y, observers (nodes s' y) = observers (nodes s y))
       ∧ (forall y, observing (nodes s' y) = observing (nodes s y)))
    prev _ s s' _ Hrun).
  - intros p x s1 s2 _ (Hd & Ho & Hi) Hx.
    apply mark_Return in Hx as (dep & -> & ->). split; [|split].
    + intros y. rewrite diffValue_upd, Hd.
      destruct (decide (y = dep)) as [->|Hy].
      * rewrite decide_True; [done|]. apply elem_of_app. right. by apply list_elem_of_singleton.
      * destruct (decide (Some y ∈ p)) as [Hp|Hp].
        -- rewrite decide_True; [done|]. apply elem_of_app. by left.
        -- rewrite decide_False; [done|].
           intros [?|Hin%list_elem_of_singleton]%elem_of_app; [done|]. congruence.
    + intros y. by rewrite observers_upd_diffValue.
    + intros y. by rewrite observing_upd_diffValue.
  - split; [|done]. intros y. rewrite decide_False; [done|]. apply not_elem_of_nil.
Qed.

Section BindLoops.

Variables (onBecomeObserved onBecomeUnobserved : nat -> M unit) (d : nat).

(** The second loop: each turn leaves the [diffValue] of its dependency
    at zero, provided it was not below -1. *)
Lemma add_diffValue x s s' :
  hook_keeps_diffValue onBecomeObserved ->
  bindDependencies_add onBecomeObserved d x s = Return tt s' ->
  exists dep, x = Some dep
    ∧ (-1 <= diffValue (nodes s dep) ->
       forall y, diffValue (nodes s' y)
                 = if decide (y = dep) then 0 else diffValue (nodes s y)).
Proof.
  intros Hh. unfold bindDependencies_add. unfold_monad.
  destruct (deref x s) as [dep s1|e s1] eqn:Hx; [|discriminate].
  apply deref_Return in Hx as [-> ->]. intros Hrun. exists dep. split; [done|].
  intros Hge y.
  destruct (0 <? diffValue (nodes s dep) + 1) eqn:Hv.
  - pose proof (addObserver_diffValue onBecomeObserved dep d
                  (upd_node dep (set_diffValue 0)
                     (upd_node dep (set_diffValue (diffValue (nodes s dep) + 1)) s))
                  y Hh) as Hadd.
    rewrite Hrun in Hadd. cbn [final] in Hadd. rewrite Hadd, !diffValue_upd.
    by destruct (decide (y = dep)).
  - inversion Hrun. rewrite diffValue_upd. apply Z.ltb_ge in Hv.
    destruct (decide (y = dep)); [lia|done].
Qed.

Lemma add_loop_diffValue new s s' :
  hook_keeps_diffValue onBecomeObserved ->
  (forall y, Some y ∈ new -> -1 <= diffValue (nodes s y)) ->
  for_each (bindDependencies_add onBecomeObserved d) new s = Return tt s' ->
  forall y, diffValue (nodes s' y)
            = if decide (Some y ∈ new) then 0 else diffValue (nodes s y).
Proof.
  intros Hh Hpre Hrun.
  refine (for_each_prefix (bindDependencies_add onBecomeObserved d)
    (fun p s' => forall y, diffValue (nodes s' y)
                           = if decide (Some y ∈ p) then 0 else diffValue (nodes s y))
    new _ s s' _ Hrun).
  - intros p x s1 s2 [rest Hnew] Hd Hx.
    apply add_diffValue in Hx as (dep & -> & Hx); [|done].
    intros y. rewrite Hx.
    + rewrite Hd. destruct (decide (y = dep)) as [->|Hy].
      * rewrite decide_True; [done|]. apply elem_of_app. right. by apply list_elem_of_singleton.
      * destruct (decide (Some y ∈ p)) as [Hp|Hp].
        -- rewrite decide_True; [done|]. apply elem_of_app. by left.
        -- rewrite decide_False; [done|].
           intros [?|Hin%list_elem_of_singleton]%elem_of_app; [done|]. congruence.
    + rewrite Hd. destruct (decide (Some dep ∈ p)); [lia|].
      apply Hpre. rewrite Hnew. apply elem_of_app. right. by apply elem_of_cons; left.
  - intros y. rewrite decide_False; [done|]. apply not_elem_of_nil.
Qed.

(** The third loop: each turn raises a negative [diffValue] of its
    dependency to zero. *)
Lemma remove_diffValue x s s' :
  hook_keeps_diffValue onBecomeUnobserved ->
  bindDependencies_remove onBecomeUnobserved d x s = Return tt s' ->
  exists dep, x = Some dep
    ∧ forall y, diffValue (nodes s' y)
                = if decide (y = dep)
                  then (if diffValue (nodes s dep) <? 0 then 0 else diffValue (nodes s dep))
                  else diffValue (nodes s y).
Proof.
  intros Hh. unfold bindDependencies_remove. unfold_monad.
  destruct (deref x s) as [dep s1|e s1] eqn:Hx; [|discriminate].
  apply deref_Return in Hx as [-> ->]. intros Hrun. exists dep. split; [done|].
  intros y.
  destruct (diffValue (nodes s dep) <? 0) eqn:Hv.
  - pose proof (removeObserver_diffValue onBecomeUnobserved dep d
                  (upd_node dep (set_diffValue 0) s) y Hh) as Hrem.
    rewrite Hrun in Hrem. cbn [final] in Hrem. rewrite Hrem, diffValue_upd.
    by destruct (decide (y = dep)).
  - inversion Hrun; subst. by destruct (decide (y = dep)) as [->|].
Qed.

Lemma remove_loop_diffValue prev s s' :
  hook_keeps_diffValue onBecomeUnobserved ->
  for_each (bindDependencies_remove onBecomeUnobserved d) prev s = Return tt s' ->
  forall y, diffValue (nodes s' y)
            = if decide (Some y ∈ prev)
              then (if diffValue (nodes s y) <? 0 then 0 else diffValue (nodes s y))
              else diffValue (nodes s y).
Proof.
  intros Hh Hrun.
  refine (for_each_prefix (bindDependencies_remove onBecomeUnobserved d)
    (fun p s' => forall y, diffValue (nodes s' y)
                           = if decide (Some y ∈ p)
                             then (if diffValue (nodes s y) <? 0 then 0
                                   else diffValue (nodes s y))
                             else diffValue (nodes s y))
    prev _ s s' _ Hrun).
  - intros p x s1 s2 _ Hd Hx.
    apply remove_diffValue in Hx as (dep & -> & Hx); [|done].
    intros y. rewrite Hx, !Hd. destruct (decide (y = dep)) as [->|Hy].
    + rewrite (decide_True (P := Some dep ∈ p ++ [Some dep]));
        [|apply elem_of_app; right; by apply list_elem_of_singleton].
      destruct (decide (Some dep ∈ p)); [|done].
      destruct (diffValue (nodes s dep) <? 0) eqn:Hv; [done|by rewrite Hv].
    + destruct (decide (Some y ∈ p)) as [Hp|Hp].
      * rewrite decide_True; [done|]. apply elem_of_app. by left.
      * rewrite decide_False; [done|].
        intros [?|Hin%list_elem_of_singleton]%elem_of_app; [done|]. congruence.
  - intros y. rewrite decide_False; [done|]. apply not_elem_of_nil.
Qed.

End BindLoops.

Lemma bindDependencies_unfold obO obU d prev s :
  bindDependencies obO obU d prev s
  = (for_each bindDependencies_mark prev;;
     for_each (bindDependencies_add obO d)
       (set_length (unboundDepsCount (nodes s d)) (observing (nodes s d)));;
     for_each (bindDependencies_remove obU d) prev)
      (upd_node d (set_observing
                     (set_length (unboundDepsCount (nodes s d)) (observing (nodes s d)))) s).
Proof. reflexivity. Qed.

Lemma bindDependencies_Return obO obU d prev s s' :
  bindDependencies obO obU d prev s = Return tt s' ->
  let new := set_length (unboundDepsCount (nodes s d)) (observing (nodes s d)) in
  exists s1 s2,
    for_each bindDependencies_mark prev (upd_node d (set_observing new) s) = Return tt s1
    ∧ for_each (bindDependencies_add obO d) new s1 = Return tt s2
    ∧ for_each (bindDependencies_remove obU d) prev s2 = Return tt s'.
Proof.
  rewrite bindDependencies_unfold. intros Hrun new. fold new in Hrun.
  unfold bind in Hrun.
  destruct (for_each bindDependencies_mark prev _) as [[] s1|e s1] eqn:H1; [|discriminate].
  destruct (for_each (bindDependencies_add obO d) new s1) as [[] s2|e s2] eqn:H2;
    [|discriminate].
  by exists s1, s2.
Qed.

Lemma upd_node_unboundDepsCount_diffValue d v s x :
  diffValue (nodes (upd_node d (set_unboundDepsCount v) s) x) = diffValue (nodes s x).
Proof.
  destruct (decide (x = d)) as [->|Hx];
    [by rewrite upd_node_same|by rewrite upd_node_other].
Qed.

Lemma diffValue_upd_observing d v s x :
  diffValue (nodes (upd_node d (set_observing v) s) x) = diffValue (nodes s x).
Proof.
  destruct (decide (x = d)) as [->|Hx];
    [by rewrite upd_node_same|by rewrite upd_node_other].
Qed.

Lemma observers_upd_observing d v s x :
  observers (nodes (upd_node d (set_observing v) s) x) = observers (nodes s x).
Proof.
  destruct (decide (x = d)) as [->|Hx];
    [by rewrite upd_node_same|by rewrite upd_node_other].
Qed.

Lemma bindDependencies_diffValue obO obU d prev s s' :
  hook_keeps_diffValue obO -> hook_keeps_diffValue obU ->
  let new := set_length (unboundDepsCount (nodes s d)) (observing (nodes s d)) in
  (forall y, Some y ∈ new -> Some y ∉ prev -> 0 <= diffValue (nodes s y)) ->
  bindDependencies obO obU d prev s = Return tt s' ->
  forall y, diffValue (nodes s' y)
            = if decide (Some y ∈ prev ∨ Some y ∈ new) then 0 else diffValue (nodes s y).
Proof.
  intros HO HU new Hpre Hrun.
  apply bindDependencies_Return in Hrun as (s1 & s2 & H1 & H2 & H3). fold new in H1, H2.
  apply mark_loop in H1 as (Hd1 & _ & _).
  assert (Hd1' : forall y, diffValue (nodes s1 y)
                           = if decide (Some y ∈ prev) then -1 else diffValue (nodes s y)).
  { intros y. by rewrite Hd1, diffValue_upd_observing. }
  pose proof (add_loop_diffValue obO d new s1 s2 HO) as Hd2.
  specialize (Hd2 ltac:(intros y Hy; rewrite Hd1';
                        destruct (decide (Some y ∈ prev)); [lia|];
                        specialize (Hpre y Hy ltac:(done)); lia) H2).
  pose proof (remove_loop_diffValue obU d prev s2 s' HU H3) as Hd3.
  intros y. rewrite Hd3, !Hd2, Hd1'.
  repeat case_decide; try tauto; reflexivity.
Qed.

(** C7: when the hooks write no [diffValue], and the dependencies that
    are new in this run have a non-negative [diffValue] on entry (as
    they do when every [diffValue] is zero), a [bindDependencies] that
    returns leaves the [diffValue] of every element of the previous and
    of the new observing list at zero, and the other [diffValue]s as
    they were: all [diffValue]s are zero again if they were before. *)
Theorem C7_bindDependencies_leaves_diffValue_zero :
  forall (onBecomeObserved onBecomeUnobserved : nat -> M unit)
         (derivation : nat) (prevObserving : JsArray) (s s' : State),
    hook_keeps_diffValue onBecomeObserved ->
    hook_keeps_diffValue onBecomeUnobserved ->
    let observing := set_length (unboundDepsCount (nodes s derivation))
                       (observing (nodes s derivation)) in
    (forall y, Some y ∈ observing -> Some y ∉ prevObserving ->
               0 <= diffValue (nodes s y)) ->
    bindDependencies onBecomeObserved onBecomeUnobserved derivation prevObserving s
    = Return tt s' ->
    (forall y, Some y ∈ prevObserving ∨ Some y ∈ observing ->
               diffValue (nodes s' y) = 0)
    ∧ (forall y, Some y ∉ prevObserving -> Some y ∉ observing ->
                 diffValue (nodes s' y) = diffValue (nodes s y))
    ∧ (clean s -> clean s').
Proof.
  intros obO obU d prev s s' HO HU new Hpre Hrun.
  pose proof (bindDependencies_diffValue obO obU d prev s s' HO HU Hpre Hrun) as Hd.
  fold new in Hd. split; [|split].
  - intros y Hy. rewrite Hd. by rewrite decide_True.
  - intros y Hp Hn. rewrite Hd. rewrite decide_False; [done|tauto].
  - intros Hc y. rewrite Hd. destruct (decide _); [done|apply Hc].
Qed.

Lemma Reaction_hooks_keep_diffValue :
  hook_keeps_diffValue Reaction_onBecomeObserved
  ∧ hook_keeps_diffValue Reaction_onBecomeUnobserved.
Proof. split; intros o s x; reflexivity. Qed.

Lemma rebinding_state_clean : clean rebinding_state.
Proof.
  intros x. unfold rebinding_state.
  rewrite upd_node_unboundDepsCount_diffValue, diffValue_upd_observing,
    !diffValue_upd_observers. reflexivity.
Qed.

(** Rebinding derivation [0] from the dependencies [1], [2] to [2],
    [3]: the three observables it touches are left clean. *)
Lemma C7_bindDependencies_leaves_diffValue_zero_witness :
  diffValue (nodes (final (bindDependencies Reaction_onBecomeObserved
                             Reaction_onBecomeUnobserved 0%nat
                             previous_observing rebinding_state)) 1%nat) = 0
  ∧ diffValue (nodes (final (bindDependencies Reaction_onBecomeObserved
                             Reaction_onBecomeUnobserved 0%nat
                             previous_observing rebinding_state)) 2%nat) = 0
  ∧ diffValue (nodes (final (bindDependencies Reaction_onBecomeObserved
                             Reaction_onBecomeUnobserved 0%nat
                             previous_observing rebinding_state)) 3%nat) = 0.
Proof.
  destruct (C7_bindDependencies_leaves_diffValue_zero
              Reaction_onBecomeObserved Reaction_onBecomeUnobserved 0%nat
              previous_observing rebinding_state
              (final (bindDependencies Reaction_onBecomeObserved
                        Reaction_onBecomeUnobserved 0%nat
                        previous_observing rebinding_state)))
    as [H _].
  - apply Reaction_hooks_keep_diffValue.
  - apply Reaction_hooks_keep_diffValue.
  - intros y _ _. rewrite rebinding_state_clean. lia.
  - apply return_final. vm_compute. reflexivity.
  - split; [|split]; apply H.
    + left. apply elem_of_cons. by left.
    + left. apply elem_of_cons. right. apply elem_of_cons. by left.
    + right. apply elem_of_cons. right. apply elem_of_cons. by left.
Defined.

(** [bindDependencies] and [clearObserving] do return: when the arrays
    have no holes and the hooks return. *)
Lemma for_each_returns {A} (body : A -> M unit) (l : list A) :
  (forall x s, x ∈ l -> is_return (body x s) = true) ->
  forall s, is_return (for_each body l s) = true.
Proof.
  induction l as [|x l IH]; intros Hbody s; [reflexivity|].
  cbn [for_each]. unfold bind.
  pose proof (Hbody x s ltac:(apply elem_of_cons; by left)) as Hx.
  destruct (body x s) as [[] s1|e s1]; [|discriminate].
  apply IH. intros y s' Hy. apply Hbody. apply elem_of_cons. by right.
Qed.

Lemma bindDependencies_returns obO obU d (prev : JsArray) s :
  (forall o s', is_return (obO o s') = true) ->
  (forall o s', is_return (obU o s') = true) ->
  None ∉ prev ->
  None ∉ set_length (unboundDepsCount (nodes s d)) (observing (nodes s d)) ->
  is_return (bindDependencies obO obU d prev s) = true.
Proof.
  intros HO HU Hprev Hnew. rewrite bindDependencies_unfold. unfold bind.
  set (new := set_length _ _) in *.
  pose proof (for_each_returns bindDependencies_mark prev) as H1.
  specialize (H1 ltac:(intros [o|] s' Hx; [reflexivity|done])
                (upd_node d (set_observing new) s)).
  destruct (for_each bindDependencies_mark prev _) as [[] s1|e s1]; [|discriminate].
  pose proof (for_each_returns (bindDependencies_add obO d) new) as H2.
  specialize (H2 ltac:(intros [o|] s' Hx; [|done];
                       unfold bindDependencies_add, addObserver; unfold_monad; cbn;
                       destruct (0 <? _); [|reflexivity];
                       destruct (bool_decide _); [apply HO|reflexivity]) s1).
  destruct (for_each (bindDependencies_add obO d) new s1) as [[] s2|e s2];
    [|discriminate].
  apply for_each_returns. intros [o|] s' Hx; [|done].
  unfold bindDependencies_remove, removeObserver. unfold_monad. cbn.
  destruct (_ <? 0); [|reflexivity].
  destruct (bool_decide _); [apply HU|reflexivity].
Qed.

Lemma clearObserving_returns obU d s :
  (forall o s', is_return (obU o s') = true) ->
  None ∉ observing (nodes s d) ->
  is_return (clearObserving obU d s) = true.
Proof.
  intros HU Hobs. unfold clearObserving. unfold_monad.
  pose proof (for_each_returns
                (fun x => o <- deref x;; removeObserver obU o d)
                (observing (nodes s d))) as H.
  specialize (H ltac:(intros [o|] s' Hx; [|done];
                      unfold removeObserver; unfold_monad; cbn;
                      destruct (bool_decide _); [apply HU|reflexivity]) s).
  unfold bind in H.
  by destruct (for_each _ (observing (nodes s d)) s) as [[] s1|e s1].
Qed.

(** ** The observer sets after a tracking run *)

Section BindObservers.

Variables (onBecomeObserved onBecomeUnobserved : nat -> M unit) (d : nat).
Hypothesis onBecomeObserved_frame : hook_frame d onBecomeObserved.
Hypothesis onBecomeUnobserved_frame : hook_frame d onBecomeUnobserved.

Lemma add_effect x s s' :
  bindDependencies_add onBecomeObserved d x s = Return tt s' ->
  exists dep, x = Some dep
    ∧ (forall y, d ∈ observers (nodes s' y)
                 <-> (y = dep ∧ 0 <= diffValue (nodes s dep)) ∨ d ∈ observers (nodes s y))
    ∧ observing (nodes s' d) = observing (nodes s d)
    ∧ (forall D, D <> d -> linked D s -> linked D s').
Proof.
  unfold bindDependencies_add. unfold_monad.
  destruct (deref x s) as [dep s1|e s1] eqn:Hx; [|discriminate].
  apply deref_Return in Hx as [-> ->]. intros Hrun. exists dep. split; [done|].
  destruct (0 <? diffValue (nodes s dep) + 1) eqn:Hv.
  - apply Z.ltb_lt in Hv.
    destruct (addObserver_effect onBecomeObserved dep d
                (upd_node dep (set_diffValue 0)
                   (upd_node dep (set_diffValue (diffValue (nodes s dep) + 1)) s))
                onBecomeObserved_frame) as (Ho & Hi & Hl).
    rewrite Hrun in Ho, Hi, Hl. cbn [final] in Ho, Hi, Hl. split; [|split].
    + intros y. rewrite Ho, !observers_upd_diffValue.
      split; (intros [?|?]; [left|by right]); [split; [done|lia]|tauto].
    + by rewrite Hi, !observing_upd_diffValue.
    + intros D HD HlD. apply Hl; [done|].
      revert HlD. apply linked_ext.
      * by rewrite !observing_upd_diffValue.
      * intros A. by rewrite !observers_upd_diffValue.
  - apply Z.ltb_ge in Hv. inversion Hrun; subst. split; [|split].
    + intros y. rewrite observers_upd_diffValue.
      split; [by right|]. intros [[_ ?]|?]; [lia|done].
    + by rewrite observing_upd_diffValue.
    + intros D HD. apply linked_ext.
      * by rewrite observing_upd_diffValue.
      * intros A. by rewrite observers_upd_diffValue.
Qed.

Lemma remove_effect x s s' :
  bindDependencies_remove onBecomeUnobserved d x s = Return tt s' ->
  exists dep, x = Some dep
    ∧ (forall y, d ∈ observers (nodes s' y)
                 <-> ~ (y = dep ∧ diffValue (nodes s dep) < 0) ∧ d ∈ observers (nodes s y))
    ∧ observing (nodes s' d) = observing (nodes s d)
    ∧ (forall D, D <> d -> linked D s -> linked D s').
Proof.
  unfold bindDependencies_remove. unfold_monad.
  destruct (deref x s) as [dep s1|e s1] eqn:Hx; [|discriminate].
  apply deref_Return in Hx as [-> ->]. intros Hrun. exists dep. split; [done|].
  destruct (diffValue (nodes s dep) <? 0) eqn:Hv.
  - apply Z.ltb_lt in Hv.
    destruct (removeObserver_effect onBecomeUnobserved dep d
                (upd_node dep (set_diffValue 0) s)
                onBecomeUnobserved_frame) as (Ho & Hi & Hl).
    rewrite Hrun in Ho, Hi, Hl. cbn [final] in Ho, Hi, Hl. split; [|split].
    + intros y. rewrite Ho, observers_upd_diffValue. tauto.
    + by rewrite Hi, observing_upd_diffValue.
    + intros D HD HlD. apply Hl; [done|].
      revert HlD. apply linked_ext.
      * by rewrite observing_upd_diffValue.
      * intros A. by rewrite observers_upd_diffValue.
  - apply Z.ltb_ge in Hv. inversion Hrun; subst. split; [|split]; [|done|done].
    intros y. split; [|tauto]. intros Hy. split; [|done]. intros [_ ?]. lia.
Qed.

Lemma add_loop_effect (prev new : JsArray) s s' :
  (forall y, d ∈ observers (nodes s y) <-> Some y ∈ prev) ->
  (forall y, Some y ∈ prev -> diffValue (nodes s y) = -1) ->
  (forall y, Some y ∈ new -> Some y ∉ prev -> 0 <= diffValue (nodes s y)) ->
  for_each (bindDependencies_add onBecomeObserved d) new s = Return tt s' ->
  (forall y, d ∈ observers (nodes s' y) <-> Some y ∈ prev ∨ Some y ∈ new)
  ∧ observing (nodes s' d) = observing (nodes s d)
  ∧ (forall D, D <> d -> linked D s -> linked D s').
Proof.
  intros Hlink Hprev Hnew Hrun.
  assert (HO := hook_frame_keeps_diffValue _ _ onBecomeObserved_frame).
  refine (proj2 (for_each_prefix (bindDependencies_add onBecomeObserved d)
    (fun p s1 =>
       (forall y, diffValue (nodes s1 y)
                  = if decide (Some y ∈ p) then 0 else diffValue (nodes s y))
       ∧ (forall y, d ∈ observers (nodes s1 y) <-> Some y ∈ prev ∨ Some y ∈ p)
       ∧ observing (nodes s1 d) = observing (nodes s d)
       ∧ (forall D, D <> d -> linked D s -> linked D s1))
    new _ s s' _ Hrun)).
  - intros p x s1 s2 [rest Hrest] (Hd & Ho & Hi & Hl) Hx.
    assert (Hin : x ∈ new).
    { rewrite Hrest. apply elem_of_app. right. apply elem_of_cons. by left. }
    destruct (add_diffValue onBecomeObserved d x s1 s2 HO Hx) as (dep & -> & Hd2).
    destruct (add_effect _ _ _ Hx) as (dep' & [= <-] & Ho2 & Hi2 & Hl2).
    assert (Hge : -1 <= diffValue (nodes s1 dep)).
    { rewrite Hd. destruct (decide (Some dep ∈ p)); [lia|].
      destruct (decide (Some dep ∈ prev)) as [Hp|Hp].
      - rewrite Hprev by done. lia.
      - specialize (Hnew dep Hin Hp). lia. }
    split; [|split; [|split]].
    + intros y. rewrite (Hd2 Hge), Hd. destruct (decide (y = dep)) as [->|Hy].
      * rewrite decide_True; [done|].
        apply elem_of_app. right. by apply list_elem_of_singleton.
      * destruct (decide (Some y ∈ p)) as [Hp|Hp].
        -- rewrite decide_True; [done|]. apply elem_of_app. by left.
        -- rewrite decide_False; [done|].
           intros [?|Hq%list_elem_of_singleton]%elem_of_app; [done|]. congruence.
    + intros y. rewrite Ho2, Ho, elem_of_app, list_elem_of_singleton.
      split.
      * intros [[-> _]|[?|?]]; tauto.
      * intros [?|[?|[= ->]]]; [tauto|tauto|].
        destruct (decide (Some dep ∈ prev)) as [Hp|Hp]; [tauto|].
        left. split; [done|]. rewrite Hd.
        destruct (decide (Some dep ∈ p)); [lia|]. by apply Hnew.
    + by rewrite Hi2.
    + intros D HD HlD. by apply Hl2, Hl.
  - split; [|split; [|done]].
    + intros y. rewrite decide_False; [done|]. apply not_elem_of_nil.
    + intros y. rewrite Hlink. split; [by left|]. intros [?|Hq]; [done|].
      by apply elem_of_nil in Hq.
Qed.

Lemma remove_loop_effect (prev new : JsArray) s s' :
  (forall y, d ∈ observers (nodes s y) <-> Some y ∈ prev ∨ Some y ∈ new) ->
  (forall y, Some y ∈ prev -> (diffValue (nodes s y) < 0 <-> Some y ∉ new)) ->
  for_each (bindDependencies_remove onBecomeUnobserved d) prev s = Return tt s' ->
  (forall y, d ∈ observers (nodes s' y) <-> Some y ∈ new)
  ∧ observing (nodes s' d) = observing (nodes s d)
  ∧ (forall D, D <> d -> linked D s -> linked D s').
Proof.
  intros Hlink Hdiff Hrun.
  assert (HU := hook_frame_keeps_diffValue _ _ onBecomeUnobserved_frame).
  cut ((forall y, d ∈ observers (nodes s' y)
                  <-> Some y ∈ new ∨ (Some y ∈ prev ∧ Some y ∉ prev))
       ∧ observing (nodes s' d) = observing (nodes s d)
       ∧ (forall D, D <> d -> linked D s -> linked D s')).
  { intros (Ho & Hi & Hl). split; [|by split]. intros y. rewrite Ho. tauto. }
  refine (proj2 (for_each_prefix (bindDependencies_remove onBecomeUnobserved d)
    (fun p s1 =>
       (forall y, diffValue (nodes s1 y)
                  = if decide (Some y ∈ p)
                    then (if diffValue (nodes s y) <? 0 then 0 else diffValue (nodes s y))
                    else diffValue (nodes s y))
       ∧ (forall y, d ∈ observers (nodes s1 y)
                    <-> Some y ∈ new ∨ (Some y ∈ prev ∧ Some y ∉ p))
       ∧ observing (nodes s1 d) = observing (nodes s d)
       ∧ (forall D, D <> d -> linked D s -> linked D s1))
    prev _ s s' _ Hrun)).
  - intros p x s1 s2 [rest Hrest] (Hd & Ho & Hi & Hl) Hx.
    assert (Hin : x ∈ prev).
    { rewrite Hrest. apply elem_of_app. right. apply elem_of_cons. by left. }
    destruct (remove_diffValue onBecomeUnobserved d x s1 s2 HU Hx) as (dep & -> & Hd2).
    destruct (remove_effect _ _ _ Hx) as (dep' & [= <-] & Ho2 & Hi2 & Hl2).
    assert (Hneg : diffValue (nodes s1 dep) < 0 <-> (Some dep ∉ p) ∧ (Some dep ∉ new)).
    { rewrite Hd. rewrite <- (Hdiff dep Hin).
      destruct (decide (Some dep ∈ p)).
      - destruct (diffValue (nodes s dep) <? 0) eqn:Hv;
          [|apply Z.ltb_ge in Hv]; (split; [lia|intros [? _]; done]).
      - tauto. }
    split; [|split; [|split]].
    + intros y. rewrite Hd2, !Hd. destruct (decide (y = dep)) as [->|Hy].
      * rewrite (decide_True (P := Some dep ∈ p ++ [Some dep]));
          [|apply elem_of_app; right; by apply list_elem_of_singleton].
        destruct (decide (Some dep ∈ p)); [|done].
        destruct (diffValue (nodes s dep) <? 0) eqn:Hv; [done|by rewrite Hv].
      * destruct (decide (Some y ∈ p)) as [Hp|Hp].
        -- rewrite decide_True; [done|]. apply elem_of_app. by left.
        -- rewrite decide_False; [done|].
           intros [?|Hq%list_elem_of_singleton]%elem_of_app; [done|]. congruence.
    + intros y. rewrite Ho2, Ho, Hneg, elem_of_app, list_elem_of_singleton.
      destruct (decide (y = dep)) as [->|Hy].
      * destruct (decide (Some dep ∈ p)); destruct (decide (Some dep ∈ new)); tauto.
      * split.
        -- intros [_ [?|[? ?]]]; [by left|]. right. split; [done|].
           intros [?|[= ?]]; done.
        -- intros [?|[? Hq]]; (split; [intros [? _]; done|]); [by left|].
           right. split; [done|]. intros ?. apply Hq. by left.
    + by rewrite Hi2.
    + intros D HD HlD. by apply Hl2, Hl.
  - split; [|split; [|done]].
    + intros y. rewrite decide_False; [done|]. apply not_elem_of_nil.
    + intros y. rewrite Hlink. split.
      * intros [?|?]; [|by left]. right. split; [done|]. apply not_elem_of_nil.
      * intros [?|[? _]]; [by right|by left].
Qed.

End BindObservers.

Lemma bindDependencies_effect obO obU d prev s s' :
  hook_frame d obO -> hook_frame d obU ->
  let new := set_length (unboundDepsCount (nodes s d)) (observing (nodes s d)) in
  (forall y, Some y ∈ new -> Some y ∉ prev -> 0 <= diffValue (nodes s y)) ->
  (forall y, d ∈ observers (nodes s y) <-> Some y ∈ prev) ->
  bindDependencies obO obU d prev s = Return tt s' ->
  linked d s' ∧ observing (nodes s' d) = new
  ∧ (forall D, D <> d -> linked D s -> linked D s').
Proof.
  intros HO HU new Hpre Hlink Hrun.
  apply bindDependencies_Return in Hrun as (s1 & s2 & H1 & H2 & H3). fold new in H1, H2.
  apply mark_loop in H1 as (Hd1 & Ho1 & Hi1).
  set (s0 := upd_node d (set_observing new) s) in *.
  assert (Hl0 : forall D, D <> d -> linked D s -> linked D s1).
  { intros D HD. apply linked_ext.
    - rewrite Hi1. subst s0. by rewrite upd_node_other.
    - intros A. rewrite Ho1. subst s0. by rewrite observers_upd_observing. }
  assert (Hi0 : observing (nodes s1 d) = new).
  { rewrite Hi1. subst s0. by rewrite upd_node_same. }
  destruct (add_loop_effect obO d HO prev new s1 s2) as (Ho2 & Hi2 & Hl2); [| | |done|].
  { intros y. rewrite Ho1. subst s0. by rewrite observers_upd_observing. }
  { intros y Hy. rewrite Hd1. by rewrite decide_True. }
  { intros y Hn Hp. rewrite Hd1. rewrite decide_False by done.
    subst s0. rewrite diffValue_upd_observing. by apply Hpre. }
  pose proof (add_loop_diffValue obO d new s1 s2
                (hook_frame_keeps_diffValue _ _ HO)) as Hd2.
  specialize (Hd2 ltac:(intros y Hy; rewrite Hd1; case_decide; [lia|];
                        subst s0; rewrite diffValue_upd_observing;
                        specialize (Hpre y Hy ltac:(done)); lia) H2).
  destruct (remove_loop_effect obU d HU prev new s2 s') as (Ho3 & Hi3 & Hl3);
    [done| |done|].
  { intros y Hy. rewrite Hd2, Hd1.
    repeat case_decide; try done; (split; [lia|done]) || (split; [done|lia]). }
  split; [|split].
  - intros A. rewrite Hi3, Hi2, Hi0. by rewrite Ho3.
  - by rewrite Hi3, Hi2.
  - intros D HD HlD. by apply Hl3, Hl2, Hl0.
Qed.

Lemma trackDerivedFunction_Return {T} obO obU d (f : M T) s v s' :
  trackDerivedFunction obO obU d f s = Return v s' ->
  exists s1 stack,
    f (tracking_state d s) = Return v s1
    ∧ bindDependencies obO obU d (observing (nodes s d))
        (upd_globals (globalState.set_derivationStack stack)
           (upd_globals (globalState.set_isTracking (globalState.isTracking (globals s)))
              s1))
      = Return tt s'.
Proof.
  rewrite trackDerivedFunction_unfold. unfold try_catch at 1. unfold bind at 1.
  destruct (f (tracking_state d s)) as [v1 s1|e s1] eqn:Hf.
  - unfold pop_derivationStack. unfold_monad. cbn [globals upd_globals].
    destruct (globalState.derivationStack _) as [|top stack] eqn:Hst.
    + unfold isSpyEnabled, spyReport, resetGlobalState. unfold_monad.
      by destruct (spyEnabled _).
    + set (s2 := upd_globals _ (upd_globals _ s1)).
      destruct (bindDependencies obO obU d (observing (nodes s d)) s2) as [[] s3|e s3] eqn:Hb.
      * intros [= -> ->]. eexists s1, _. split; [done|]. exact Hb.
      * unfold isSpyEnabled, spyReport, resetGlobalState. unfold_monad.
        by destruct (spyEnabled _).
  - unfold isSpyEnabled, spyReport, resetGlobalState. unfold_monad.
    by destruct (spyEnabled _).
Qed.

Lemma clearObserving_effect obU d s s' :
  hook_frame d obU ->
  clearObserving obU d s = Return tt s' ->
  observing (nodes s' d) = []
  ∧ (forall y, d ∈ observers (nodes s' y)
               <-> d ∈ observers (nodes s y) ∧ Some y ∉ observing (nodes s d))
  ∧ (forall D, D <> d -> linked D s -> linked D s').
Proof.
  intros HU. unfold clearObserving. unfold_monad.
  destruct (for_each _ (observing (nodes s d)) s) as [[] s1|e s1] eqn:Hloop;
    [|discriminate].
  intros [= <-].
  assert (H1 : (forall y, d ∈ observers (nodes s1 y)
                          <-> d ∈ observers (nodes s y) ∧ Some y ∉ observing (nodes s d))
               ∧ observing (nodes s1 d) = observing (nodes s d)
               ∧ (forall D, D <> d -> linked D s -> linked D s1)).
  { refine (for_each_prefix _
      (fun p s1 =>
         (forall y, d ∈ observers (nodes s1 y)
                    <-> d ∈ observers (nodes s y) ∧ Some y ∉ p)
         ∧ observing (nodes s1 d) = observing (nodes s d)
         ∧ (forall D, D <> d -> linked D s -> linked D s1))
      (observing (nodes s d)) _ s s1 _ Hloop).
    - intros p x sa sb _ (Ho & Hi & Hl) Hx. unfold bind in Hx.
      destruct (deref x sa) as [o sa'|e sa'] eqn:Hd; [|discriminate].
      apply deref_Return in Hd as [-> ->].
      destruct (removeObserver_effect obU o d sa HU) as (Ho2 & Hi2 & Hl2).
      rewrite Hx in Ho2, Hi2, Hl2. cbn [final] in Ho2, Hi2, Hl2.
      split; [|split].
      + intros y. rewrite Ho2, Ho, elem_of_app, list_elem_of_singleton.
        split.
        * intros (Hy & ? & ?). split; [done|]. intros [?|[= ?]]; done.
        * intros (? & Hq). split; [intros ->; apply Hq; by right|].
          split; [done|]. intros ?. apply Hq. by left.
      + by rewrite Hi2.
      + intros D HD HlD. by apply Hl2, Hl.
    - split; [|done]. intros y. split; [|tauto]. intros ?. split; [done|].
      apply not_elem_of_nil. }
  destruct H1 as (Ho & Hi & Hl). split; [|split].
  - by rewrite upd_node_same.
  - intros y. by rewrite observers_upd_observing.
  - intros D HD HlD. specialize (Hl D HD HlD). revert Hl. apply linked_ext.
    + by rewrite upd_node_other.
    + intros A. by rewrite observers_upd_observing.
Qed.

(** C1: when the hooks and the tracked function stay out of the
    binding of derivation [d], a tracking run of [d] that completes,
    started with [d] linked and every [diffValue] at zero, ends with
    every derivation that was linked still linked ([d] included: an
    observable is in [d.observing] exactly when [d] is in its observer
    set) and every [diffValue] at zero again; and a [clearObserving] of
    [d] that returns keeps every linked derivation linked. *)
Theorem C1_observing_matches_observers :
  forall (onBecomeObserved onBecomeUnobserved : nat -> M unit) (d : nat),
    hook_frame d onBecomeObserved ->
    hook_frame d onBecomeUnobserved ->
    (forall (T : Type) (f : M T) (s s' : State) (v : T),
        tracked_function_frame d f s ->
        linked d s -> clean s ->
        trackDerivedFunction onBecomeObserved onBecomeUnobserved d f s = Return v s' ->
        (forall D, linked D s -> linked D s') ∧ linked d s' ∧ clean s')
    ∧ (forall s s',
          clearObserving onBecomeUnobserved d s = Return tt s' ->
          forall D, linked D s -> linked D s').
Proof.
  intros obO obU d HO HU. split.
  - intros T f s s' v Hf Hld Hclean Hrun.
    apply trackDerivedFunction_Return in Hrun as (s1 & stack & Hf1 & Hbind).
    destruct (Hf v s1 Hf1) as (Hfd & Hfo & Hfl).
    set (s2 := upd_globals (globalState.set_derivationStack stack)
                 (upd_globals (globalState.set_isTracking
                                 (globalState.isTracking (globals s))) s1)) in *.
    assert (Hclean2 : clean s2) by (intros y; subst s2; cbn; rewrite Hfd; apply Hclean).
    destruct (bindDependencies_effect obO obU d (observing (nodes s d)) s2 s' HO HU)
      as (Hd' & _ & Hl'); [| |exact Hbind|].
    { intros y _ _. rewrite Hclean2. lia. }
    { intros y. subst s2. cbn. rewrite Hfo. symmetry. apply Hld. }
    assert (Hc' : clean s').
    { intros y.
      rewrite (bindDependencies_diffValue obO obU d (observing (nodes s d)) s2 s'
                 (hook_frame_keeps_diffValue _ _ HO) (hook_frame_keeps_diffValue _ _ HU));
        [|intros z _ _; rewrite Hclean2; lia|exact Hbind].
      case_decide; [done|apply Hclean2]. }
    split; [|by split].
    intros D HlD. destruct (decide (D = d)) as [->|HD]; [done|].
    apply Hl'; [done|]. by apply Hfl.
  - intros s s' Hrun D HlD.
    destruct (clearObserving_effect obU d s s' HU Hrun) as (Hi & Ho & Hl).
    destruct (decide (D = d)) as [->|HD]; [|by apply Hl].
    intros A. rewrite Hi, Ho. split; [intros []%elem_of_nil|].
    intros [Hin Hnot]. exfalso. apply Hnot. by apply HlD.
Qed.

Lemma tracking_state_nodes d s y :
  diffValue (nodes (tracking_state d s) y) = diffValue (nodes s y)
  ∧ observers (nodes (tracking_state d s) y) = observers (nodes s y)
  ∧ (y <> d -> nodes (tracking_state d s) y = nodes s y).
Proof.
  unfold tracking_state. cbn.
  destruct (y =? d)%nat eqn:Hy; [by apply Nat.eqb_eq in Hy as ->|].
  by apply Nat.eqb_neq in Hy.
Qed.

(** A function that only reads observables stays out of the binding. *)
Lemma reads_frame d l s : tracked_function_frame d (reads l) s.
Proof.
  intros v s1 Hrun. destruct v.
  assert (H : globals s1 = globals (tracking_state d s)
              ∧ (forall y, diffValue (nodes s1 y) = diffValue (nodes (tracking_state d s) y))
              ∧ (forall y, observers (nodes s1 y) = observers (nodes (tracking_state d s) y))
              ∧ (forall D, D <> d -> observing (nodes s1 D)
                                    = observing (nodes (tracking_state d s) D))).
  { refine (for_each_prefix reportObserved
      (fun _ s' =>
         globals s' = globals (tracking_state d s)
         ∧ (forall y, diffValue (nodes s' y) = diffValue (nodes (tracking_state d s) y))
         ∧ (forall y, observers (nodes s' y) = observers (nodes (tracking_state d s) y))
         ∧ (forall D, D <> d -> observing (nodes s' D)
                               = observing (nodes (tracking_state d s) D)))
      l _ (tracking_state d s) s1 _ Hrun); [|done].
    intros p o sa sb _ (Hg & Hd & Ho & Hi) Hx.
    assert (Ht : globalState.isTracking (globals sa) = true)
      by (rewrite Hg; reflexivity).
    assert (Hs : last (globalState.derivationStack (globals sa)) = Some d)
      by (rewrite Hg; cbn; apply last_snoc).
    unfold reportObserved in Hx. unfold_monad. rewrite Ht, Hs in Hx.
    injection Hx as <-. split; [exact Hg|]. split; [|split].
    - intros y. rewrite <- Hd.
      destruct (decide (y = d)) as [->|Hy];
        [by rewrite !upd_node_same|by rewrite !upd_node_other].
    - intros y. rewrite <- Ho.
      destruct (decide (y = d)) as [->|Hy];
        [by rewrite !upd_node_same|by rewrite !upd_node_other].
    - intros D HD. rewrite <- Hi by done. by rewrite !upd_node_other. }
  destruct H as (_ & Hd & Ho & Hi). split; [|split].
  - intros y. rewrite Hd. apply tracking_state_nodes.
  - intros y. rewrite Ho. by destruct (tracking_state_nodes d s y) as (_ & -> & _).
  - intros D HD. apply linked_ext.
    + rewrite Hi by done. by destruct (tracking_state_nodes d s D) as (_ & _ & ->).
    + intros A. rewrite Ho. by destruct (tracking_state_nodes d s A) as (_ & -> & _).
Qed.

Lemma Reaction_hooks_frame d :
  hook_frame d Reaction_onBecomeObserved ∧ hook_frame d Reaction_onBecomeUnobserved.
Proof.
  split; intros o s; cbn [final Reaction_onBecomeObserved Reaction_onBecomeUnobserved ret];
    (split; [done|split; [done|split; [done|]]]); intros D _ H; exact H.
Qed.

Lemma bound_state_linked : linked 0%nat bound_state.
Proof.
  intros A. unfold bound_state. rewrite upd_node_same. proj_simpl.
  rewrite observers_upd_observing, !observers_upd_observers.
  unfold previous_observing. rewrite !elem_of_cons, elem_of_nil.
  repeat case_decide; subst; cbn.
  - rewrite elem_of_singleton. split; [done|]. intros _. by left.
  - rewrite elem_of_singleton. split; [done|]. intros _. right. by left.
  - split; [|intros []%not_elem_of_empty].
    intros [[= ?]|[[= ?]|[]]]; done.
Qed.

Lemma bound_state_clean : clean bound_state.
Proof.
  intros x. unfold bound_state.
  rewrite diffValue_upd_observing, !diffValue_upd_observers. reflexivity.
Qed.

(** Derivation [0], bound to [1] and [2], is tracked over a function
    that reads [2], [3] and [3] again, or is cleared: both ways it ends
    linked, the run leaving the three reads in its [observing]. *)
Lemma C1_observing_matches_observers_witness :
  linked 0%nat
    (final (trackDerivedFunction Reaction_onBecomeObserved Reaction_onBecomeUnobserved
              0%nat (reads [2%nat; 3%nat; 3%nat]) bound_state))
  ∧ observing
      (nodes (final (trackDerivedFunction Reaction_onBecomeObserved
                       Reaction_onBecomeUnobserved
                       0%nat (reads [2%nat; 3%nat; 3%nat]) bound_state)) 0%nat)
    = [Some 2%nat; Some 3%nat; Some 3%nat]
  ∧ linked 0%nat (final (clearObserving Reaction_onBecomeUnobserved 0%nat bound_state)).
Proof.
  destruct (C1_observing_matches_observers Reaction_onBecomeObserved
              Reaction_onBecomeUnobserved 0%nat
              (proj1 (Reaction_hooks_frame 0%nat)) (proj2 (Reaction_hooks_frame 0%nat)))
    as [Htrack Hclear].
  split; [|split].
  - apply (Htrack unit (reads [2%nat; 3%nat; 3%nat]) bound_state _ tt).
    + apply reads_frame.
    + apply bound_state_linked.
    + apply bound_state_clean.
    + apply return_final. vm_compute. reflexivity.
  - vm_compute. reflexivity.
  - apply (Hclear bound_state).
    + apply return_final. vm_compute. reflexivity.
    + apply bound_state_linked.
Defined.

(** ** Disposal *)

Lemma Reaction_track_unfold obO obU this fn s :
  Reaction_track obO obU this fn s
  = (trackDerivedFunction obO obU this fn;;
     modify (upd_node this (set__isRunning false));;
     modify (upd_node this (set__isTrackPending false));;
     s' <- get_state;;
     (if isDisposed (nodes s' this) then clearObserving obU this else ret tt);;
     if spyEnabled s then spyReport spy_report_end else ret tt)
      (track_entry this s).
Proof.
  unfold Reaction_track, track_entry, isSpyEnabled, spyReport. unfold_monad.
  by destruct (spyEnabled s).
Qed.




(** * Further properties *)

(** ** [unique] *)

Lemma indexOf_spec {T} `{EqDecision T} (l : list T) (x : T) :
  -1 <= indexOf l x ∧ (indexOf l x = -1 <-> x ∉ l).
Proof.
  induction l as [|y l [IHge IH]]; cbn [indexOf].
  - split; [lia|]. split; [intros _; apply not_elem_of_nil|done].
  - destruct (decide (y = x)) as [->|Hne].
    + split; [lia|]. split; [lia|]. intros Hx. exfalso. apply Hx. by left.
    + destruct (indexOf l x =? -1) eqn:Hi.
      * apply Z.eqb_eq in Hi. split; [lia|]. split; [|done]. intros _.
        rewrite elem_of_cons. intros [?|?]; [congruence|]. by apply IH.
      * apply Z.eqb_neq in Hi. split; [lia|]. split; [lia|].
        intros Hx. exfalso. apply Hi, IH. intros ?. apply Hx. by right.
Qed.

Lemma indexOf_absent {T} `{EqDecision T} (l : list T) (x : T) :
  (indexOf l x =? -1) = bool_decide (x ∉ l).
Proof.
  destruct (indexOf_spec l x) as [_ H].
  destruct (indexOf l x =? -1) eqn:Hi.
  - apply Z.eqb_eq in Hi. symmetry. by apply bool_decide_eq_true, H.
  - apply Z.eqb_neq in Hi. symmetry. apply bool_decide_eq_false. tauto.
Qed.

Lemma unique_snoc {T} `{EqDecision T} (l : list T) (x : T) :
  unique (l ++ [x])
  = if decide (x ∈ unique l) then unique l else unique l ++ [x].
Proof.
  unfold unique. rewrite foldl_app. cbn [foldl]. rewrite indexOf_absent.
  destruct (decide (x ∈ _)) as [Hin|Hin].
  - rewrite bool_decide_eq_false_2; [done|tauto].
  - by rewrite bool_decide_eq_true_2.
Qed.

Lemma unique_elem_of {T} `{EqDecision T} (l : list T) (x : T) :
  x ∈ unique l <-> x ∈ l.
Proof.
  induction l as [|y l IH] using rev_ind.
  - done.
  - rewrite unique_snoc. destruct (decide (y ∈ unique l)) as [Hin|Hin].
    + rewrite IH, elem_of_app, list_elem_of_singleton.
      split; [tauto|]. intros [?| ->]; [done|]. by apply IH.
    + rewrite !elem_of_app, IH. tauto.
Qed.

Lemma unique_NoDup {T} `{EqDecision T} (l : list T) :
  NoDup (unique l) ∧ forall x, x ∈ unique l <-> x ∈ l.
Proof.
  split; [|apply unique_elem_of].
  induction l as [|y l IH] using rev_ind; [apply NoDup_nil_2|].
  rewrite unique_snoc. destruct (decide (y ∈ unique l)); [done|].
  apply NoDup_app. split; [done|]. split; [|apply NoDup_singleton].
  intros z Hz ->%list_elem_of_singleton. done.
Qed.

(** X1: [unique] returns a list without duplicates that has exactly
    the elements of its argument, in the order of their first
    occurrences: an element is appended when it is met for the first
    time, and a list without duplicates is returned as it is. *)
Theorem X1_unique :
  forall (T : Type) (EqT : EqDecision T) (l : list T),
    NoDup (unique l)
    ∧ (forall x, x ∈ unique l <-> x ∈ l)
    ∧ sublist (unique l) l
    ∧ (NoDup l -> unique l = l)
    ∧ (forall x, unique (l ++ [x])
                 = if decide (x ∈ l) then unique l else unique l ++ [x])
    ∧ unique (unique l) = unique l.
Proof.
  intros T EqT l.
  assert (Hnd : forall l : list T, NoDup (unique l)).
  { intros k. induction k as [|y k IH] using rev_ind; [apply NoDup_nil_2|].
    rewrite unique_snoc. destruct (decide (y ∈ unique k)); [done|].
    apply NoDup_app. split; [done|]. split; [|apply NoDup_singleton].
    intros z Hz ->%list_elem_of_singleton. done. }
  assert (Hfix : forall l : list T, NoDup l -> unique l = l).
  { intros k. induction k as [|y k IH] using rev_ind; [done|].
    intros [Hk [Hy _]]%NoDup_app. rewrite unique_snoc, IH by done.
    destruct (decide (y ∈ k)) as [Hin|Hin]; [|done].
    exfalso. apply (Hy y Hin). by apply list_elem_of_singleton. }
  split; [apply Hnd|]. split; [apply unique_elem_of|]. split; [|split; [|split]].
  - induction l as [|y l IH] using rev_ind; [done|].
    rewrite unique_snoc. destruct (decide (y ∈ unique l)).
    + by apply sublist_inserts_r.
    + by apply sublist_app.
  - apply Hfix.
  - intros x. rewrite unique_snoc.
    destruct (decide (x ∈ unique l)) as [Hin|Hin];
      destruct (decide (x ∈ l)) as [Hin'|Hin']; try done; exfalso.
    + apply Hin'. by apply unique_elem_of.
    + apply Hin. by apply unique_elem_of.
  - apply Hfix, Hnd.
Qed.

(** ** [once] *)

(** X2: the function made by [once(func)] applies [func] on its first
    call, passing on its result or its exception, and never again: every
    later call returns [undefined] and leaves the state alone, also when
    the first call threw.  So any number of calls, one at least, has the
    effect of one application of [func]. *)
Theorem X2_once_at_most_once :
  forall (W R : Type) (func : W -> Outcome W R) (w : W),
    once func (false, w)
    = match func w with
      | Returns r w' => Returns (Some r) (true, w')
      | Throws e w' => Throws e (true, w')
      end
    ∧ (forall w', once func (true, w') = Returns None (true, w'))
    ∧ forall n,
        Nat.iter (S n) (fun st => outcome_state (once func st)) (false, w)
        = (true, outcome_state (func w)).
Proof.
  intros W R func w. split; [reflexivity|]. split; [reflexivity|].
  intros n. induction n as [|n IH].
  - cbn. unfold once. cbn. by destruct (func w).
  - change (Nat.iter (S (S n)) ?f ?x) with (f (Nat.iter (S n) f x)).
    by rewrite IH.
Qed.

(** ** [deprecated] *)

Lemma deprecated_calls_spec msgs : forall st,
  console_error st = (fun m => "[mobx] Deprecated: " +:+ m) <$> deprecatedMessages st ->
  deprecatedMessages (deprecated_calls msgs st)
  = foldl (fun res item => if indexOf res item =? -1 then res ++ [item] else res)
      (deprecatedMessages st) msgs
  ∧ console_error (deprecated_calls msgs st)
    = (fun m => "[mobx] Deprecated: " +:+ m) <$> deprecatedMessages (deprecated_calls msgs st).
Proof.
  induction msgs as [|msg msgs IH]; intros st Hst; [by split|].
  change (deprecated_calls (msg :: msgs) st)
    with (deprecated_calls msgs (snd (deprecated msg st))).
  cbn [foldl].
  assert (Hstep : snd (deprecated msg st)
                  = if indexOf (deprecatedMessages st) msg =? -1
                    then mkDeprecations (deprecatedMessages st ++ [msg])
                           (console_error st ++ ["[mobx] Deprecated: " +:+ msg])
                    else st).
  { unfold deprecated. by destruct (indexOf (deprecatedMessages st) msg =? -1). }
  rewrite Hstep.
  destruct (indexOf (deprecatedMessages st) msg =? -1).
  - apply IH. cbn. by rewrite Hst, fmap_app.
  - by apply IH.
Qed.

(** X3: [deprecated] returns [true], and prints, exactly when the
    message was not printed before; over any sequence of calls from the
    initial state, [deprecatedMessages] is the list of the distinct
    messages in the order of their first use, and the console shows each
    of them once, in that order. *)
Theorem X3_deprecated_prints_once :
  forall (msgs : list string),
    let st := deprecated_calls msgs (mkDeprecations [] []) in
    deprecatedMessages st = unique msgs
    ∧ console_error st = (fun m => "[mobx] Deprecated: " +:+ m) <$> unique msgs
    ∧ NoDup (console_error st)
    ∧ forall msg,
        (fst (deprecated msg st) = true <-> msg ∉ msgs)
        ∧ (msg ∈ msgs -> deprecated msg st = (false, st)).
Proof.
  intros msgs st.
  destruct (deprecated_calls_spec msgs (mkDeprecations [] []) eq_refl) as [H1 H2].
  fold st in H1, H2. cbn [deprecatedMessages] in H1. fold (unique msgs) in H1.
  destruct (unique_NoDup msgs) as [Hnd Hel].
  split; [exact H1|]. split; [by rewrite H2, H1|]. split.
  - rewrite H2, H1. apply NoDup_fmap_2; [|exact Hnd].
    intros a b Hab. by simplify_eq.
  - intros msg. unfold deprecated. rewrite indexOf_absent, H1.
    split.
    + destruct (bool_decide (msg ∉ unique msgs)) eqn:Hb; cbn [negb fst].
      * apply bool_decide_eq_true in Hb. split; [intros _|done].
        intros ?. apply Hb. by apply Hel.
      * apply bool_decide_eq_false in Hb. split; [done|].
        intros Hn. exfalso. apply Hb. intros ?. apply Hn. by apply Hel.
    + intros Hin. rewrite bool_decide_eq_false_2; [done|].
      intros Hn. apply Hn. by apply Hel.
Qed.

(** ** [getNextId] *)



(** ** [objectAssign] *)



(** ** What [runReactions] leaves behind *)

Lemma runReactions_while_Return oi fuel : forall iterations s s',
  runReactions_while oi fuel iterations s = Return tt s' ->
  globalState.pendingReactions (globals s') = [].
Proof.
  induction fuel as [|fuel IH]; intros it s s'; cbn [runReactions_while];
    unfold Reaction_toString; unfold_monad;
    destruct (globalState.pendingReactions (globals s)) eqn:Hq;
    try (intros [= <-]; exact Hq);
    destruct (S it =? MAX_REACTION_ITERATIONS)%nat; try discriminate.
  destruct (runReactions_batch oi s) as [[] s1|e s1]; [|discriminate].
  apply IH.
Qed.

Lemma runReactions_open oi s :
  globalState.isRunningReactions (globals s) = false ->
  globalState.inTransaction (globals s) <= 0 ->
  runReactions oi s
  = (runReactions_while oi MAX_REACTION_ITERATIONS 0;;
     modify (upd_globals (globalState.set_currentReaction None));;
     modify (upd_globals (globalState.set_isRunningReactions false)))
      (upd_globals (globalState.set_isRunningReactions true) s).
Proof.
  intros Hrun Htx. unfold runReactions. unfold_monad.
  apply Z.ltb_ge in Htx. by rewrite Hrun, Htx.
Qed.

(** X6: when [runReactions], called with the runner idle and no
    transaction open, returns, no reaction is pending, the runner is
    idle again and there is no current reaction. *)
Theorem X6_runReactions_drains_the_queue :
  forall (onInvalidate : nat -> M unit) (s s' : State),
    globalState.isRunningReactions (globals s) = false ->
    globalState.inTransaction (globals s) <= 0 ->
    runReactions onInvalidate s = Return tt s' ->
    globalState.pendingReactions (globals s') = []
    ∧ globalState.isRunningReactions (globals s') = false
    ∧ globalState.currentReaction (globals s') = None.
Proof.
  intros oi s s' Hrun Htx. rewrite runReactions_open by done. unfold_monad.
  destruct (runReactions_while _ _ _ _) as [[] s1|e s1] eqn:Hw; [|discriminate].
  apply runReactions_while_Return in Hw. intros [= <-]. cbn. by rewrite Hw.
Qed.

Lemma X6_runReactions_drains_the_queue_witness :
  globalState.pendingReactions
    (globals (final (runReactions countdown_onInvalidate (countdown_state 3)))) = []
  ∧ globalState.isRunningReactions
      (globals (final (runReactions countdown_onInvalidate (countdown_state 3)))) = false
  ∧ globalState.currentReaction
      (globals (final (runReactions countdown_onInvalidate (countdown_state 3)))) = None.
Proof.
  apply (X6_runReactions_drains_the_queue countdown_onInvalidate (countdown_state 3)).
  - reflexivity.
  - vm_compute. discriminate.
  - apply return_final. vm_compute. reflexivity.
Defined.

(** ** The runner after an exception *)

Section RunnerStuck.

Variable onInvalidate : nat -> M unit.
Hypothesis onInvalidate_keeps_running : forall r s,
  globalState.isRunningReactions (globals s) = true ->
  globalState.isRunningReactions (globals (final (onInvalidate r s))) = true.

Lemma runReaction_keeps_running r s :
  globalState.isRunningReactions (globals s) = true ->
  globalState.isRunningReactions
    (globals (final (Reaction_runReaction onInvalidate r s))) = true.
Proof.
  intros H. unfold Reaction_runReaction, isSpyEnabled, spyReport. unfold_monad.
  destruct (isDisposed (nodes s r)); cbn [negb]; [exact H|]. cbv beta.
  set (s2 := upd_node r _ (upd_node r _ s)).
  pose proof (onInvalidate_keeps_running r s2 H) as H2.
  destruct (onInvalidate r s2) as [[] s3|e s3]; cbn [final] in *; [|exact H2].
  destruct (_isTrackPending (nodes s3 r)); [destruct (spyEnabled s3)|]; exact H2.
Qed.

Lemma runReactions_batch_keeps_running s :
  globalState.isRunningReactions (globals s) = true ->
  globalState.isRunningReactions
    (globals (final (runReactions_batch onInvalidate s))) = true.
Proof.
  intros H. unfold runReactions_batch. unfold_monad.
  apply (for_each_final _
           (fun _ s' => globalState.isRunningReactions (globals s') = true)
           (fun s' => globalState.isRunningReactions (globals s') = true));
    [done| |exact H].
  intros r rest s' H'.
  pose proof (runReaction_keeps_running r
                (upd_globals (globalState.set_currentReaction (Some r)) s') H') as Hr.
  by destruct (Reaction_runReaction onInvalidate r _).
Qed.

Lemma runReactions_while_keeps_running fuel : forall iterations s,
  globalState.isRunningReactions (globals s) = true ->
  globalState.isRunningReactions
    (globals (final (runReactions_while onInvalidate fuel iterations s))) = true.
Proof.
  induction fuel as [|fuel IH]; intros it s H; cbn [runReactions_while];
    unfold Reaction_toString; unfold_monad;
    destruct (globalState.pendingReactions (globals s)); try exact H;
    destruct (S it =? MAX_REACTION_ITERATIONS)%nat; try exact H.
  pose proof (runReactions_batch_keeps_running s H) as H1.
  destruct (runReactions_batch onInvalidate s) as [[] s1|e s1]; cbn [final] in H1;
    [by apply IH|exact H1].
Qed.

End RunnerStuck.

(** X7: [runReactions] has no exception handler: when it throws (the
    divergence error, or the exception of a reaction), with callbacks
    that leave [isRunningReactions] set, it leaves the runner marked as
    active, so that every later [runReactions] returns at once and runs
    nothing. *)
Theorem X7_runReactions_stuck_after_throw :
  forall (onInvalidate : nat -> M unit) (s s' : State) (e : JsError),
    (forall r s0,
        globalState.isRunningReactions (globals s0) = true ->
        globalState.isRunningReactions (globals (final (onInvalidate r s0))) = true) ->
    globalState.isRunningReactions (globals s) = false ->
    globalState.inTransaction (globals s) <= 0 ->
    runReactions onInvalidate s = Throw e s' ->
    globalState.isRunningReactions (globals s') = true
    ∧ forall onInvalidate' : nat -> M unit,
        runReactions onInvalidate' s' = Return tt s'.
Proof.
  intros oi s s' e Hkeep Hrun Htx. rewrite runReactions_open by done. unfold_monad.
  pose proof (runReactions_while_keeps_running oi Hkeep MAX_REACTION_ITERATIONS 0%nat
                (upd_globals (globalState.set_isRunningReactions true) s) eq_refl) as Hw.
  destruct (runReactions_while _ _ _ _) as [[] s1|e1 s1]; [discriminate|].
  cbn [final] in Hw. intros [= <- <-]. split; [exact Hw|].
  intros oi'. apply runReactions_guard. by left.
Qed.

Lemma countdown_keeps_running r s :
  globalState.isRunningReactions (globals s) = true ->
  globalState.isRunningReactions (globals (final (countdown_onInvalidate r s))) = true.
Proof.
  intros H. unfold countdown_onInvalidate, Reaction_schedule. unfold_monad.
  destruct (0 <? values s r); [|exact H]. cbv beta.
  set (s1 := upd_values _ s).
  destruct (_isScheduled (nodes s1 r)); cbn [negb]; [exact H|]. cbv beta.
  rewrite runReactions_guard; [exact H|]. by left.
Qed.

Lemma throw_final {A} (c : Completion A) :
  is_return c = false -> exists e, c = Throw e (final c).
Proof. destruct c as [a s|e s]; [discriminate|]. by exists e. Qed.

(** After the divergence error, the runner does nothing any more. *)
Lemma X7_runReactions_stuck_after_throw_witness :
  globalState.isRunningReactions
    (globals (final (runReactions countdown_onInvalidate (countdown_state 99)))) = true
  ∧ runReactions idle_onInvalidate
      (final (runReactions countdown_onInvalidate (countdown_state 99)))
    = Return tt (final (runReactions countdown_onInvalidate (countdown_state 99))).
Proof.
  destruct (throw_final (runReactions countdown_onInvalidate (countdown_state 99)))
    as [e He]; [vm_compute; reflexivity|].
  destruct (X7_runReactions_stuck_after_throw countdown_onInvalidate
              (countdown_state 99)
              (final (runReactions countdown_onInvalidate (countdown_state 99))) e)
    as [H1 H2].
  - apply countdown_keeps_running.
  - reflexivity.
  - vm_compute. discriminate.
  - exact He.
  - split; [exact H1|apply H2].
Defined.

(** ** Reactions run once each, in the order of the queue *)

Lemma heap_callback_turn g dis r s1 :
  (forall x, isDisposed (nodes s1 x) = dis x) ->
  exists s2,
    (modify (upd_globals (globalState.set_currentReaction (Some r)));;
     Reaction_runReaction (heap_callback g) r) s1 = Return tt s2
    ∧ (forall x, isDisposed (nodes s2 x) = dis x)
    ∧ values s2 = (if dis r then values s1 else g r (values s1))
    ∧ globalState.pendingReactions (globals s2)
      = globalState.pendingReactions (globals s1)
    ∧ (dis r = false -> _isScheduled (nodes s2 r) = false)
    ∧ (forall x, _isScheduled (nodes s1 x) = false -> _isScheduled (nodes s2 x) = false)
    ∧ spyEnabled s2 = spyEnabled s1
    ∧ spyEvents s2
      = spyEvents s1
        ++ (if spyEnabled s1 && negb (dis r) then [spy_scheduled_reaction r] else []).
Proof.
  intros Hdis. unfold Reaction_runReaction, heap_callback, isSpyEnabled, spyReport.
  unfold_monad. cbn [nodes upd_globals]. rewrite Hdis.
  destruct (dis r) eqn:Hr; cbn [negb].
  - eexists. split; [reflexivity|]. cbn. rewrite andb_false_r, app_nil_r.
    repeat split; try done.
  - cbv beta. node_simpl. cbn [nodes upd_values]. rewrite !upd_node_same. proj_simpl.
    change (spyEnabled (upd_node r (set__isTrackPending true)
              (upd_node r (set__isScheduled false)
                 (upd_globals (globalState.set_currentReaction (Some r)) s1))))
      with (spyEnabled s1).
    destruct (spyEnabled s1) eqn:Hspy; (eexists; split; [reflexivity|]); cbn;
      rewrite ?Nat.eqb_refl, ?app_nil_r; (repeat split; try done);
      intros x; specialize (Hdis x); destruct (x =? r)%nat; cbn; done.
Qed.

Lemma heap_callback_batch g dis (q : list nat) : forall s1,
  (forall x, isDisposed (nodes s1 x) = dis x) ->
  exists s2,
    for_each (fun r =>
      modify (upd_globals (globalState.set_currentReaction (Some r)));;
      Reaction_runReaction (heap_callback g) r) q s1 = Return tt s2
    ∧ (forall x, isDisposed (nodes s2 x) = dis x)
    ∧ values s2 = foldl (fun v r => if dis r then v else g r v) (values s1) q
    ∧ globalState.pendingReactions (globals s2)
      = globalState.pendingReactions (globals s1)
    ∧ (forall x, x ∈ q -> dis x = false -> _isScheduled (nodes s2 x) = false)
    ∧ (forall x, _isScheduled (nodes s1 x) = false -> _isScheduled (nodes s2 x) = false)
    ∧ spyEnabled s2 = spyEnabled s1
    ∧ spyEvents s2
      = spyEvents s1
        ++ (if spyEnabled s1
            then spy_scheduled_reaction <$> filter (fun r => dis r = false) q
            else []).
Proof.
  induction q as [|r q IH]; intros s1 Hdis.
  - exists s1. split; [reflexivity|].
    split; [done|]. split; [done|]. split; [done|].
    split; [intros x Hx; by apply not_elem_of_nil in Hx|].
    split; [done|]. split; [done|].
    destruct (spyEnabled s1); by rewrite app_nil_r.
  - destruct (heap_callback_turn g dis r s1 Hdis)
      as (s2 & Hrun & Hd2 & Hv2 & Hq2 & Hr2 & Hf2 & Hse2 & Hsv2).
    destruct (IH s2 Hd2) as (s3 & Hrun3 & Hd3 & Hv3 & Hq3 & Hr3 & Hf3 & Hse3 & Hsv3).
    exists s3. split.
    { cbn [for_each]. unfold bind at 1. cbv beta. by rewrite Hrun. }
    split; [done|]. split; [by rewrite Hv3, Hv2|]. split; [by rewrite Hq3|].
    split.
    { intros x [->|Hx]%elem_of_cons Hx'; [by apply Hf3, Hr2|by apply Hr3]. }
    split; [by auto|]. split; [by rewrite Hse3|].
    rewrite Hsv3, Hsv2, Hse2, <- app_assoc. f_equal.
    destruct (spyEnabled s1); [|reflexivity]. cbn [andb].
    destruct (dis r) eqn:Hr; cbn [negb].
    + by rewrite filter_cons_False by (by rewrite Hr).
    + by rewrite filter_cons_True by done.
Qed.

(** X8: with [onInvalidate] callbacks that only change the values user
    code keeps, [runReactions] returns and has run every pending reaction
    that is not disposed exactly once, in the order of the queue, and
    has skipped the disposed ones; it leaves the queue empty, and the
    reactions it ran are no longer flagged as scheduled.  As none of
    these callbacks calls [track], the spy, when enabled, was told of
    one scheduled reaction for each reaction that ran, in this order. *)
Theorem X8_runReactions_runs_queue_in_order :
  forall (g : nat -> (nat -> Z) -> nat -> Z) (s : State),
    globalState.isRunningReactions (globals s) = false ->
    globalState.inTransaction (globals s) <= 0 ->
    exists s',
      runReactions (heap_callback g) s = Return tt s'
      ∧ values s'
        = foldl (fun v r => if isDisposed (nodes s r) then v else g r v)
            (values s) (globalState.pendingReactions (globals s))
      ∧ globalState.pendingReactions (globals s') = []
      ∧ (forall x, isDisposed (nodes s' x) = isDisposed (nodes s x))
      ∧ (forall r, r ∈ globalState.pendingReactions (globals s) ->
                   isDisposed (nodes s r) = false ->
                   _isScheduled (nodes s' r) = false)
      ∧ spyEvents s'
        = spyEvents s
          ++ (if spyEnabled s
              then spy_scheduled_reaction
                     <$> filter (fun r => isDisposed (nodes s r) = false)
                           (globalState.pendingReactions (globals s))
              else []).
Proof.
  intros g s Hrun Htx.
  set (s0 := upd_globals (globalState.set_pendingReactions [])
               (upd_globals (globalState.set_isRunningReactions true) s)).
  destruct (heap_callback_batch g (fun x => isDisposed (nodes s x))
              (globalState.pendingReactions (globals s)) s0)
    as (s1 & Hb & Hd & Hv & Hq & Hr & _ & _ & Hsv); [done|].
  assert (Hw : runReactions_while (heap_callback g) MAX_REACTION_ITERATIONS 0
                 (upd_globals (globalState.set_isRunningReactions true) s)
               = Return tt s1).
  { apply (runReactions_while_converges (heap_callback g) 1);
      [unfold MAX_REACTION_ITERATIONS; lia|unfold MAX_REACTION_ITERATIONS; lia| |by rewrite Hq].
    cbn [drain_rounds]. unfold runReactions_batch. unfold_monad.
    cbn [globals upd_globals globalState.pendingReactions
         globalState.set_isRunningReactions].
    fold s0. unfold modify, bind in Hb. by rewrite Hb. }
  rewrite runReactions_open by done. unfold bind at 1. rewrite Hw.
  unfold_monad. eexists. split; [reflexivity|]. cbn.
  split; [exact Hv|]. split; [by rewrite Hq|]. split; [exact Hd|].
  split; [exact Hr|exact Hsv].
Qed.

(** Reactions [1] and [3] run, in this order; the disposed reaction [2]
    is skipped. *)
Lemma X8_runReactions_runs_queue_in_order_witness :
  exists s',
    runReactions (heap_callback logging_callback) queued_state = Return tt s'
    ∧ values s'
      = foldl (fun v r => if isDisposed (nodes queued_state r) then v
                          else logging_callback r v)
          (values queued_state) (globalState.pendingReactions (globals queued_state))
    ∧ globalState.pendingReactions (globals s') = []
    ∧ (forall x, isDisposed (nodes s' x) = isDisposed (nodes queued_state x))
    ∧ (forall r, r ∈ globalState.pendingReactions (globals queued_state) ->
                 isDisposed (nodes queued_state r) = false ->
                 _isScheduled (nodes s' r) = false)
    ∧ spyEvents s'
      = spyEvents queued_state
        ++ (if spyEnabled queued_state
            then spy_scheduled_reaction
                   <$> filter (fun r => isDisposed (nodes queued_state r) = false)
                         (globalState.pendingReactions (globals queued_state))
            else []).
Proof.
  apply (X8_runReactions_runs_queue_in_order logging_callback queued_state).
  - reflexivity.
  - vm_compute. discriminate.
Defined.

(** ** Scheduling while the runner is held back *)

Lemma schedule_held oi r s :
  globalState.isRunningReactions (globals s) = true
  ∨ 0 < globalState.inTransaction (globals s) ->
  Reaction_schedule oi r s
  = Return tt
      (if _isScheduled (nodes s r) then s
       else upd_globals (fun g => globalState.set_pendingReactions
                                    (globalState.pendingReactions g ++ [r]) g)
              (upd_node r (set__isScheduled true) s)).
Proof.
  intros H. unfold Reaction_schedule. unfold_monad.
  destruct (_isScheduled (nodes s r)); cbn [negb]; [reflexivity|].
  cbv beta. apply runReactions_guard. exact H.
Qed.

Lemma unique_NoDup_id {T} `{EqDecision T} (l : list T) : NoDup l -> unique l = l.
Proof.
  induction l as [|y k IH] using rev_ind; [done|].
  intros [Hk [Hy _]]%NoDup_app. rewrite unique_snoc, IH by done.
  destruct (decide (y ∈ k)) as [Hin|Hin]; [|done].
  exfalso. apply (Hy y Hin). by apply list_elem_of_singleton.
Qed.

Lemma schedule_all_held oi (rs : list nat) : forall s,
  globalState.isRunningReactions (globals s) = true
  ∨ 0 < globalState.inTransaction (globals s) ->
  queue_flags s ->
  exists s',
    for_each (Reaction_schedule oi) rs s = Return tt s'
    ∧ globalState.pendingReactions (globals s')
      = foldl (fun res item => if indexOf res item =? -1 then res ++ [item] else res)
          (globalState.pendingReactions (globals s)) rs
    ∧ queue_flags s'
    ∧ values s' = values s
    ∧ spyEvents s' = spyEvents s
    ∧ globalState.isRunningReactions (globals s')
      = globalState.isRunningReactions (globals s)
    ∧ globalState.inTransaction (globals s') = globalState.inTransaction (globals s).
Proof.
  induction rs as [|r rs IH]; intros s Hheld Hflags.
  - exists s. split; [reflexivity|]. split; [reflexivity|].
    split; [exact Hflags|]. by repeat split.
  - cbn [for_each foldl]. unfold bind. rewrite schedule_held by done.
    rewrite indexOf_absent.
    destruct (_isScheduled (nodes s r)) eqn:Hr.
    + rewrite bool_decide_eq_false_2 by (intros Hn; apply Hn, Hflags, Hr).
      by apply IH.
    + assert (Hnot : r ∉ globalState.pendingReactions (globals s)).
      { intros Hin. apply Hflags in Hin. congruence. }
      rewrite bool_decide_eq_true_2 by done.
      set (s1 := upd_globals _ _).
      destruct (IH s1) as (s' & Hrun & Hq & Hfl & Hv & Hspy & Hrr & Htx).
      * exact Hheld.
      * intros x. subst s1. cbn [globals upd_globals nodes
          globalState.pendingReactions globalState.set_pendingReactions].
        rewrite elem_of_app, list_elem_of_singleton.
        destruct (decide (x = r)) as [->|Hx].
        -- rewrite upd_node_same. cbn. tauto.
        -- rewrite upd_node_other by done. rewrite (Hflags x). tauto.
      * exists s'. split; [exact Hrun|]. split; [exact Hq|].
        split; [exact Hfl|]. split; [exact Hv|]. split; [exact Hspy|].
        split; [exact Hrr|exact Htx].
Qed.

(** X9: while the runner is active or a transaction is open, scheduling
    the reactions of a list, one after the other, returns and runs
    none of them: the queue becomes the old queue followed by the
    reactions of the list that were not scheduled yet, each once, in the
    order of their first scheduling; scheduling a reaction that is
    already scheduled changes nothing. *)
Theorem X9_schedule_queues_each_once :
  forall (onInvalidate : nat -> M unit) (rs : list nat) (s : State),
    (globalState.isRunningReactions (globals s) = true
     ∨ 0 < globalState.inTransaction (globals s)) ->
    queue_flags s ->
    NoDup (globalState.pendingReactions (globals s)) ->
    exists s',
      for_each (Reaction_schedule onInvalidate) rs s = Return tt s'
      ∧ globalState.pendingReactions (globals s')
        = unique (globalState.pendingReactions (globals s) ++ rs)
      ∧ queue_flags s'
      ∧ values s' = values s
      ∧ spyEvents s' = spyEvents s
      ∧ (forall r, _isScheduled (nodes s r) = true ->
                   Reaction_schedule onInvalidate r s = Return tt s).
Proof.
  intros oi rs s Hheld Hflags Hnd.
  destruct (schedule_all_held oi rs s Hheld Hflags)
    as (s' & Hrun & Hq & Hfl & Hv & Hspy & _).
  exists s'. split; [exact Hrun|]. split.
  { rewrite Hq. unfold unique. rewrite foldl_app.
    fold (unique (globalState.pendingReactions (globals s))).
    by rewrite unique_NoDup_id. }
  split; [exact Hfl|]. split; [exact Hv|]. split; [exact Hspy|].
  intros r Hr. rewrite schedule_held by done. by rewrite Hr.
Qed.

(** Inside a transaction, reaction [1] is scheduled twice and reaction
    [2] once. *)
Lemma X9_schedule_queues_each_once_witness :
  exists s',
    for_each (Reaction_schedule idle_onInvalidate) [1%nat; 2%nat; 1%nat]
      (upd_globals (globalState.set_inTransaction 1) initial_state)
    = Return tt s'
    ∧ globalState.pendingReactions (globals s')
      = unique (globalState.pendingReactions
                  (globals (upd_globals (globalState.set_inTransaction 1) initial_state))
                ++ [1%nat; 2%nat; 1%nat])
    ∧ queue_flags s'
    ∧ values s' = values (upd_globals (globalState.set_inTransaction 1) initial_state)
    ∧ spyEvents s'
      = spyEvents (upd_globals (globalState.set_inTransaction 1) initial_state)
    ∧ (forall r,
          _isScheduled
            (nodes (upd_globals (globalState.set_inTransaction 1) initial_state) r) = true ->
          Reaction_schedule idle_onInvalidate r
            (upd_globals (globalState.set_inTransaction 1) initial_state)
          = Return tt (upd_globals (globalState.set_inTransaction 1) initial_state)).
Proof.
  apply (X9_schedule_queues_each_once idle_onInvalidate [1%nat; 2%nat; 1%nat]
           (upd_globals (globalState.set_inTransaction 1) initial_state)).
  - right. cbn. lia.
  - intros r. cbn. split; [discriminate|]. intros H. by apply not_elem_of_nil in H.
  - cbn. apply NoDup_nil_2.
Defined.

(** ** What a tracked run binds *)

Lemma reportObserved_returns o s : is_return (reportObserved o s) = true.
Proof.
  unfold reportObserved. unfold_monad.
  destruct (globalState.isTracking (globals s)); [|reflexivity].
  by destruct (last (globalState.derivationStack (globals s))).
Qed.

Lemma array_set_take (pre : JsArray) x (a : JsArray) :
  take (length pre) a = pre ->
  take (length (pre ++ [Some x])) (array_set (length pre) x a) = pre ++ [Some x].
Proof.
  intros Hpre.
  assert (Hlen : (length pre <= length a)%nat).
  { rewrite <- Hpre at 1. rewrite length_take. lia. }
  unfold array_set, JsArray in *. rewrite length_app. cbn [length].
  destruct (length pre <? length a)%nat eqn:Hlt.
  - apply Nat.ltb_lt in Hlt.
    replace (length pre + 1)%nat with (S (length pre)) by lia.
    rewrite (take_S_r _ _ (Some x)) by (by apply list_lookup_insert_eq).
    rewrite take_insert_ge by lia. by rewrite Hpre.
  - apply Nat.ltb_ge in Hlt. assert (Heq : length a = length pre) by lia.
    assert (Ha : pre = a) by (rewrite <- Hpre, <- Heq; apply firstn_all).
    subst pre. rewrite Nat.sub_diag. cbn [replicate app].
    apply take_ge. rewrite length_app. cbn. lia.
Qed.

Lemma reads_loop d (l : list nat) : forall sa (pre : JsArray),
  globalState.isTracking (globals sa) = true ->
  last (globalState.derivationStack (globals sa)) = Some d ->
  unboundDepsCount (nodes sa d) = length pre ->
  take (length pre) (observing (nodes sa d)) = pre ->
  exists sb,
    reads l sa = Return tt sb
    ∧ globals sb = globals sa
    ∧ unboundDepsCount (nodes sb d) = length (pre ++ (Some <$> l))
    ∧ take (length (pre ++ (Some <$> l))) (observing (nodes sb d)) = pre ++ (Some <$> l).
Proof.
  unfold reads. induction l as [|x l IH]; intros sa pre Ht Hs Hn Hpre.
  - exists sa. cbn [fmap list_fmap]. rewrite app_nil_r. by repeat split.
  - cbn [for_each]. unfold bind at 1. unfold reportObserved at 1. unfold_monad.
    rewrite Ht, Hs, Hn.
    set (sa' := upd_node d (set_unboundDepsCount (S (length pre))) _).
    destruct (IH sa' (pre ++ [Some x])) as (sb & Hrun & Hg & Hc & Hobs).
    + exact Ht.
    + exact Hs.
    + subst sa'. rewrite upd_node_same. cbn. rewrite length_app. cbn. lia.
    + subst sa'. rewrite upd_node_same. proj_simpl. rewrite upd_node_same. proj_simpl.
      by apply array_set_take.
    + exists sb. rewrite fmap_cons, cons_middle, app_assoc.
      split; [exact Hrun|]. split; [exact Hg|]. by split.
Qed.

Lemma reads_tracked d l s :
  exists s1,
    reads l (tracking_state d s) = Return tt s1
    ∧ globals s1 = globals (tracking_state d s)
    ∧ set_length (unboundDepsCount (nodes s1 d)) (observing (nodes s1 d)) = Some <$> l.
Proof.
  destruct (reads_loop d l (tracking_state d s) []) as (s1 & Hrun & Hg & Hc & Hobs).
  - reflexivity.
  - cbn. apply last_snoc.
  - unfold tracking_state. cbn. by rewrite Nat.eqb_refl.
  - reflexivity.
  - exists s1. split; [exact Hrun|]. split; [exact Hg|].
    cbn [app] in Hc, Hobs. rewrite Hc. unfold set_length. rewrite Hobs.
    assert (Hlen : (length (Some <$> l) <= length (observing (nodes s1 d)))%nat).
    { rewrite <- Hobs at 1. rewrite length_take. lia. }
    replace (length (Some <$> l) - length (observing (nodes s1 d)))%nat with 0%nat by lia.
    apply app_nil_r.
Qed.

Lemma trackDerivedFunction_reads :
  forall (onBecomeObserved onBecomeUnobserved : nat -> M unit) (d : nat)
         (l : list nat) (s : State),
    hook_frame d onBecomeObserved ->
    hook_frame d onBecomeUnobserved ->
    (forall o s0, is_return (onBecomeObserved o s0) = true) ->
    (forall o s0, is_return (onBecomeUnobserved o s0) = true) ->
    linked d s -> clean s ->
    None ∉ observing (nodes s d) ->
    exists s',
      trackDerivedFunction onBecomeObserved onBecomeUnobserved d (reads l) s
      = Return tt s'
      ∧ observing (nodes s' d) = Some <$> l
      ∧ (forall y, d ∈ observers (nodes s' y) <-> y ∈ l).
Proof.
  intros obO obU d l s HO HU HOr HUr Hlink Hclean Hholes.
  destruct (reads_tracked d l s) as (s1 & Hf & Hg & Hnew).
  destruct (reads_frame d l s tt s1 Hf) as (Hfd & Hfo & _).
  set (s2 := upd_globals (globalState.set_derivationStack
                            (globalState.derivationStack (globals s)))
               (upd_globals (globalState.set_isTracking
                               (globalState.isTracking (globals s))) s1)).
  assert (Hrun : trackDerivedFunction obO obU d (reads l) s
                 = Return tt (final (bindDependencies obO obU d (observing (nodes s d)) s2))).
  { rewrite trackDerivedFunction_unfold. unfold try_catch at 1. unfold bind at 1.
    rewrite Hf. unfold pop_derivationStack. unfold_monad. cbn [globals upd_globals].
    rewrite Hg.
    change (globalState.derivationStack
              (globalState.set_isTracking _ (globals (tracking_state d s))))
      with (globalState.derivationStack (globals s) ++ [d]).
    destruct (globalState.derivationStack (globals s) ++ [d]) as [|top stack] eqn:Hst;
      [by destruct (globalState.derivationStack (globals s))|].
    rewrite <- Hst. rewrite length_app. cbn [length].
    rewrite Nat.add_sub, take_app_length.
    assert (Hret : is_return (bindDependencies obO obU d (observing (nodes s d)) s2) = true).
    { apply bindDependencies_returns; try done.
      change (nodes s2 d) with (nodes s1 d). rewrite Hnew.
      intros (y & Hy & _)%list_elem_of_fmap. discriminate. }
    change (upd_globals _ (upd_globals _ s1)) with s2.
    by destruct (bindDependencies obO obU d (observing (nodes s d)) s2) as [[] s3|e s3]. }
  eexists. split; [exact Hrun|].
  assert (Hret : is_return (bindDependencies obO obU d (observing (nodes s d)) s2) = true).
  { apply bindDependencies_returns; try done.
    change (nodes s2 d) with (nodes s1 d). rewrite Hnew.
    intros (y & Hy & _)%list_elem_of_fmap. discriminate. }
  apply return_final in Hret.
  destruct (bindDependencies_effect obO obU d (observing (nodes s d)) s2
              (final (bindDependencies obO obU d (observing (nodes s d)) s2)) HO HU)
    as (Hl' & Hi' & _); [| |exact Hret|].
  { intros y _ _. change (nodes s2 y) with (nodes s1 y). rewrite Hfd, Hclean. lia. }
  { intros y. change (nodes s2 y) with (nodes s1 y). rewrite Hfo. symmetry. apply Hlink. }
  change (nodes s2 d) with (nodes s1 d) in Hi'. rewrite Hnew in Hi'.
  split; [exact Hi'|].
  intros y. pose proof (Hl' y) as Hly. rewrite Hi' in Hly. rewrite <- Hly.
  rewrite list_elem_of_fmap. split.
  - intros (z & [= ->] & Hz). exact Hz.
  - intros Hy. by exists y.
Qed.

(** X10: a tracked run binds what it read.  When derivation [d], linked
    and with no [diffValue] pending, is tracked over a function that
    reads the observables of [l], with hooks that return and stay out of
    the binding, [trackDerivedFunction] returns; [d.observing] then is
    the list of the reads, in order and with repetitions, whatever the
    number of reads (the array is allocated for 100 more than the
    previous run), and [d] is an observer of exactly the observables it
    read. *)
Theorem X10_tracking_binds_the_reads :
  forall (onBecomeObserved onBecomeUnobserved : nat -> M unit) (d : nat)
         (l : list nat) (s : State),
    hook_frame d onBecomeObserved ->
    hook_frame d onBecomeUnobserved ->
    (forall o s0, is_return (onBecomeObserved o s0) = true) ->
    (forall o s0, is_return (onBecomeUnobserved o s0) = true) ->
    linked d s -> clean s ->
    None ∉ observing (nodes s d) ->
    exists s',
      trackDerivedFunction onBecomeObserved onBecomeUnobserved d (reads l) s
      = Return tt s'
      ∧ observing (nodes s' d) = Some <$> l
      ∧ (forall y, d ∈ observers (nodes s' y) <-> y ∈ l).
Proof. exact trackDerivedFunction_reads. Qed.

(** Derivation [0], bound to [1] and [2], reads [2], [3] and [3] again:
    it ends observing [2], [3], [3], and as an observer of [2] and
    [3] only. *)
Lemma X10_tracking_binds_the_reads_witness :
  exists s',
    trackDerivedFunction Reaction_onBecomeObserved Reaction_onBecomeUnobserved
      0%nat (reads [2%nat; 3%nat; 3%nat]) bound_state
    = Return tt s'
    ∧ observing (nodes s' 0%nat) = Some <$> [2%nat; 3%nat; 3%nat]
    ∧ (forall y, 0%nat ∈ observers (nodes s' y) <-> y ∈ [2%nat; 3%nat; 3%nat]).
Proof.
  apply (X10_tracking_binds_the_reads Reaction_onBecomeObserved
           Reaction_onBecomeUnobserved 0%nat [2%nat; 3%nat; 3%nat] bound_state).
  - apply Reaction_hooks_frame.
  - apply Reaction_hooks_frame.
  - intros o s0. reflexivity.
  - intros o s0. reflexivity.
  - apply bound_state_linked.
  - apply bound_state_clean.
  - unfold bound_state. rewrite upd_node_same. cbn. unfold previous_observing.
    intros H. repeat (apply elem_of_cons in H as [H|H]; [discriminate|]).
    by apply elem_of_nil in H.
Defined.

(** ** Tracking is bracketed *)

Lemma for_each_globals {A} (body : A -> M unit) (l : list A) :
  (forall x s, globals (final (body x s)) = globals s) ->
  forall s, globals (final (for_each body l s)) = globals s.
Proof.
  intros Hbody s.
  apply (for_each_final body (fun _ s' => globals s' = globals s)
           (fun s' => globals s' = globals s)); [done| |done].
  intros x rest s' Hs'. pose proof (Hbody x s') as Hx.
  destruct (body x s') as [[] s1|e s1]; cbn [final] in Hx; congruence.
Qed.

Section BindGlobals.

Variables (onBecomeObserved onBecomeUnobserved : nat -> M unit).
Hypothesis onBecomeObserved_globals : forall o s,
  globals (final (onBecomeObserved o s)) = globals s.
Hypothesis onBecomeUnobserved_globals : forall o s,
  globals (final (onBecomeUnobserved o s)) = globals s.

Lemma addObserver_globals o d s :
  globals (final (addObserver onBecomeObserved o d s)) = globals s.
Proof.
  unfold addObserver. unfold_monad.
  destruct (bool_decide _); [by rewrite onBecomeObserved_globals|reflexivity].
Qed.

Lemma removeObserver_globals o d s :
  globals (final (removeObserver onBecomeUnobserved o d s)) = globals s.
Proof.
  unfold removeObserver. unfold_monad.
  destruct (bool_decide _); [by rewrite onBecomeUnobserved_globals|reflexivity].
Qed.

Lemma mark_globals x s : globals (final (bindDependencies_mark x s)) = globals s.
Proof. by destruct x. Qed.

Lemma add_globals d x s :
  globals (final (bindDependencies_add onBecomeObserved d x s)) = globals s.
Proof.
  destruct x as [o|]; [|reflexivity].
  unfold bindDependencies_add. unfold_monad. cbn [deref ret].
  match goal with |- context [0 <? ?x] => destruct (0 <? x) end; [|reflexivity].
  by rewrite addObserver_globals.
Qed.

Lemma remove_globals d x s :
  globals (final (bindDependencies_remove onBecomeUnobserved d x s)) = globals s.
Proof.
  destruct x as [o|]; [|reflexivity].
  unfold bindDependencies_remove. unfold_monad. cbn [deref ret].
  match goal with |- context [?x <? 0] => destruct (x <? 0) end; [|reflexivity].
  by rewrite removeObserver_globals.
Qed.

Lemma bindDependencies_globals d prev s :
  globals (final (bindDependencies onBecomeObserved onBecomeUnobserved d prev s))
  = globals s.
Proof.
  rewrite bindDependencies_unfold. unfold bind.
  set (new := set_length _ _). set (s0 := upd_node d _ s).
  assert (H0 : globals s0 = globals s) by reflexivity.
  pose proof (for_each_globals bindDependencies_mark prev mark_globals s0) as H1.
  destruct (for_each bindDependencies_mark prev s0) as [[] s1|e s1];
    cbn [final] in *; [|congruence].
  pose proof (for_each_globals (bindDependencies_add onBecomeObserved d) new
                (add_globals d) s1) as H2.
  destruct (for_each (bindDependencies_add onBecomeObserved d) new s1) as [[] s2|e s2];
    cbn [final] in *; [|congruence].
  rewrite for_each_globals; [congruence|]. apply remove_globals.
Qed.

Lemma clearObserving_globals d s :
  globals (final (clearObserving onBecomeUnobserved d s)) = globals s.
Proof.
  unfold clearObserving. unfold_monad.
  pose proof (for_each_globals
                (fun x => o <- deref x;; removeObserver onBecomeUnobserved o d)
                (observing (nodes s d))) as H.
  assert (Hbody : forall x s',
             globals (final ((o <- deref x;; removeObserver onBecomeUnobserved o d) s'))
             = globals s').
  { intros [o|] s'; [|reflexivity]. apply removeObserver_globals. }
  specialize (H Hbody s). unfold bind in H.
  by destruct (for_each _ (observing (nodes s d)) s) as [[] s1|e s1].
Qed.

End BindGlobals.

Lemma trackDerivedFunction_Return_stack {T} obO obU d (f : M T) s v s' :
  trackDerivedFunction obO obU d f s = Return v s' ->
  exists s1,
    f (tracking_state d s) = Return v s1
    ∧ bindDependencies obO obU d (observing (nodes s d))
        (upd_globals (globalState.set_derivationStack
                        (take (length (globalState.derivationStack (globals s1)) - 1)
                           (globalState.derivationStack (globals s1))))
           (upd_globals (globalState.set_isTracking (globalState.isTracking (globals s)))
              s1))
      = Return tt s'.
Proof.
  rewrite trackDerivedFunction_unfold. unfold try_catch at 1. unfold bind at 1.
  destruct (f (tracking_state d s)) as [v1 s1|e s1] eqn:Hf.
  - unfold pop_derivationStack. unfold_monad. cbn [globals upd_globals].
    change (globalState.derivationStack (globalState.set_isTracking _ (globals s1)))
      with (globalState.derivationStack (globals s1)).
    destruct (globalState.derivationStack (globals s1)) as [|top stack] eqn:Hst.
    + unfold isSpyEnabled, spyReport, resetGlobalState. unfold_monad.
      by destruct (spyEnabled _).
    + set (s2 := upd_globals _ (upd_globals _ s1)).
      destruct (bindDependencies obO obU d (observing (nodes s d)) s2) as [[] s3|e s3] eqn:Hb.
      * intros [= -> ->]. exists s1. split; [done|]. rewrite Hst. exact Hb.
      * unfold isSpyEnabled, spyReport, resetGlobalState. unfold_monad.
        by destruct (spyEnabled _).
  - unfold isSpyEnabled, spyReport, resetGlobalState. unfold_monad.
    by destruct (spyEnabled _).
Qed.

(** X11: tracking is bracketed.  The tracked function runs with
    tracking on and the derivation on top of the stack, so that
    [isComputingDerivation] answers yes; and when [trackDerivedFunction]
    returns, with hooks that leave the global state alone, it returns
    the result of the function, the tracking flag is the one of the
    call, whatever the function did to it, and the derivation stack is
    the stack the function left, without its top: the stack of the call,
    when the function left the stack as it found it. *)
Theorem X11_tracking_is_bracketed :
  forall (T : Type) (onBecomeObserved onBecomeUnobserved : nat -> M unit)
         (d : nat) (f : M T) (s s' : State) (v : T),
    (forall o s0, globals (final (onBecomeObserved o s0)) = globals s0) ->
    (forall o s0, globals (final (onBecomeUnobserved o s0)) = globals s0) ->
    trackDerivedFunction onBecomeObserved onBecomeUnobserved d f s = Return v s' ->
    isComputingDerivation (tracking_state d s) = Return true (tracking_state d s)
    ∧ exists s1,
        f (tracking_state d s) = Return v s1
        ∧ globals s'
          = globalState.set_derivationStack
              (take (length (globalState.derivationStack (globals s1)) - 1)
                 (globalState.derivationStack (globals s1)))
              (globalState.set_isTracking (globalState.isTracking (globals s))
                 (globals s1))
        ∧ globalState.isTracking (globals s') = globalState.isTracking (globals s)
        ∧ (globalState.derivationStack (globals s1)
           = globalState.derivationStack (globals s) ++ [d] ->
           globalState.derivationStack (globals s')
           = globalState.derivationStack (globals s)).
Proof.
  intros T obO obU d f s s' v HO HU Hrun. split.
  { unfold isComputingDerivation. unfold_monad. cbn.
    rewrite length_app. cbn [length].
    by replace (length (globalState.derivationStack (globals s)) + 1)%nat
      with (S (length (globalState.derivationStack (globals s)))) by lia. }
  apply trackDerivedFunction_Return_stack in Hrun as (s1 & Hf & Hb).
  exists s1. split; [exact Hf|].
  pose proof (bindDependencies_globals obO obU HO HU d (observing (nodes s d))
                (upd_globals (globalState.set_derivationStack
                        (take (length (globalState.derivationStack (globals s1)) - 1)
                           (globalState.derivationStack (globals s1))))
                   (upd_globals (globalState.set_isTracking
                                   (globalState.isTracking (globals s))) s1))) as Hg.
  rewrite Hb in Hg. cbn [final] in Hg. rewrite Hg. cbn [globals upd_globals].
  split; [reflexivity|]. split; [reflexivity|].
  intros Hst. cbn. rewrite Hst, length_app. cbn [length].
  by rewrite Nat.add_sub, take_app_length.
Qed.

Lemma X11_tracking_is_bracketed_witness :
  isComputingDerivation (tracking_state 0%nat bound_state)
  = Return true (tracking_state 0%nat bound_state)
  ∧ exists s1,
      reads [2%nat; 3%nat; 3%nat] (tracking_state 0%nat bound_state) = Return tt s1
      ∧ globals
          (final (trackDerivedFunction Reaction_onBecomeObserved
                    Reaction_onBecomeUnobserved 0%nat
                    (reads [2%nat; 3%nat; 3%nat]) bound_state))
        = globalState.set_derivationStack
            (take (length (globalState.derivationStack (globals s1)) - 1)
               (globalState.derivationStack (globals s1)))
            (globalState.set_isTracking (globalState.isTracking (globals bound_state))
               (globals s1))
      ∧ globalState.isTracking
          (globals
             (final (trackDerivedFunction Reaction_onBecomeObserved
                       Reaction_onBecomeUnobserved 0%nat
                       (reads [2%nat; 3%nat; 3%nat]) bound_state)))
        = globalState.isTracking (globals bound_state)
      ∧ (globalState.derivationStack (globals s1)
         = globalState.derivationStack (globals bound_state) ++ [0%nat] ->
         globalState.derivationStack
           (globals
              (final (trackDerivedFunction Reaction_onBecomeObserved
                        Reaction_onBecomeUnobserved 0%nat
                        (reads [2%nat; 3%nat; 3%nat]) bound_state)))
         = globalState.derivationStack (globals bound_state)).
Proof.
  apply (X11_tracking_is_bracketed unit Reaction_onBecomeObserved
           Reaction_onBecomeUnobserved 0%nat (reads [2%nat; 3%nat; 3%nat])
           bound_state _ tt).
  - intros o s0. reflexivity.
  - intros o s0. reflexivity.
  - apply return_final. vm_compute. reflexivity.
Defined.

(** ** Untracked reads *)

Lemma reads_untracked l s :
  globalState.isTracking (globals s) = false -> reads l s = Return tt s.
Proof.
  intros Ht. unfold reads. induction l as [|x l IH]; [reflexivity|].
  cbn [for_each]. unfold bind at 1. unfold reportObserved at 1. unfold_monad.
  rewrite Ht. exact IH.
Qed.

(** X12: reads made inside [untracked] are not recorded.  [untracked]
    over a function that only reads observables returns in the state it
    was called in, so tracking a derivation over it is tracking it over
    a function that reads nothing. *)
Theorem X12_untracked_reads_leave_no_trace :
  forall (l : list nat) (s : State),
    untracked (reads l) s = Return tt s
    ∧ forall (onBecomeObserved onBecomeUnobserved : nat -> M unit) (d : nat),
        trackDerivedFunction onBecomeObserved onBecomeUnobserved d
          (untracked (reads l)) s
        = trackDerivedFunction onBecomeObserved onBecomeUnobserved d (ret tt) s.
Proof.
  assert (H : forall l s, untracked (reads l) s = Return tt s).
  { intros l s. unfold untracked, untrackedStart, untrackedEnd. unfold_monad.
    rewrite reads_untracked by reflexivity.
    destruct s as [n g c se sv v]. by destruct g. }
  intros l s. split; [apply H|].
  intros obO obU d. rewrite !trackDerivedFunction_unfold.
  unfold try_catch. unfold bind at 1. rewrite H. reflexivity.
Qed.

(** ** One recomputation per wave *)

Lemma counters_only_refl d s :
  counters_only d s s.
Proof.
  split; [done|]. split; [by destruct (nodes s d)|done].
Qed.

Lemma counters_only_staleCount d c s s' :
  counters_only d s s' ->
  counters_only d s (upd_node d (set_dependencyStaleCount c) s').
Proof.
  intros (Hx & Hd & Hrest). split; [|split; [|exact Hrest]].
  - intros x Hne. rewrite upd_node_other by done. by apply Hx.
  - rewrite upd_node_same.
    destruct (nodes s' d), (nodes s d).
    unfold set_dependencyStaleCount, set_dependencyChangeCount in *. cbn in *.
    congruence.
Qed.

Lemma counters_only_changeCount d c s s' :
  counters_only d s s' ->
  counters_only d s (upd_node d (set_dependencyChangeCount c) s').
Proof.
  intros (Hx & Hd & Hrest). split; [|split; [|exact Hrest]].
  - intros x Hne. rewrite upd_node_other by done. by apply Hx.
  - rewrite upd_node_same.
    destruct (nodes s' d), (nodes s d).
    unfold set_dependencyStaleCount, set_dependencyChangeCount in *. cbn in *.
    congruence.
Qed.

Lemma notifyDependencyReady_state pr odr d (changed : bool) s :
  0 < dependencyStaleCount (nodes s d) ->
  let sa := if changed
            then upd_node d (set_dependencyChangeCount
                               (dependencyChangeCount (nodes s d) + 1)) s
            else s in
  let s1 := upd_node d (set_dependencyStaleCount
                          (dependencyStaleCount (nodes s d) - 1)) sa in
  notifyDependencyReady pr odr d changed s
  = (if dependencyStaleCount (nodes s d) - 1 =? 0
     then if 0 <? dependencyChangeCount (nodes s d) + (if changed then 1 else 0)
          then (c <- odr d;; pr d c) (upd_node d (set_dependencyChangeCount 0) s1)
          else pr d false s1
     else Return tt s1).
Proof.
  intros Hpos sa s1. subst s1 sa.
  unfold notifyDependencyReady, invariant. unfold_monad.
  apply Z.ltb_lt in Hpos. rewrite Hpos.
  destruct changed; node_simpl;
    (destruct (dependencyStaleCount (nodes s d) - 1 =? 0);
     cbv beta; node_simpl; [|reflexivity]);
    rewrite ?Z.add_0_r;
    match goal with |- context [0 <? ?x] => destruct (0 <? x) end;
    reflexivity.
Qed.

Lemma wave_run odr d s (l : list Notification) : forall s',
  counters_only d s s' ->
  0 <= dependencyStaleCount (nodes s' d) ->
  0 <= dependencyChangeCount (nodes s' d) ->
  wave_from (dependencyStaleCount (nodes s' d)) l = true ->
  exists s1,
    counters_only d s s1
    ∧ dependencyStaleCount (nodes s1 d) = 0
    ∧ dependencyChangeCount (nodes s1 d) = 0
    ∧ for_each (notify unobserved_propagateStaleness unobserved_propagateReadiness
                  odr d) l s'
      = if (0 <? dependencyChangeCount (nodes s' d)) || dependency_changed l
        then (odr d;; ret tt) s1
        else Return tt s1.
Proof.
  induction l as [|n l IH]; intros s' Hco Hc Hk Hw; [discriminate|].
  cbn [wave_from] in Hw. cbn [for_each]. unfold bind at 1.
  destruct n as [|b]; cbn [notify].
  - rewrite notifyDependencyStale_unfold.
    set (sa := upd_node d _ s').
    assert (Hstep : (if dependencyStaleCount (nodes s' d) + 1 =? 1
                     then unobserved_propagateStaleness d else ret tt) sa
                    = Return tt sa) by (by destruct (_ =? 1)).
    rewrite Hstep.
    destruct l as [|n' l']; [apply Z.eqb_eq in Hw; lia|].
    apply andb_true_iff in Hw as [_ Hw].
    destruct (IH sa) as (s1 & Hco1 & Hc1 & Hk1 & Hrun).
    + by apply counters_only_staleCount.
    + subst sa. rewrite upd_node_same. cbn. lia.
    + subst sa. by rewrite upd_node_same.
    + subst sa. by rewrite upd_node_same.
    + exists s1. split; [exact Hco1|]. split; [exact Hc1|]. split; [exact Hk1|].
      rewrite Hrun. subst sa. by rewrite upd_node_same.
  - assert (Hpos : 0 < dependencyStaleCount (nodes s' d)).
    { destruct l; [apply Z.eqb_eq in Hw|apply andb_true_iff in Hw as [Hw _];
                                         apply Z.ltb_lt in Hw]; lia. }
    rewrite (notifyDependencyReady_state _ odr d b s' Hpos).
    set (sa := if b then _ else s').
    set (s1 := upd_node d _ sa).
    assert (Hco1 : counters_only d s s1).
    { apply counters_only_staleCount. subst sa.
      destruct b; [by apply counters_only_changeCount|done]. }
    assert (Hk1 : dependencyChangeCount (nodes s1 d)
                  = dependencyChangeCount (nodes s' d) + (if b then 1 else 0)).
    { subst s1 sa. rewrite upd_node_same. cbn.
      destruct b; [by rewrite upd_node_same|lia]. }
    assert (Hc1 : dependencyStaleCount (nodes s1 d)
                  = dependencyStaleCount (nodes s' d) - 1).
    { subst s1. by rewrite upd_node_same. }
    assert (Hflag : (0 <? dependencyChangeCount (nodes s' d) + (if b then 1 else 0))
                    = (0 <? dependencyChangeCount (nodes s' d)) || b).
    { destruct b.
      - rewrite orb_true_r. apply Z.ltb_lt. lia.
      - by rewrite orb_false_r, Z.add_0_r. }
    destruct l as [|n' l'].
    + assert (He : (dependencyStaleCount (nodes s' d) - 1 =? 0) = true)
        by (apply Z.eqb_eq in Hw; apply Z.eqb_eq; lia).
      rewrite He. cbn [for_each].
      unfold dependency_changed. cbn [existsb]. rewrite orb_false_r.
      replace (match b with true => true | false => false end) with b by (by destruct b).
      rewrite Hflag.
      destruct ((0 <? dependencyChangeCount (nodes s' d)) || b) eqn:Hany.
      * exists (upd_node d (set_dependencyChangeCount 0) s1).
        split; [by apply counters_only_changeCount|].
        split.
        { rewrite upd_node_same.
          cbn [dependencyStaleCount set_dependencyChangeCount].
          rewrite Hc1. by apply Z.eqb_eq in He. }
        split; [by rewrite upd_node_same|].
        unfold bind.
        by destruct (odr d (upd_node d (set_dependencyChangeCount 0) s1)).
      * exists s1. split; [exact Hco1|].
        split; [rewrite Hc1; by apply Z.eqb_eq in He|]. split; [|reflexivity].
        rewrite Hk1. apply Z.ltb_ge in Hflag. destruct b; lia.
    + apply andb_true_iff in Hw as [Hgt Hw]. apply Z.ltb_lt in Hgt.
      assert (Hne : (dependencyStaleCount (nodes s' d) - 1 =? 0) = false)
        by (apply Z.eqb_neq; lia).
      rewrite Hne.
      destruct (IH s1) as (s2 & Hco2 & Hc2 & Hk2 & Hrun).
      * exact Hco1.
      * lia.
      * rewrite Hk1. destruct b; lia.
      * by rewrite Hc1.
      * exists s2. split; [exact Hco2|]. split; [exact Hc2|]. split; [exact Hk2|].
        rewrite Hrun, Hk1, Hflag.
        unfold dependency_changed. cbn [existsb].
        replace (match b with true => true | false => false end) with b
          by (by destruct b).
        by destruct (0 <? dependencyChangeCount (nodes s' d)), b.
Qed.

(** X13: one recomputation per wave.  A derivation without observers,
    at rest, receives a wave of notifications: stale and ready
    notifications in any order, the stale ones all answered by the end
    and not before.  When no ready notification reports a change, the
    wave returns and leaves the state as it was; when one does,
    [onDependenciesReady] is called, once, at the end of the wave, in a
    state that is as before the wave. *)
Theorem X13_one_recomputation_per_wave :
  forall (onDependenciesReady : nat -> M bool) (d : nat)
         (l : list Notification) (s : State),
    dependencyStaleCount (nodes s d) = 0 ->
    dependencyChangeCount (nodes s d) = 0 ->
    wave_from 0 l = true ->
    exists s1,
      (forall x, nodes s1 x = nodes s x)
      ∧ globals s1 = globals s
      ∧ console s1 = console s
      ∧ spyEvents s1 = spyEvents s
      ∧ values s1 = values s
      ∧ for_each (notify unobserved_propagateStaleness unobserved_propagateReadiness
                    onDependenciesReady d) l s
        = if dependency_changed l
          then (onDependenciesReady d;; ret tt) s1
          else Return tt s1.
Proof.
  intros odr d l s Hc Hk Hw.
  destruct (wave_run odr d s l s) as (s1 & Hco & Hc1 & Hk1 & Hrun).
  - apply counters_only_refl.
  - lia.
  - lia.
  - by rewrite Hc.
  - destruct Hco as (Hx & Hd & Hg & Hcon & _ & Hspy & Hv).
    exists s1. split; [|by rewrite Hrun, Hk].
    intros x. destruct (decide (x = d)) as [->|Hne]; [|by apply Hx].
    rewrite Hd, Hc1, Hk1. destruct (nodes s d).
    unfold set_dependencyStaleCount, set_dependencyChangeCount. cbn in *. by subst.
Qed.

(** Two dependencies of a reaction change in one transaction, and one
    of them reports a change: the reaction is scheduled once, when the
    last of them is ready. *)
Lemma X13_one_recomputation_per_wave_witness :
  exists s1,
    (forall x, nodes s1 x = nodes initial_state x)
    ∧ globals s1 = globals initial_state
    ∧ console s1 = console initial_state
    ∧ spyEvents s1 = spyEvents initial_state
    ∧ values s1 = values initial_state
    ∧ for_each (notify unobserved_propagateStaleness unobserved_propagateReadiness
                  (Reaction_onDependenciesReady idle_onInvalidate) 0%nat)
        [Stale; Stale; Ready false; Stale; Ready true; Ready false] initial_state
      = if dependency_changed [Stale; Stale; Ready false; Stale; Ready true; Ready false]
        then (Reaction_onDependenciesReady idle_onInvalidate 0%nat;; ret tt) s1
        else Return tt s1.
Proof.
  apply (X13_one_recomputation_per_wave
           (Reaction_onDependenciesReady idle_onInvalidate) 0%nat
           [Stale; Stale; Ready false; Stale; Ready true; Ready false] initial_state).
  - reflexivity.
  - reflexivity.
  - reflexivity.
Defined.

(** ** A reaction whose function throws *)

(** X14: [track] has no exception handler of its own.  When the
    function of a reaction throws, [track] rethrows the exception and
    never reaches [this._isRunning = false]: the reaction stays marked as
    running, with the dependencies of its previous run.  [dispose] then
    only sets [isDisposed]: taking the reaction for a running one, it
    leaves the clean-up to the end of the run, and the reaction stays in
    the observer sets of its dependencies. *)
Theorem X14_track_exception_leaves_reaction_running :
  forall (onBecomeObserved onBecomeUnobserved : nat -> M unit)
         (this : nat) (fn : M unit) (s s1 : State) (e : JsError),
    fn (tracking_state this (track_entry this s)) = Throw e s1 ->
    _isRunning (nodes s1 this) = true ->
    isDisposed (nodes s1 this) = false ->
    exists s',
      Reaction_track onBecomeObserved onBecomeUnobserved this fn s = Throw e s'
      ∧ _isRunning (nodes s' this) = true
      ∧ _isTrackPending (nodes s' this) = _isTrackPending (nodes s1 this)
      ∧ observing (nodes s' this) = observing (nodes s this)
      ∧ Reaction_dispose onBecomeUnobserved this s'
        = Return tt (upd_node this (set_isDisposed true) s')
      ∧ forall y, observers (nodes (upd_node this (set_isDisposed true) s') y)
                  = observers (nodes s1 y).
Proof.
  intros obO obU this fn s s1 e Hf Hr Hd.
  assert (Hobs : observing (nodes (track_entry this s) this) = observing (nodes s this)).
  { unfold track_entry. rewrite upd_node_same. by destruct (spyEnabled s). }
  set (message := uncaught_message (name (nodes s1 this))).
  set (s' := upd_globals (fun _ => defaultGlobals)
               (upd_node this (set_observing (observing (nodes s this)))
                  (upd_node this (set_unboundDepsCount 0)
                     (upd_console
                        (fun l => l ++ [message +:+ newline +:+ "Original error:"])
                        (if spyEnabled s1
                         then upd_spyEvents (fun l => l ++ [spy_error message]) s1
                         else s1))))).
  assert (Hrun : Reaction_track obO obU this fn s = Throw e s').
  { rewrite Reaction_track_unfold. unfold bind at 1.
    rewrite trackDerivedFunction_unfold.
    unfold try_catch at 1. unfold bind at 1. rewrite Hf. rewrite Hobs.
    unfold isSpyEnabled, spyReport, resetGlobalState. unfold_monad.
    subst s' message. by destruct (spyEnabled s1). }
  assert (Hn : nodes s' this
               = set_observing (observing (nodes s this))
                   (set_unboundDepsCount 0 (nodes s1 this))).
  { subst s'. cbn [nodes upd_globals]. rewrite !upd_node_same.
    by destruct (spyEnabled s1). }
  assert (Hy : forall y, observers (nodes s' y) = observers (nodes s1 y)).
  { intros y. subst s'. cbn [nodes upd_globals].
    destruct (decide (y = this)) as [->|Hne].
    - rewrite !upd_node_same. by destruct (spyEnabled s1).
    - rewrite !upd_node_other by done. by destruct (spyEnabled s1). }
  exists s'. split; [exact Hrun|]. rewrite Hn. proj_simpl.
  split; [exact Hr|]. split; [reflexivity|]. split; [reflexivity|]. split.
  - unfold Reaction_dispose. unfold_monad. rewrite Hn. proj_simpl. rewrite Hd.
    cbn [negb]. cbv beta. rewrite upd_node_same, Hn. proj_simpl. by rewrite Hr.
  - intros y. rewrite <- Hy. destruct (decide (y = this)) as [->|Hne].
    + by rewrite upd_node_same.
    + by rewrite upd_node_other.
Qed.

(** Reaction [0], bound to [1] and [2], reads [3] and throws: it is left
    running, and disposing of it leaves it among the observers of [1]
    and [2]. *)
Lemma X14_track_exception_leaves_reaction_running_witness :
  exists e s',
    Reaction_track Reaction_onBecomeObserved Reaction_onBecomeUnobserved 0%nat
      (reads_then_throws [3%nat]) bound_state = Throw e s'
    ∧ _isRunning (nodes s' 0%nat) = true
    ∧ observing (nodes s' 0%nat) = observing (nodes bound_state 0%nat)
    ∧ Reaction_dispose Reaction_onBecomeUnobserved 0%nat s'
      = Return tt (upd_node 0%nat (set_isDisposed true) s')
    ∧ observers (nodes (upd_node 0%nat (set_isDisposed true) s') 1%nat) = {[0%nat]}
    ∧ observers (nodes (upd_node 0%nat (set_isDisposed true) s') 2%nat) = {[0%nat]}.
Proof.
  destruct (throw_final (reads_then_throws [3%nat]
                           (tracking_state 0%nat (track_entry 0%nat bound_state))))
    as [e He]; [vm_compute; reflexivity|].
  destruct (X14_track_exception_leaves_reaction_running Reaction_onBecomeObserved
              Reaction_onBecomeUnobserved 0%nat (reads_then_throws [3%nat]) bound_state
              _ e He)
    as (s' & Hrun & Hr & _ & Hobs & Hdis & Hy).
  - vm_compute. reflexivity.
  - vm_compute. reflexivity.
  - exists e, s'. split; [exact Hrun|]. split; [exact Hr|]. split; [exact Hobs|].
    split; [exact Hdis|]. split; rewrite Hy; vm_compute; reflexivity.
Defined.

(** ** Binding stays out of scheduling *)

Lemma scheduling_frame_refl s : scheduling_frame s s.
Proof. by repeat split. Qed.

Lemma scheduling_frame_trans s1 s2 s3 :
  scheduling_frame s1 s2 -> scheduling_frame s2 s3 -> scheduling_frame s1 s3.
Proof.
  intros (Hn & Hq & Hr & Ht & Hc & Hco & Hse & Hsv & Hv)
         (Hn' & Hq' & Hr' & Ht' & Hc' & Hco' & Hse' & Hsv' & Hv').
  split.
  - intros x. destruct (Hn x) as (H1 & H2 & H3 & H4 & H5).
    destruct (Hn' x) as (H1' & H2' & H3' & H4' & H5').
    repeat split; congruence.
  - repeat split; congruence.
Qed.

Lemma scheduling_frame_upd_node d f s :
  (forall n, name (f n) = name n
             ∧ isDisposed (f n) = isDisposed n
             ∧ _isScheduled (f n) = _isScheduled n
             ∧ _isTrackPending (f n) = _isTrackPending n
             ∧ _isRunning (f n) = _isRunning n) ->
  scheduling_frame s (upd_node d f s).
Proof.
  intros Hf. split; [|by repeat split].
  intros x. destruct (decide (x = d)) as [->|Hne].
  - rewrite upd_node_same. apply Hf.
  - by rewrite upd_node_other.
Qed.

Lemma for_each_related {A} (R : State -> State -> Prop) (body : A -> M unit) l :
  (forall s, R s s) ->
  (forall s1 s2 s3, R s1 s2 -> R s2 s3 -> R s1 s3) ->
  (forall x s, R s (final (body x s))) ->
  forall s, R s (final (for_each body l s)).
Proof.
  intros Hrefl Htrans Hbody s.
  apply (for_each_final body (fun _ s' => R s s') (fun s' => R s s'));
    [done| |apply Hrefl].
  intros x rest s' Hs'. pose proof (Hbody x s') as Hx.
  destruct (body x s') as [[] s1|e s1]; cbn [final] in Hx; by apply (Htrans s s' s1).
Qed.

Lemma reportObserved_scheduling o s :
  scheduling_frame s (final (reportObserved o s)).
Proof.
  unfold reportObserved. unfold_monad.
  destruct (globalState.isTracking (globals s)); [|apply scheduling_frame_refl].
  destruct (last (globalState.derivationStack (globals s))) as [d|];
    [|apply scheduling_frame_refl].
  cbn [final].
  eapply scheduling_frame_trans; apply scheduling_frame_upd_node; by intros n.
Qed.

Lemma reads_scheduling l s : scheduling_frame s (final (reads l s)).
Proof.
  unfold reads. apply for_each_related;
    [apply scheduling_frame_refl|apply scheduling_frame_trans
    |apply reportObserved_scheduling].
Qed.

Lemma tracking_state_scheduling d s : scheduling_frame s (tracking_state d s).
Proof.
  unfold tracking_state. split; [|by repeat split].
  intros x. cbn. by destruct (x =? d)%nat.
Qed.

Section BindScheduling.

Variables (onBecomeObserved onBecomeUnobserved : nat -> M unit).
Hypothesis onBecomeObserved_scheduling : forall o s,
  scheduling_frame s (final (onBecomeObserved o s)).
Hypothesis onBecomeUnobserved_scheduling : forall o s,
  scheduling_frame s (final (onBecomeUnobserved o s)).

Lemma addObserver_scheduling o d s :
  scheduling_frame s (final (addObserver onBecomeObserved o d s)).
Proof.
  unfold addObserver. unfold_monad.
  assert (H : scheduling_frame s
                (upd_node o (set_observers ({[d]} ∪ observers (nodes s o))) s))
    by (apply scheduling_frame_upd_node; by intros n).
  destruct (bool_decide _); [|exact H].
  eapply scheduling_frame_trans; [exact H|apply onBecomeObserved_scheduling].
Qed.

Lemma removeObserver_scheduling o d s :
  scheduling_frame s (final (removeObserver onBecomeUnobserved o d s)).
Proof.
  unfold removeObserver. unfold_monad.
  assert (H : scheduling_frame s
                (upd_node o (set_observers (observers (nodes s o) ∖ {[d]})) s))
    by (apply scheduling_frame_upd_node; by intros n).
  destruct (bool_decide _); [|exact H].
  eapply scheduling_frame_trans; [exact H|apply onBecomeUnobserved_scheduling].
Qed.

Lemma mark_scheduling x s : scheduling_frame s (final (bindDependencies_mark x s)).
Proof.
  destruct x as [o|]; [|apply scheduling_frame_refl].
  apply scheduling_frame_upd_node. by intros n.
Qed.

Lemma add_scheduling d x s :
  scheduling_frame s (final (bindDependencies_add onBecomeObserved d x s)).
Proof.
  destruct x as [o|]; [|apply scheduling_frame_refl].
  unfold bindDependencies_add. unfold_monad. cbn [deref ret].
  set (s1 := upd_node o (set_diffValue (diffValue (nodes s o) + 1)) s).
  assert (H1 : scheduling_frame s s1)
    by (apply scheduling_frame_upd_node; by intros n).
  match goal with |- context [0 <? ?x] => destruct (0 <? x) end; [|exact H1].
  eapply scheduling_frame_trans; [exact H1|].
  eapply scheduling_frame_trans; [|apply addObserver_scheduling].
  apply scheduling_frame_upd_node. by intros n.
Qed.

Lemma remove_scheduling d x s :
  scheduling_frame s (final (bindDependencies_remove onBecomeUnobserved d x s)).
Proof.
  destruct x as [o|]; [|apply scheduling_frame_refl].
  unfold bindDependencies_remove. unfold_monad. cbn [deref ret].
  match goal with |- context [?x <? 0] => destruct (x <? 0) end;
    [|apply scheduling_frame_refl].
  eapply scheduling_frame_trans; [|apply removeObserver_scheduling].
  apply scheduling_frame_upd_node. by intros n.
Qed.

Lemma bindDependencies_scheduling d prev s :
  scheduling_frame s
    (final (bindDependencies onBecomeObserved onBecomeUnobserved d prev s)).
Proof.
  rewrite bindDependencies_unfold. unfold bind.
  set (new := set_length _ _). set (s0 := upd_node d _ s).
  assert (H0 : scheduling_frame s s0)
    by (apply scheduling_frame_upd_node; by intros n).
  pose proof (for_each_related scheduling_frame bindDependencies_mark prev
                scheduling_frame_refl scheduling_frame_trans mark_scheduling s0) as H1.
  destruct (for_each bindDependencies_mark prev s0) as [[] s1|e s1];
    cbn [final] in *; [|by apply (scheduling_frame_trans s s0 s1)].
  pose proof (for_each_related scheduling_frame
                (bindDependencies_add onBecomeObserved d) new
                scheduling_frame_refl scheduling_frame_trans (add_scheduling d) s1) as H2.
  destruct (for_each (bindDependencies_add onBecomeObserved d) new s1) as [[] s2|e s2];
    cbn [final] in *;
    [|apply (scheduling_frame_trans s s0 s2); [done|];
      by apply (scheduling_frame_trans s0 s1 s2)].
  apply (scheduling_frame_trans s s0); [done|].
  apply (scheduling_frame_trans s0 s1); [done|].
  apply (scheduling_frame_trans s1 s2); [done|].
  apply for_each_related;
    [apply scheduling_frame_refl|apply scheduling_frame_trans|apply remove_scheduling].
Qed.

Lemma trackDerivedFunction_scheduling {T} d (f : M T) s v s' :
  (forall s0, scheduling_frame s0 (final (f s0))) ->
  trackDerivedFunction onBecomeObserved onBecomeUnobserved d f s = Return v s' ->
  scheduling_frame s s'.
Proof.
  intros Hf Hrun.
  apply trackDerivedFunction_Return_stack in Hrun as (s1 & Hf1 & Hb).
  pose proof (Hf (tracking_state d s)) as H1. rewrite Hf1 in H1. cbn [final] in H1.
  set (s2 := upd_globals _ (upd_globals _ s1)) in Hb.
  pose proof (bindDependencies_scheduling d (observing (nodes s d)) s2) as H2.
  rewrite Hb in H2. cbn [final] in H2.
  apply (scheduling_frame_trans s (tracking_state d s));
    [apply tracking_state_scheduling|].
  apply (scheduling_frame_trans _ s1); [exact H1|].
  apply (scheduling_frame_trans _ s2); [|exact H2].
  subst s2. by repeat split.
Qed.

End BindScheduling.

(** ** A run of a reaction *)

Lemma track_entry_nodes this s x :
  observing (nodes (track_entry this s) x) = observing (nodes s x)
  ∧ observers (nodes (track_entry this s) x) = observers (nodes s x)
  ∧ diffValue (nodes (track_entry this s) x) = diffValue (nodes s x)
  ∧ isDisposed (nodes (track_entry this s) x) = isDisposed (nodes s x)
  ∧ _isScheduled (nodes (track_entry this s) x) = _isScheduled (nodes s x).
Proof.
  unfold track_entry. destruct (decide (x = this)) as [->|Hne].
  - rewrite upd_node_same. by destruct (spyEnabled s).
  - rewrite upd_node_other by done. by destruct (spyEnabled s).
Qed.

Lemma Reaction_track_reads obO obU this (l : list nat) s :
  hook_frame this obO -> hook_frame this obU ->
  (forall o s0, is_return (obO o s0) = true) ->
  (forall o s0, is_return (obU o s0) = true) ->
  (forall o s0, scheduling_frame s0 (final (obO o s0))) ->
  (forall o s0, scheduling_frame s0 (final (obU o s0))) ->
  linked this s -> clean s ->
  None ∉ observing (nodes s this) ->
  isDisposed (nodes s this) = false ->
  exists s',
    Reaction_track obO obU this (reads l) s = Return tt s'
    ∧ observing (nodes s' this) = Some <$> l
    ∧ (forall y, this ∈ observers (nodes s' y) <-> y ∈ l)
    ∧ _isRunning (nodes s' this) = false
    ∧ _isTrackPending (nodes s' this) = false
    ∧ spyEvents s'
      = spyEvents s
        ++ (if spyEnabled s then [spy_reaction_start this; spy_report_end] else [])
    ∧ isDisposed (nodes s' this) = false
    ∧ _isScheduled (nodes s' this) = _isScheduled (nodes s this)
    ∧ globalState.pendingReactions (globals s')
      = globalState.pendingReactions (globals s)
    ∧ globalState.isRunningReactions (globals s')
      = globalState.isRunningReactions (globals s)
    ∧ globalState.inTransaction (globals s') = globalState.inTransaction (globals s)
    ∧ values s' = values s.
Proof.
  intros HO HU HOr HUr HOs HUs Hlink Hclean Hholes Hdisposed.
  destruct (trackDerivedFunction_reads obO obU this l (track_entry this s))
    as (s1 & Hrun & Hobs & Hmem); try done.
  { apply (linked_ext this s); [| |exact Hlink].
    - by destruct (track_entry_nodes this s this) as (-> & _).
    - intros A. by destruct (track_entry_nodes this s A) as (_ & -> & _). }
  { intros x. destruct (track_entry_nodes this s x) as (_ & _ & -> & _). apply Hclean. }
  { by destruct (track_entry_nodes this s this) as (-> & _). }
  pose proof (trackDerivedFunction_scheduling obO obU HOs HUs this (reads l)
                (track_entry this s) tt s1 (reads_scheduling l) Hrun)
    as (Hn & Hq & Hr & Ht & _ & _ & Hse & Hsv & Hv).
  destruct (Hn this) as (_ & Hd1 & Hsch1 & _ & _).
  destruct (track_entry_nodes this s this) as (_ & _ & _ & Hd0 & Hsch0).
  set (s2 := upd_node this (set__isTrackPending false)
               (upd_node this (set__isRunning false) s1)).
  exists (if spyEnabled s then upd_spyEvents (fun l => l ++ [spy_report_end]) s2 else s2).
  assert (Hn2 : nodes s2 this
                = set__isTrackPending false (set__isRunning false (nodes s1 this))).
  { subst s2. by rewrite !upd_node_same. }
  assert (Hy2 : forall y, observers (nodes s2 y) = observers (nodes s1 y)).
  { intros y. subst s2. destruct (decide (y = this)) as [->|Hne].
    - by rewrite !upd_node_same.
    - by rewrite !upd_node_other. }
  split.
  { rewrite Reaction_track_unfold. unfold bind at 1. rewrite Hrun.
    unfold spyReport. unfold_monad. fold s2. rewrite Hn2. proj_simpl.
    rewrite Hd1, Hd0, Hdisposed. by destruct (spyEnabled s). }
  assert (Hnodes : nodes (if spyEnabled s
                          then upd_spyEvents (fun l => l ++ [spy_report_end]) s2
                          else s2) = nodes s2) by (by destruct (spyEnabled s)).
  assert (Hglobals : globals (if spyEnabled s
                              then upd_spyEvents (fun l => l ++ [spy_report_end]) s2
                              else s2) = globals s1) by (by destruct (spyEnabled s)).
  rewrite Hnodes, Hglobals, Hn2. proj_simpl.
  split; [exact Hobs|]. split; [intros y; rewrite Hy2; apply Hmem|].
  split; [reflexivity|]. split; [reflexivity|]. split.
  { unfold track_entry in Hsv. destruct (spyEnabled s); cbn in Hsv |- *.
    - rewrite Hsv. by rewrite <- app_assoc.
    - rewrite Hsv. by rewrite app_nil_r. }
  split; [by rewrite Hd1, Hd0|]. split; [by rewrite Hsch1, Hsch0|].
  split; [rewrite Hq; unfold track_entry; by destruct (spyEnabled s)|].
  split; [rewrite Hr; unfold track_entry; by destruct (spyEnabled s)|].
  split; [rewrite Ht; unfold track_entry; by destruct (spyEnabled s)|].
  unfold track_entry in Hv. destruct (spyEnabled s); cbn in Hv |- *; by rewrite Hv.
Qed.

(** X15: a run of a reaction.  [track] over a function that reads the
    observables of [l], for a reaction that is not disposed, is linked
    to its dependencies and has no [diffValue] pending, with hooks that
    return and stay out of the binding and of the scheduling: [track]
    returns, the reaction then observes exactly [l], it is neither
    running nor waiting to be tracked, and the spy, when enabled, was
    told of the start and of the end of the run, and of nothing else. *)
Theorem X15_track_binds_and_reports :
  forall (onBecomeObserved onBecomeUnobserved : nat -> M unit)
         (this : nat) (l : list nat) (s : State),
    hook_frame this onBecomeObserved ->
    hook_frame this onBecomeUnobserved ->
    (forall o s0, is_return (onBecomeObserved o s0) = true) ->
    (forall o s0, is_return (onBecomeUnobserved o s0) = true) ->
    (forall o s0, scheduling_frame s0 (final (onBecomeObserved o s0))) ->
    (forall o s0, scheduling_frame s0 (final (onBecomeUnobserved o s0))) ->
    linked this s -> clean s ->
    None ∉ observing (nodes s this) ->
    isDisposed (nodes s this) = false ->
    exists s',
      Reaction_track onBecomeObserved onBecomeUnobserved this (reads l) s
      = Return tt s'
      ∧ observing (nodes s' this) = Some <$> l
      ∧ (forall y, this ∈ observers (nodes s' y) <-> y ∈ l)
      ∧ _isRunning (nodes s' this) = false
      ∧ _isTrackPending (nodes s' this) = false
      ∧ spyEvents s'
        = spyEvents s
          ++ (if spyEnabled s then [spy_reaction_start this; spy_report_end] else []).
Proof.
  intros obO obU this l s HO HU HOr HUr HOs HUs Hlink Hclean Hholes Hdisposed.
  destruct (Reaction_track_reads obO obU this l s)
    as (s' & Hrun & Hobs & Hmem & Hr & Htp & Hspy & _); try done.
  exists s'. split; [exact Hrun|]. split; [exact Hobs|]. split; [exact Hmem|].
  split; [exact Hr|]. split; [exact Htp|exact Hspy].
Qed.

Lemma Reaction_hooks_scheduling :
  (forall o s0, scheduling_frame s0 (final (Reaction_onBecomeObserved o s0)))
  ∧ (forall o s0, scheduling_frame s0 (final (Reaction_onBecomeUnobserved o s0))).
Proof. split; intros o s0; apply scheduling_frame_refl. Qed.

Lemma bound_state_no_holes : None ∉ observing (nodes bound_state 0%nat).
Proof.
  unfold bound_state. rewrite upd_node_same. cbn. unfold previous_observing.
  intros H. repeat (apply elem_of_cons in H as [H|H]; [discriminate|]).
  by apply elem_of_nil in H.
Qed.

(** Reaction [0], bound to [1] and [2], runs and reads [2], [3] and [3]
    again. *)
Lemma X15_track_binds_and_reports_witness :
  exists s',
    Reaction_track Reaction_onBecomeObserved Reaction_onBecomeUnobserved 0%nat
      (reads [2%nat; 3%nat; 3%nat]) bound_state
    = Return tt s'
    ∧ observing (nodes s' 0%nat) = Some <$> [2%nat; 3%nat; 3%nat]
    ∧ (forall y, 0%nat ∈ observers (nodes s' y) <-> y ∈ [2%nat; 3%nat; 3%nat])
    ∧ _isRunning (nodes s' 0%nat) = false
    ∧ _isTrackPending (nodes s' 0%nat) = false
    ∧ spyEvents s'
      = spyEvents bound_state
        ++ (if spyEnabled bound_state
            then [spy_reaction_start 0%nat; spy_report_end] else []).
Proof.
  apply (X15_track_binds_and_reports Reaction_onBecomeObserved
           Reaction_onBecomeUnobserved 0%nat [2%nat; 3%nat; 3%nat] bound_state).
  - apply Reaction_hooks_frame.
  - apply Reaction_hooks_frame.
  - intros o s0. reflexivity.
  - intros o s0. reflexivity.
  - apply Reaction_hooks_scheduling.
  - apply Reaction_hooks_scheduling.
  - apply bound_state_linked.
  - apply bound_state_clean.
  - apply bound_state_no_holes.
  - reflexivity.
Defined.

(** ** From [schedule] to the bound reaction *)

Lemma schedule_fresh oi r s :
  _isScheduled (nodes s r) = false ->
  Reaction_schedule oi r s
  = runReactions oi
      (upd_globals (fun g => globalState.set_pendingReactions
                               (globalState.pendingReactions g ++ [r]) g)
         (upd_node r (set__isScheduled true) s)).
Proof. intros H. unfold Reaction_schedule. unfold_monad. by rewrite H. Qed.

Lemma runReaction_live oi r s :
  isDisposed (nodes s r) = false ->
  Reaction_runReaction oi r s
  = (oi r;;
     s' <- get_state;;
     spy <- (if _isTrackPending (nodes s' r) then isSpyEnabled else ret false);;
     if spy then spyReport (spy_scheduled_reaction r) else ret tt)
      (upd_node r (set__isTrackPending true) (upd_node r (set__isScheduled false) s)).
Proof. intros H. unfold Reaction_runReaction. unfold_monad. by rewrite H. Qed.

Lemma runReactions_batch_single oi r s :
  globalState.pendingReactions (globals s) = [r] ->
  runReactions_batch oi s
  = (Reaction_runReaction oi r;; ret tt)
      (upd_globals (globalState.set_currentReaction (Some r))
         (upd_globals (globalState.set_pendingReactions []) s)).
Proof. intros H. unfold runReactions_batch. unfold_monad. by rewrite H. Qed.

(** X16: from [schedule] to the bound reaction.  A reaction whose
    [onInvalidate] tracks a function reading the observables [deps r] is
    scheduled while the runner is idle, no transaction is open and the
    queue is empty: [schedule] returns after the reaction has run; the
    reaction then observes exactly [deps r], it is no longer scheduled,
    the queue is empty and the runner idle again, and the values of
    user code are untouched. *)
Theorem X16_schedule_runs_and_binds :
  forall (onBecomeObserved onBecomeUnobserved : nat -> M unit)
         (deps : nat -> list nat) (r : nat) (s : State),
    hook_frame r onBecomeObserved ->
    hook_frame r onBecomeUnobserved ->
    (forall o s0, is_return (onBecomeObserved o s0) = true) ->
    (forall o s0, is_return (onBecomeUnobserved o s0) = true) ->
    (forall o s0, scheduling_frame s0 (final (onBecomeObserved o s0))) ->
    (forall o s0, scheduling_frame s0 (final (onBecomeUnobserved o s0))) ->
    globalState.isRunningReactions (globals s) = false ->
    globalState.inTransaction (globals s) <= 0 ->
    globalState.pendingReactions (globals s) = [] ->
    _isScheduled (nodes s r) = false ->
    isDisposed (nodes s r) = false ->
    linked r s -> clean s ->
    None ∉ observing (nodes s r) ->
    exists s',
      Reaction_schedule
        (autorun_onInvalidate onBecomeObserved onBecomeUnobserved
           (fun this => reads (deps this))) r s
      = Return tt s'
      ∧ observing (nodes s' r) = Some <$> deps r
      ∧ (forall y, r ∈ observers (nodes s' y) <-> y ∈ deps r)
      ∧ _isScheduled (nodes s' r) = false
      ∧ globalState.pendingReactions (globals s') = []
      ∧ globalState.isRunningReactions (globals s') = false
      ∧ globalState.currentReaction (globals s') = None
      ∧ values s' = values s.
Proof.
  intros obO obU deps r s HO HU HOr HUr HOs HUs Hidle Htx Hq Hsched Hdisposed
         Hlink Hclean Hholes.
  set (oi := autorun_onInvalidate obO obU (fun this => reads (deps this))).
  set (s_a := upd_globals (fun g => globalState.set_pendingReactions
                                      (globalState.pendingReactions g ++ [r]) g)
                (upd_node r (set__isScheduled true) s)).
  set (s_b := upd_globals (globalState.set_isRunningReactions true) s_a).
  set (s_d := upd_globals (globalState.set_currentReaction (Some r))
                (upd_globals (globalState.set_pendingReactions []) s_b)).
  set (s_e := upd_node r (set__isTrackPending true)
                (upd_node r (set__isScheduled false) s_d)).
  assert (Hnodes : forall x,
             observing (nodes s_e x) = observing (nodes s x)
             ∧ observers (nodes s_e x) = observers (nodes s x)
             ∧ diffValue (nodes s_e x) = diffValue (nodes s x)
             ∧ isDisposed (nodes s_e x) = isDisposed (nodes s x)).
  { intros x. subst s_e s_d s_b s_a. cbn. by destruct (x =? r)%nat. }
  destruct (Reaction_track_reads obO obU r (deps r) s_e)
    as (s_t & Htrack & Hobs & Hmem & _ & Htp & _ & _ & Hsch & Hqt & Hrt & _ & Hv);
    try done.
  { apply (linked_ext r s); [| |exact Hlink].
    - by destruct (Hnodes r) as (-> & _).
    - intros A. by destruct (Hnodes A) as (_ & -> & _). }
  { intros x. destruct (Hnodes x) as (_ & _ & -> & _). apply Hclean. }
  { by destruct (Hnodes r) as (-> & _). }
  { destruct (Hnodes r) as (_ & _ & _ & ->). exact Hdisposed. }
  assert (Hbatch : runReactions_batch oi s_b = Return tt s_t).
  { rewrite (runReactions_batch_single oi r s_b)
      by (subst s_b s_a; cbn; by rewrite Hq).
    unfold bind at 1. fold s_d.
    rewrite (runReaction_live oi r s_d)
      by (subst s_d s_b s_a; cbn; rewrite Nat.eqb_refl; exact Hdisposed).
    fold s_e. unfold bind at 1.
    change (oi r s_e) with (Reaction_track obO obU r (reads (deps r)) s_e).
    rewrite Htrack. unfold_monad. by rewrite Htp. }
  assert (Hqt' : globalState.pendingReactions (globals s_t) = [])
    by (by rewrite Hqt).
  assert (Hw : runReactions_while oi MAX_REACTION_ITERATIONS 0 s_b = Return tt s_t).
  { apply (runReactions_while_converges oi 1);
      [unfold MAX_REACTION_ITERATIONS; lia|unfold MAX_REACTION_ITERATIONS; lia
      | |exact Hqt'].
    cbn [drain_rounds]. unfold bind at 1. by rewrite Hbatch. }
  exists (upd_globals (globalState.set_isRunningReactions false)
            (upd_globals (globalState.set_currentReaction None) s_t)).
  split.
  { rewrite (schedule_fresh oi r s Hsched). fold s_a.
    rewrite (runReactions_open oi s_a) by (subst s_a; done).
    fold s_b. unfold bind at 1. rewrite Hw. reflexivity. }
  cbn [nodes globals values upd_globals].
  split; [exact Hobs|]. split; [exact Hmem|].
  split; [rewrite Hsch; subst s_e; by rewrite !upd_node_same|].
  split; [exact Hqt'|]. split; [reflexivity|]. split; [reflexivity|].
  rewrite Hv. reflexivity.
Qed.

(** Reaction [0] of the initial state is scheduled with a function that
    reads [1], [2] and [1] again. *)
Lemma X16_schedule_runs_and_binds_witness :
  exists s',
    Reaction_schedule
      (autorun_onInvalidate Reaction_onBecomeObserved Reaction_onBecomeUnobserved
         (fun _ => reads [1%nat; 2%nat; 1%nat])) 0%nat initial_state
    = Return tt s'
    ∧ observing (nodes s' 0%nat) = Some <$> [1%nat; 2%nat; 1%nat]
    ∧ (forall y, 0%nat ∈ observers (nodes s' y) <-> y ∈ [1%nat; 2%nat; 1%nat])
    ∧ _isScheduled (nodes s' 0%nat) = false
    ∧ globalState.pendingReactions (globals s') = []
    ∧ globalState.isRunningReactions (globals s') = false
    ∧ globalState.currentReaction (globals s') = None
    ∧ values s' = values initial_state.
Proof.
  apply (X16_schedule_runs_and_binds Reaction_onBecomeObserved
           Reaction_onBecomeUnobserved (fun _ => [1%nat; 2%nat; 1%nat]) 0%nat
           initial_state).
  - apply Reaction_hooks_frame.
  - apply Reaction_hooks_frame.
  - intros o s0. reflexivity.
  - intros o s0. reflexivity.
  - apply Reaction_hooks_scheduling.
  - apply Reaction_hooks_scheduling.
  - reflexivity.
  - cbn. lia.
  - reflexivity.
  - reflexivity.
  - reflexivity.
  - intros A. cbn. split; [intros H; by apply elem_of_nil in H
                          |intros H; by apply not_elem_of_empty in H].
  - intros x. reflexivity.
  - cbn. apply not_elem_of_nil.
Defined.

(** ** From the first stale notification to the queue *)

Lemma wave_prefix_positive (l1 : list Notification) : forall l2 c,
  wave_from c (l1 ++ l2) = true -> l1 <> [] -> l2 <> [] ->
  0 < c + open_stale l1.
Proof.
  induction l1 as [|n l1 IH]; intros l2 c Hw H1 H2; [done|].
  cbn [app wave_from] in Hw.
  destruct (l1 ++ l2) as [|m rest] eqn:Happ.
  - apply app_eq_nil in Happ as [_ ->]. done.
  - apply andb_true_iff in Hw as [Hpos Hw]. apply Z.ltb_lt in Hpos.
    destruct l1 as [|n' l1'].
    + cbn [open_stale]. destruct n; lia.
    + rewrite <- Happ in Hw.
      specialize (IH l2 _ Hw ltac:(done) H2).
      cbn [open_stale] in *. destruct n; lia.
Qed.

(** X17: from the first stale notification to the queue.  A reaction at
    rest and not scheduled receives, inside a transaction, a wave of
    notifications of which one reports a change.  The wave returns and
    has appended the reaction to the queue, once, without running it;
    and [isScheduled] answers yes after any part of the wave, and after
    the whole of it. *)
Theorem X17_wave_schedules_the_reaction :
  forall (onInvalidate : nat -> M unit) (d : nat)
         (l : list Notification) (s : State),
    (forall r s0,
        dependencyStaleCount (nodes (final (onInvalidate r s0)) d)
        = dependencyStaleCount (nodes s0 d)) ->
    dependencyStaleCount (nodes s d) = 0 ->
    dependencyChangeCount (nodes s d) = 0 ->
    0 < globalState.inTransaction (globals s) ->
    _isScheduled (nodes s d) = false ->
    wave_from 0 l = true ->
    dependency_changed l = true ->
    exists s',
      for_each (notify unobserved_propagateStaleness unobserved_propagateReadiness
                  (Reaction_onDependenciesReady onInvalidate) d) l s
      = Return tt s'
      ∧ globalState.pendingReactions (globals s')
        = globalState.pendingReactions (globals s) ++ [d]
      ∧ values s' = values s
      ∧ Reaction_isScheduled d s' = Return true s'
      ∧ forall l1 l2 s1,
          l = l1 ++ l2 -> l1 <> [] -> l2 <> [] ->
          for_each (notify unobserved_propagateStaleness unobserved_propagateReadiness
                      (Reaction_onDependenciesReady onInvalidate) d) l1 s
          = Return tt s1 ->
          Reaction_isScheduled d s1 = Return true s1.
Proof.
  intros oi d l s Hoi Hc Hk Htx Hflag Hw Hch.
  destruct (wave_run (Reaction_onDependenciesReady oi) d s l s)
    as (s1 & Hco & Hc1 & Hk1 & Hrun).
  { apply counters_only_refl. }
  { lia. }
  { lia. }
  { by rewrite Hc. }
  rewrite Hk, Hch in Hrun. cbn [orb Z.ltb] in Hrun.
  destruct Hco as (Hx & Hd & Hg & _ & _ & _ & Hv).
  assert (Hflag1 : _isScheduled (nodes s1 d) = false).
  { rewrite Hd. destruct (nodes s d).
    unfold set_dependencyStaleCount, set_dependencyChangeCount. cbn in *. done. }
  set (s' := upd_globals (fun g => globalState.set_pendingReactions
                                     (globalState.pendingReactions g ++ [d]) g)
               (upd_node d (set__isScheduled true) s1)).
  assert (Hrun' : for_each (notify unobserved_propagateStaleness
                              unobserved_propagateReadiness
                              (Reaction_onDependenciesReady oi) d) l s
                  = Return tt s').
  { rewrite Hrun. unfold Reaction_onDependenciesReady. unfold bind.
    rewrite schedule_held by (right; by rewrite Hg).
    by rewrite Hflag1. }
  exists s'. split; [exact Hrun'|].
  split; [subst s'; cbn; by rewrite Hg|]. split; [subst s'; cbn; exact Hv|].
  split.
  { unfold Reaction_isScheduled. unfold_monad. subst s'. cbn [nodes upd_globals].
    rewrite upd_node_same. proj_simpl. by rewrite orb_true_r. }
  intros l1 l2 s2 -> Hl1 Hl2 Hrun2.
  pose proof (wave_prefix_positive l1 l2 0 Hw Hl1 Hl2) as Hpos.
  destruct (notifications_count unobserved_propagateStaleness
              unobserved_propagateReadiness (Reaction_onDependenciesReady oi) d
              ltac:(done) ltac:(done)) with (l := l1) (s := s) (s' := s2)
    as [Hcount _].
  { intros s0.
    apply (onDependenciesReady_frame
             (fun s3 => dependencyStaleCount (nodes s3 d)
                        = dependencyStaleCount (nodes s0 d)) oi); try done.
    - intros r b s3 H3. destruct (decide (d = r)) as [<-|Hne].
      + by rewrite upd_node_same.
      + by rewrite upd_node_other.
    - intros r b s3 H3. destruct (decide (d = r)) as [<-|Hne].
      + by rewrite upd_node_same.
      + by rewrite upd_node_other.
    - intros r s3 H3. by rewrite Hoi. }
  { exact Hrun2. }
  unfold Reaction_isScheduled. unfold_monad.
  assert (Hlt : (0 <? dependencyStaleCount (nodes s2 d)) = true)
    by (apply Z.ltb_lt; lia).
  by rewrite Hlt.
Qed.

Lemma X17_wave_schedules_the_reaction_witness :
  exists s',
    for_each (notify unobserved_propagateStaleness unobserved_propagateReadiness
                (Reaction_onDependenciesReady idle_onInvalidate) 0%nat)
      [Stale; Stale; Ready false; Ready true]
      (upd_globals (globalState.set_inTransaction 1) initial_state)
    = Return tt s'
    ∧ globalState.pendingReactions (globals s')
      = globalState.pendingReactions
          (globals (upd_globals (globalState.set_inTransaction 1) initial_state))
        ++ [0%nat]
    ∧ values s' = values (upd_globals (globalState.set_inTransaction 1) initial_state)
    ∧ Reaction_isScheduled 0%nat s' = Return true s'
    ∧ forall l1 l2 s1,
        [Stale; Stale; Ready false; Ready true] = l1 ++ l2 -> l1 <> [] -> l2 <> [] ->
        for_each (notify unobserved_propagateStaleness unobserved_propagateReadiness
                    (Reaction_onDependenciesReady idle_onInvalidate) 0%nat) l1
          (upd_globals (globalState.set_inTransaction 1) initial_state)
        = Return tt s1 ->
        Reaction_isScheduled 0%nat s1 = Return true s1.
Proof.
  apply (X17_wave_schedules_the_reaction idle_onInvalidate 0%nat
           [Stale; Stale; Ready false; Ready true]
           (upd_globals (globalState.set_inTransaction 1) initial_state)).
  - intros r s0. reflexivity.
  - reflexivity.
  - reflexivity.
  - cbn. lia.
  - reflexivity.
  - reflexivity.
  - reflexivity.
Defined.

(** ** A run that reads what the previous run read *)

Lemma reads_observers (l : list nat) s y :
  observers (nodes (final (reads l s)) y) = observers (nodes s y)
  ∧ diffValue (nodes (final (reads l s)) y) = diffValue (nodes s y).
Proof.
  unfold reads.
  apply (for_each_related
           (fun s0 s' => observers (nodes s' y) = observers (nodes s0 y)
                         ∧ diffValue (nodes s' y) = diffValue (nodes s0 y))
           reportObserved l).
  - done.
  - intros s1 s2 s3 [H1 H2] [H3 H4]. split; congruence.
  - intros o s0. unfold reportObserved. unfold_monad.
    destruct (globalState.isTracking (globals s0)); [|done].
    destruct (last (globalState.derivationStack (globals s0))) as [der|]; [|done].
    cbn [final]. destruct (decide (y = der)) as [->|Hne].
    + by rewrite !upd_node_same.
    + by rewrite !upd_node_other.
Qed.

Lemma add_stable_step d o s :
  d ∈ observers (nodes s o) ->
  -1 <= diffValue (nodes s o) <= 0 ->
  exists s',
    (forall obO, bindDependencies_add obO d (Some o) s = Return tt s')
    ∧ (forall y, observers (nodes s' y) = observers (nodes s y))
    ∧ (forall y, observing (nodes s' y) = observing (nodes s y))
    ∧ (forall y, diffValue (nodes s' y)
                 = if decide (y = o) then 0 else diffValue (nodes s y)).
Proof.
  intros Hd Hdiff.
  destruct (decide (diffValue (nodes s o) = -1)) as [Hm|Hm].
  - exists (upd_node o (set_diffValue 0) s). split; [|split; [|split]].
    + intros obO. unfold bindDependencies_add. unfold_monad. cbn [deref ret].
      by rewrite Hm.
    + intros y. apply observers_upd_diffValue.
    + intros y. apply observing_upd_diffValue.
    + intros y. apply diffValue_upd.
  - assert (Hz : diffValue (nodes s o) = 0) by lia.
    set (s1 := upd_node o (set_diffValue 0) (upd_node o (set_diffValue 1) s)).
    assert (Hobs1 : observers (nodes s1 o) = observers (nodes s o)).
    { subst s1. by rewrite !observers_upd_diffValue. }
    assert (Hunion : {[d]} ∪ observers (nodes s o) = observers (nodes s o)).
    { apply subseteq_union_1_L. by apply singleton_subseteq_l. }
    exists (upd_node o (set_observers ({[d]} ∪ observers (nodes s1 o))) s1).
    split; [|split; [|split]].
    + intros obO. unfold bindDependencies_add, addObserver. unfold_monad.
      cbn [deref ret]. rewrite Hz.
      change (0 <? 0 + 1) with true. change (0 + 1) with 1. cbv beta iota.
      fold s1. rewrite bool_decide_eq_false_2; [reflexivity|].
      rewrite Hobs1. intros Hempty. rewrite Hempty in Hd.
      by apply not_elem_of_empty in Hd.
    + intros y. rewrite observers_upd_observers.
      destruct (decide (y = o)) as [->|Hne].
      * by rewrite Hobs1, Hunion.
      * subst s1. by rewrite !observers_upd_diffValue.
    + intros y. rewrite observing_upd_observers. subst s1.
      by rewrite !observing_upd_diffValue.
    + intros y. rewrite diffValue_upd_observers. subst s1.
      rewrite !diffValue_upd. by destruct (decide (y = o)).
Qed.

Lemma add_loop_stable d (k : JsArray) : forall s,
  None ∉ k ->
  (forall y, Some y ∈ k -> d ∈ observers (nodes s y)) ->
  (forall y, -1 <= diffValue (nodes s y) <= 0) ->
  exists s',
    (forall obO, for_each (bindDependencies_add obO d) k s = Return tt s')
    ∧ (forall y, observers (nodes s' y) = observers (nodes s y))
    ∧ (forall y, observing (nodes s' y) = observing (nodes s y))
    ∧ (forall y, diffValue (nodes s' y)
                 = if decide (Some y ∈ k) then 0 else diffValue (nodes s y)).
Proof.
  induction k as [|x k IH]; intros s Hholes Hin Hdiff.
  - exists s. split; [done|]. split; [done|]. split; [done|].
    intros y. rewrite decide_False; [done|]. apply not_elem_of_nil.
  - destruct x as [o|]; [|exfalso; apply Hholes; by left].
    destruct (add_stable_step d o s) as (s1 & Hrun1 & Ho1 & Hi1 & Hd1).
    { apply Hin. by left. }
    { apply Hdiff. }
    destruct (IH s1) as (s2 & Hrun2 & Ho2 & Hi2 & Hd2).
    { intros Hn. apply Hholes. by right. }
    { intros y Hy. rewrite Ho1. apply Hin. by right. }
    { intros y. rewrite Hd1. destruct (decide (y = o)); [lia|apply Hdiff]. }
    exists s2. split; [|split; [|split]].
    + intros obO. cbn [for_each]. unfold bind. by rewrite Hrun1.
    + intros y. by rewrite Ho2.
    + intros y. by rewrite Hi2.
    + intros y. rewrite Hd2, Hd1.
      repeat case_decide; subst; try done; exfalso.
      * match goal with H : ¬ (_ ∈ _ :: _) |- _ => apply H end. by right.
      * match goal with H : ¬ (_ ∈ _ :: _) |- _ => apply H end. by left.
      * match goal with H : _ ∈ _ :: _ |- _ =>
          apply elem_of_cons in H as [[= ->]|?] end; done.
Qed.

Lemma remove_loop_stable obU d (prev : JsArray) s :
  None ∉ prev ->
  (forall y, Some y ∈ prev -> 0 <= diffValue (nodes s y)) ->
  for_each (bindDependencies_remove obU d) prev s = Return tt s.
Proof.
  induction prev as [|x prev IH]; intros Hholes Hdiff; [reflexivity|].
  destruct x as [o|]; [|exfalso; apply Hholes; by left].
  cbn [for_each]. unfold bind at 1. unfold bindDependencies_remove at 1.
  unfold_monad. cbn [deref ret].
  assert (Hge : (diffValue (nodes s o) <? 0) = false).
  { apply Z.ltb_ge. apply Hdiff. by left. }
  rewrite Hge. apply IH.
  - intros Hn. apply Hholes. by right.
  - intros y Hy. apply Hdiff. by right.
Qed.

(** X18: a run that reads what the previous run read fires no hook.
    When the observables a tracked function reads are those the
    derivation was bound to, in any order and with any repetition,
    [trackDerivedFunction] returns in one and the same state whatever
    the hooks [onBecomeObserved] and [onBecomeUnobserved] are: none is
    called.  The observer set of every observable is as before the run,
    and [observing] is the list of the reads. *)
Theorem X18_stable_dependencies_fire_no_hook :
  forall (d : nat) (l : list nat) (s : State),
    linked d s -> clean s ->
    None ∉ observing (nodes s d) ->
    (forall y, y ∈ l <-> Some y ∈ observing (nodes s d)) ->
    exists s',
      (forall onBecomeObserved onBecomeUnobserved : nat -> M unit,
          trackDerivedFunction onBecomeObserved onBecomeUnobserved d (reads l) s
          = Return tt s')
      ∧ observing (nodes s' d) = Some <$> l
      ∧ forall y, observers (nodes s' y) = observers (nodes s y).
Proof.
  intros d l s Hlink Hclean Hholes Hsame.
  destruct (reads_tracked d l s) as (s1 & Hf & Hg & Hnew).
  assert (Hfo : forall y, observers (nodes s1 y) = observers (nodes s y)
                          ∧ diffValue (nodes s1 y) = diffValue (nodes s y)).
  { intros y. pose proof (reads_observers l (tracking_state d s) y) as H.
    rewrite Hf in H. cbn [final] in H. destruct H as [-> ->].
    by destruct (tracking_state_nodes d s y) as (-> & -> & _). }
  set (prev := observing (nodes s d)) in *.
  set (s2 := upd_globals (globalState.set_derivationStack
                            (globalState.derivationStack (globals s)))
               (upd_globals (globalState.set_isTracking
                               (globalState.isTracking (globals s))) s1)).
  set (s3 := upd_node d (set_observing (Some <$> l)) s2).
  assert (Hin_new : forall y, Some y ∈ Some <$> l <-> y ∈ l).
  { intros y. rewrite list_elem_of_fmap. split.
    - intros (z & [= ->] & Hz). exact Hz.
    - intros Hy. by exists y. }
  assert (Hnew_holes : None ∉ Some <$> l).
  { intros (y & Hy & _)%list_elem_of_fmap. discriminate. }
  assert (Hmark : for_each bindDependencies_mark prev s3
                  = Return tt (final (for_each bindDependencies_mark prev s3))).
  { apply return_final. apply for_each_returns. by intros [o|] s0 Hx. }
  destruct (mark_loop prev s3 _ Hmark) as (Hd4 & Ho4 & Hi4).
  set (s4 := final (for_each bindDependencies_mark prev s3)) in *.
  assert (Ho3 : forall y, observers (nodes s3 y) = observers (nodes s y)).
  { intros y. subst s3. rewrite observers_upd_observing.
    change (nodes s2 y) with (nodes s1 y). apply Hfo. }
  assert (Hd3 : forall y, diffValue (nodes s3 y) = 0).
  { intros y. subst s3. rewrite diffValue_upd_observing.
    change (nodes s2 y) with (nodes s1 y).
    destruct (Hfo y) as [_ ->]. apply Hclean. }
  destruct (add_loop_stable d (Some <$> l) s4) as (s5 & Hadd & Ho5 & Hi5 & Hd5).
  { exact Hnew_holes. }
  { intros y Hy. rewrite Ho4, Ho3. apply Hlink. apply Hsame. by apply Hin_new. }
  { intros y. rewrite Hd4, Hd3. case_decide; lia. }
  assert (Hbind : forall obO obU,
             bindDependencies obO obU d prev s2 = Return tt s5).
  { intros obO obU. rewrite bindDependencies_unfold.
    change (nodes s2 d) with (nodes s1 d). rewrite Hnew. fold s3.
    unfold bind. rewrite Hmark. fold s4. rewrite Hadd.
    apply remove_loop_stable; [exact Hholes|].
    intros y Hy. rewrite Hd5. rewrite decide_True; [done|].
    apply Hin_new. by apply Hsame. }
  exists s5. split; [|split].
  - intros obO obU.
    rewrite trackDerivedFunction_unfold. unfold try_catch at 1. unfold bind at 1.
    rewrite Hf. unfold pop_derivationStack. unfold_monad. cbn [globals upd_globals].
    rewrite Hg.
    change (globalState.derivationStack
              (globalState.set_isTracking _ (globals (tracking_state d s))))
      with (globalState.derivationStack (globals s) ++ [d]).
    destruct (globalState.derivationStack (globals s) ++ [d]) as [|top stack] eqn:Hst;
      [by destruct (globalState.derivationStack (globals s))|].
    rewrite <- Hst. rewrite length_app. cbn [length].
    rewrite Nat.add_sub, take_app_length.
    change (upd_globals _ (upd_globals _ s1)) with s2.
    fold prev. by rewrite Hbind.
  - rewrite Hi5, Hi4. subst s3. by rewrite upd_node_same.
  - intros y. by rewrite Ho5, Ho4, Ho3.
Qed.

(** Derivation [0], bound to [1] and [2], reads [2], [1] and [2]
    again. *)
Lemma X18_stable_dependencies_fire_no_hook_witness :
  exists s',
    (forall onBecomeObserved onBecomeUnobserved : nat -> M unit,
        trackDerivedFunction onBecomeObserved onBecomeUnobserved 0%nat
          (reads [2%nat; 1%nat; 2%nat]) bound_state
        = Return tt s')
    ∧ observing (nodes s' 0%nat) = Some <$> [2%nat; 1%nat; 2%nat]
    ∧ forall y, observers (nodes s' y) = observers (nodes bound_state y).
Proof.
  apply (X18_stable_dependencies_fire_no_hook 0%nat [2%nat; 1%nat; 2%nat] bound_state).
  - apply bound_state_linked.
  - apply bound_state_clean.
  - apply bound_state_no_holes.
  - intros y. unfold bound_state. rewrite upd_node_same. cbn.
    unfold previous_observing. rewrite !elem_of_cons, !elem_of_nil.
    split.
    + intros [->|[->|[->|[]]]]; auto.
    + intros [[= <-]|[[= <-]|[]]]; auto.
Defined.

(** ** The rest of a batch whose reaction throws *)

Lemma runReactions_batch_throws oi s r rest e s' :
  globalState.pendingReactions (globals s) = r :: rest ->
  isDisposed (nodes s r) = false ->
  oi r (upd_node r (set__isTrackPending true)
          (upd_node r (set__isScheduled false)
             (upd_globals (globalState.set_currentReaction (Some r))
                (upd_globals (globalState.set_pendingReactions []) s))))
  = Throw e s' ->
  runReactions_batch oi s = Throw e s'.
Proof.
  intros Hq Hd Hoi. unfold runReactions_batch. unfold bind at 1. unfold get_state.
  rewrite Hq. unfold bind at 1. unfold modify at 1.
  cbn [for_each]. unfold bind at 1. unfold bind at 1. unfold modify at 1.
  rewrite runReaction_live by exact Hd.
  unfold bind at 1. by rewrite Hoi.
Qed.

Lemma runReactions_while_throws oi fuel iterations s e s' :
  globalState.pendingReactions (globals s) <> [] ->
  (S iterations =? MAX_REACTION_ITERATIONS)%nat = false ->
  fuel <> 0%nat ->
  runReactions_batch oi s = Throw e s' ->
  runReactions_while oi fuel iterations s = Throw e s'.
Proof.
  intros Hq Hmax Hfuel Hbatch. destruct fuel as [|fuel]; [done|].
  cbn [runReactions_while]. unfold_monad.
  destruct (globalState.pendingReactions (globals s)); [done|].
  by rewrite Hmax, Hbatch.
Qed.

(** X19: the rest of a batch whose reaction throws is stranded.  When
    the [onInvalidate] of the first pending reaction throws,
    [runReactions] throws the same exception.  The reactions that were
    queued behind it have been taken off the queue and have not run,
    and they are still flagged as scheduled, so that [schedule] does
    nothing for them, also after the global state has been reset: they
    do not run again. *)
Theorem X19_throw_strands_the_batch :
  forall (onInvalidate : nat -> M unit) (s s' : State)
         (r : nat) (rest : list nat) (e : JsError),
    globalState.isRunningReactions (globals s) = false ->
    globalState.inTransaction (globals s) <= 0 ->
    globalState.pendingReactions (globals s) = r :: rest ->
    isDisposed (nodes s r) = false ->
    r ∉ rest ->
    (forall x, x ∈ rest -> _isScheduled (nodes s x) = true) ->
    onInvalidate r
      (upd_node r (set__isTrackPending true)
         (upd_node r (set__isScheduled false)
            (upd_globals (globalState.set_currentReaction (Some r))
               (upd_globals (globalState.set_pendingReactions [])
                  (upd_globals (globalState.set_isRunningReactions true) s)))))
    = Throw e s' ->
    (forall x, x <> r -> _isScheduled (nodes s' x) = _isScheduled (nodes s x)) ->
    globalState.pendingReactions (globals s') = [] ->
    runReactions onInvalidate s = Throw e s'
    ∧ forall x, x ∈ rest ->
        (x ∉ globalState.pendingReactions (globals s'))
        ∧ _isScheduled (nodes s' x) = true
        ∧ forall onInvalidate' : nat -> M unit,
            Reaction_schedule onInvalidate' x s' = Return tt s'
            ∧ Reaction_schedule onInvalidate' x (final (resetGlobalState s'))
              = Return tt (final (resetGlobalState s')).
Proof.
  intros oi s s' r rest e Hidle Htx Hq Hd Hnotin Hflags Hoi Hframe Hq'.
  split.
  - rewrite runReactions_open by done. unfold bind at 1.
    rewrite (runReactions_while_throws oi MAX_REACTION_ITERATIONS 0
               (upd_globals (globalState.set_isRunningReactions true) s) e s');
      [reflexivity| |reflexivity|done|].
    + cbn. by rewrite Hq.
    + apply (runReactions_batch_throws oi _ r rest e s');
        [cbn; exact Hq|exact Hd|exact Hoi].
  - intros x Hx.
    assert (Hne : x <> r) by (intros ->; done).
    assert (Hfl : _isScheduled (nodes s' x) = true)
      by (rewrite Hframe by done; by apply Hflags).
    split; [rewrite Hq'; apply not_elem_of_nil|]. split; [exact Hfl|].
    intros oi'. split.
    + unfold Reaction_schedule. unfold_monad. by rewrite Hfl.
    + unfold Reaction_schedule, resetGlobalState. unfold_monad.
      cbn [final nodes upd_globals]. by rewrite Hfl.
Qed.

(** Reaction [1] throws: reactions [2] and [3], queued behind it, are
    stranded. *)
Lemma X19_throw_strands_the_batch_witness :
  exists e s',
    runReactions throwing_onInvalidate queued_state = Throw e s'
    ∧ forall x, x ∈ [2%nat; 3%nat] ->
        (x ∉ globalState.pendingReactions (globals s'))
        ∧ _isScheduled (nodes s' x) = true
        ∧ forall onInvalidate' : nat -> M unit,
            Reaction_schedule onInvalidate' x s' = Return tt s'
            ∧ Reaction_schedule onInvalidate' x (final (resetGlobalState s'))
              = Return tt (final (resetGlobalState s')).
Proof.
  eexists (Error "boom"), _.
  apply (X19_throw_strands_the_batch throwing_onInvalidate queued_state _
           1%nat [2%nat; 3%nat] (Error "boom")).
  - reflexivity.
  - vm_compute. discriminate.
  - reflexivity.
  - reflexivity.
  - intros H. repeat (apply elem_of_cons in H as [H|H]; [discriminate|]).
    by apply elem_of_nil in H.
  - intros x H. repeat (apply elem_of_cons in H as [->|H]; [reflexivity|]).
    by apply elem_of_nil in H.
  - reflexivity.
  - intros x Hx. cbn. destruct (x =? 1)%nat eqn:H1; [|reflexivity].
    apply Nat.eqb_eq in H1. done.
  - reflexivity.
Defined.
